(** * OBS_Discord_Notification: a shallow embedding of the Python sources

    The development follows the three source files:
    - [discordwebhooks/webhook.py]  (classes [DiscordEmbed], [DiscordWebhook]),
    - [pytwitch/twitch.py]          (class [Twitch]),
    - [discord-notification.py]     (classes [OBSScript],
      [DiscordNotificationScript]).

    Python values are modelled by the type [pyval], exceptions by [exn],
    and every method by a function in a state-and-exception monad whose
    state is the object the method mutates together with the outside
    world (network, standard output, clock). *)

From Stdlib Require Import ZArith List String Ascii Bool Lia Floats DecimalString.
Import ListNotations.
Open Scope string_scope.
Open Scope Z_scope.
Set Warnings "-register-all".

(* ================================================================== *)
(** * Python values *)
(* ================================================================== *)

(** A string is a sequence of code points below 256.  A dict is an
    association list in insertion order; lookup takes the first binding
    of a key.  Tuples are modelled as lists. *)
Inductive pyval : Type :=
| PNone
| PBool (b : bool)
| PInt (z : Z)
| PStr (s : string)
| PList (l : list pyval)
| PDict (d : list (string * pyval)).

(** The exception classes the sources raise or meet.  [ValueError] also
    stands for its subclass [JSONDecodeError]; [RequestException] stands
    for the transport errors of the HTTP library. *)
Inductive exn : Type :=
| ValueError (msg : string)
| AttributeError
| TypeError
| KeyError
| IndexError
| OverflowError
| NotAuthenticatedError (msg : string)
| RequestException.

Inductive res (A : Type) : Type :=
| Ok (a : A)
| Raise (e : exn).
Arguments Ok {A} a.
Arguments Raise {A} e.

Definition rbind {A B} (r : res A) (k : A -> res B) : res B :=
  match r with
  | Ok a => k a
  | Raise e => Raise e
  end.

Notation "x <~ r ;; k" := (rbind r (fun x => k))
  (at level 61, r at next level, right associativity).

(** ** Truth value, [is None], [len], iteration *)

Definition truthy (v : pyval) : bool :=
  match v with
  | PNone => false
  | PBool b => b
  | PInt z => negb (z =? 0)
  | PStr s => match s with EmptyString => false | _ => true end
  | PList l => match l with [] => false | _ => true end
  | PDict d => match d with [] => false | _ => true end
  end.

Definition is_none (v : pyval) : bool :=
  match v with PNone => true | _ => false end.

Definition str_len (s : string) : Z := Z.of_nat (String.length s).

Definition py_len (v : pyval) : res Z :=
  match v with
  | PStr s => Ok (str_len s)
  | PList l => Ok (Z.of_nat (List.length l))
  | PDict d => Ok (Z.of_nat (List.length d))
  | _ => Raise TypeError
  end.

Fixpoint chars (s : string) : list pyval :=
  match s with
  | EmptyString => []
  | String c r => PStr (String c EmptyString) :: chars r
  end.

(** The items a [for] loop (or an unpacking) draws from a value. *)
Definition py_iter (v : pyval) : res (list pyval) :=
  match v with
  | PStr s => Ok (chars s)
  | PList l => Ok l
  | PDict d => Ok (map (fun kv => PStr (fst kv)) d)
  | _ => Raise TypeError
  end.

(** ** Dicts *)

Fixpoint dict_get (d : list (string * pyval)) (k : string) : option pyval :=
  match d with
  | [] => None
  | (k', v) :: r => if String.eqb k' k then Some v else dict_get r k
  end.

(** [d[k] = v] *)
Fixpoint dict_set (d : list (string * pyval)) (k : string) (v : pyval)
  : list (string * pyval) :=
  match d with
  | [] => [(k, v)]
  | (k', v') :: r =>
      if String.eqb k' k then (k', v) :: r else (k', v') :: dict_set r k v
  end.

(** [v.get(k, dflt)]: only a dict has the method. *)
Definition method_get (v : pyval) (k : string) (dflt : pyval) : res pyval :=
  match v with
  | PDict d => Ok (match dict_get d k with Some x => x | None => dflt end)
  | _ => Raise AttributeError
  end.

(** [v[k]] with a string key. *)
Definition subscript_key (v : pyval) (k : string) : res pyval :=
  match v with
  | PDict d => match dict_get d k with Some x => Ok x | None => Raise KeyError end
  | _ => Raise TypeError
  end.

(** [v[0]] *)
Definition subscript_0 (v : pyval) : res pyval :=
  match v with
  | PList l => match l with x :: _ => Ok x | [] => Raise IndexError end
  | PStr s => match s with
              | String c _ => Ok (PStr (String c EmptyString))
              | EmptyString => Raise IndexError
              end
  | PDict _ => Raise KeyError
  | _ => Raise TypeError
  end.

(** ** Strings *)

Definition code (c : ascii) : Z := Z.of_nat (nat_of_ascii c).

(** [str.isspace] on one code point below 256. *)
Definition py_isspace (c : ascii) : bool :=
  let n := code c in
  ((9 <=? n) && (n <=? 13)) || ((28 <=? n) && (n <=? 32))
  || (n =? 133) || (n =? 160).

Fixpoint lstrip (s : string) : string :=
  match s with
  | EmptyString => EmptyString
  | String c r => if py_isspace c then lstrip r else s
  end.

Fixpoint rstrip (s : string) : string :=
  match s with
  | EmptyString => EmptyString
  | String c r =>
      match rstrip r with
      | EmptyString => if py_isspace c then EmptyString else String c EmptyString
      | r' => String c r'
      end
  end.

(** [s.strip()] *)
Definition strip (s : string) : string := rstrip (lstrip s).

Definition is_digit (c : ascii) : bool :=
  (48 <=? code c) && (code c <=? 57).

Fixpoint all_chars (p : ascii -> bool) (s : string) : bool :=
  match s with
  | EmptyString => true
  | String c r => p c && all_chars p r
  end.

(** [s.isdecimal()] *)
Definition isdecimal (s : string) : bool :=
  match s with
  | EmptyString => false
  | _ => all_chars is_digit s
  end.

(** [s.replace(old, new)] for a non-empty [old]: occurrences are replaced
    from left to right without overlap.  [skip] counts the characters of
    an occurrence that are still to be passed over. *)
Fixpoint replace_from (old new s : string) (skip : nat) : string :=
  match s with
  | EmptyString => EmptyString
  | String c r =>
      match skip with
      | S k => replace_from old new r k
      | O =>
          if String.prefix old s
          then String.append new (replace_from old new r (String.length old - 1))
          else String c (replace_from old new r O)
      end
  end.

Definition replace (s old new : string) : string := replace_from old new s O.

(** Decimal text of an integer, as [str] and f-strings print it. *)
Definition str_of_Z (z : Z) : string := NilZero.string_of_int (Z.to_int z).

Definition hex_digit (n : Z) : ascii :=
  ascii_of_nat (Z.to_nat (if n <? 10 then 48 + n else 87 + n)).

Definition printable (c : ascii) : bool :=
  let n := code c in
  ((32 <=? n) && (n <? 127)) || ((161 <=? n) && negb (n =? 173)).

Fixpoint contains_char (a : ascii) (s : string) : bool :=
  match s with
  | EmptyString => false
  | String c r => Ascii.eqb a c || contains_char a r
  end.

Definition backslash : ascii := ascii_of_nat 92.
Definition dquote : ascii := ascii_of_nat 34.
Definition squote : ascii := ascii_of_nat 39.

Fixpoint repr_chars (quote : ascii) (s : string) : string :=
  match s with
  | EmptyString => EmptyString
  | String c r =>
      let rest := repr_chars quote r in
      if Ascii.eqb c quote || Ascii.eqb c backslash
      then String backslash (String c rest)
      else if code c =? 9 then String backslash (String "t"%char rest)
      else if code c =? 10 then String backslash (String "n"%char rest)
      else if code c =? 13 then String backslash (String "r"%char rest)
      else if printable c then String c rest
      else String backslash (String "x"%char
             (String (hex_digit (code c / 16))
                (String (hex_digit (code c mod 16)) rest)))
  end.

(** [repr(s)] of a string: single quotes, unless the text holds a single
    quote and no double quote. *)
Definition repr_str (s : string) : string :=
  let quote :=
    if contains_char squote s && negb (contains_char dquote s)
    then dquote else squote in
  String quote (String.append (repr_chars quote s) (String quote EmptyString)).

(** [repr(v)] and [str(v)], the text an f-string interpolates. *)
Fixpoint py_repr (v : pyval) : string :=
  match v with
  | PNone => "None"
  | PBool true => "True"
  | PBool false => "False"
  | PInt z => str_of_Z z
  | PStr s => repr_str s
  | PList l =>
      String.append "["
        (String.append
           ((fix items (l : list pyval) : string :=
               match l with
               | [] => EmptyString
               | x :: r =>
                   String.append (py_repr x)
                     match r with
                     | [] => EmptyString
                     | _ => String.append ", " (items r)
                     end
               end) l) "]")
  | PDict d =>
      String.append "{"
        (String.append
           ((fix items (d : list (string * pyval)) : string :=
               match d with
               | [] => EmptyString
               | (k, x) :: r =>
                   String.append (repr_str k)
                     (String.append ": "
                        (String.append (py_repr x)
                           match r with
                           | [] => EmptyString
                           | _ => String.append ", " (items r)
                           end))
               end) d) "}")
  end.

Definition py_str (v : pyval) : string :=
  match v with
  | PStr s => s
  | _ => py_repr v
  end.

(** Hashability, as needed to put a value in a set: a list or a dict is
    not hashable. *)
Definition hashable (v : pyval) : bool :=
  match v with
  | PList _ | PDict _ => false
  | _ => true
  end.

(* ================================================================== *)
(** * The state-and-exception monad *)
(* ================================================================== *)

(** A computation runs on a state and yields a result or an exception
    together with the state reached: what was mutated before a [raise]
    stays mutated. *)
Definition M (S A : Type) : Type := S -> res A * S.

Definition ret {S A} (a : A) : M S A := fun s => (Ok a, s).

Definition raise {S A} (e : exn) : M S A := fun s => (Raise e, s).

Definition bind {S A B} (m : M S A) (k : A -> M S B) : M S B :=
  fun s =>
    match m s with
    | (Ok a, s') => k a s'
    | (Raise e, s') => (Raise e, s')
    end.

Notation "x <- m ;; k" := (bind m (fun x => k))
  (at level 61, m at next level, right associativity).
Notation "m ;;; k" := (bind m (fun _ => k))
  (at level 61, right associativity).

Definition get {S} : M S S := fun s => (Ok s, s).
Definition put {S} (s : S) : M S unit := fun _ => (Ok tt, s).
Definition modify {S} (f : S -> S) : M S unit := fun s => (Ok tt, f s).

(** A pure step that may raise. *)
Definition lift {S A} (r : res A) : M S A := fun s => (r, s).

(** [try: m  except <classes>: h]. *)
Definition try_except {S A} (m : M S A) (catches : exn -> bool)
  (h : exn -> M S A) : M S A :=
  fun s =>
    match m s with
    | (Ok a, s') => (Ok a, s')
    | (Raise e, s') => if catches e then h e s' else (Raise e, s')
    end.

(** [try: m  except <classes>: h  else: k].  The [else] suite runs after
    a body that did not raise, and is not guarded by the handlers. *)
Definition try_except_else {S A B} (m : M S A) (catches : exn -> bool)
  (h : exn -> M S B) (k : A -> M S B) : M S B :=
  fun s =>
    match m s with
    | (Ok a, s') => k a s'
    | (Raise e, s') => if catches e then h e s' else (Raise e, s')
    end.

(** [try: m  finally: f]. *)
Definition try_finally {S A} (m : M S A) (f : M S unit) : M S A :=
  fun s =>
    match m s with
    | (r, s') =>
        match f s' with
        | (Ok _, s'') => (r, s'')
        | (Raise e, s'') => (Raise e, s'')
        end
    end.

(** [for x in l: body x] *)
Fixpoint for_each {S A} (l : list A) (body : A -> M S unit) : M S unit :=
  match l with
  | [] => ret tt
  | x :: r => body x ;;; for_each r body
  end.

(** Run a computation on a component of the state. *)
Definition zoom {S T A} (proj : S -> T) (upd : T -> S -> S) (m : M T A)
  : M S A :=
  fun s => match m (proj s) with (r, t') => (r, upd t' s) end.

Definition is_ValueError (e : exn) : bool :=
  match e with ValueError _ => true | _ => false end.

Definition is_NotAuthenticatedError (e : exn) : bool :=
  match e with NotAuthenticatedError _ => true | _ => false end.

(** The message of an exception, as [f'{err}'] prints it. *)
Definition exn_str (e : exn) : string :=
  match e with
  | ValueError m => m
  | NotAuthenticatedError m => m
  | _ => EmptyString
  end.

(* ================================================================== *)
(** * discordwebhooks/webhook.py: class DiscordEmbed *)
(* ================================================================== *)

Module Limits.
Definition TitleLength : Z := 256.
Definition DescriptionLength : Z := 2048.
Definition Fields : Z := 25.
Definition FieldNameLength : Z := 256.
Definition FieldValueLength : Z := 1024.
Definition FooterTextLength : Z := 2048.
Definition AuthorNameLength : Z := 256.
Definition MaxLength : Z := 6000.
End Limits.

(** The twelve attributes of an embed object.  Each holds an arbitrary
    Python value, [PNone] when unset. *)
Record DiscordEmbed : Type := mkEmbed {
  _title : pyval;
  _description : pyval;
  _url : pyval;
  _timestamp : pyval;
  _color : pyval;
  _footer : pyval;
  _image : pyval;
  _thumbnail : pyval;
  _video : pyval;
  _provider : pyval;
  _author : pyval;
  _fields : pyval
}.

(** [kwargs.get(k)] and [kwargs.get(k, dflt)] *)
Definition kwarg (kwargs : list (string * pyval)) (k : string) (dflt : pyval)
  : pyval :=
  match dict_get kwargs k with Some v => v | None => dflt end.

(** The constructor, called with keyword arguments [kwargs]. *)
Definition DiscordEmbed_init (kwargs : list (string * pyval)) : DiscordEmbed :=
  {| _title := kwarg kwargs "title" PNone;
     _description := kwarg kwargs "description" PNone;
     _url := kwarg kwargs "url" PNone;
     _timestamp := kwarg kwargs "timestamp" PNone;
     _color := kwarg kwargs "color" PNone;
     _footer := kwarg kwargs "footer" PNone;
     _image := kwarg kwargs "image" PNone;
     _thumbnail := kwarg kwargs "thumbnail" PNone;
     _video := kwarg kwargs "video" PNone;
     _provider := kwarg kwargs "provider" PNone;
     _author := kwarg kwargs "author" PNone;
     _fields := kwarg kwargs "fields" (PList []) |}.

(** [v or ''] *)
Definition or_empty (v : pyval) : pyval := if truthy v then v else PStr "".

(** The target [(x, y)] of a [for] clause: the item must yield exactly
    two values. *)
Definition unpack2 (item : pyval) : res (pyval * pyval) :=
  l <~ py_iter item ;;
  match l with
  | [x; y] => Ok (x, y)
  | [] => Raise (ValueError "not enough values to unpack (expected 2, got 0)")
  | [_] => Raise (ValueError "not enough values to unpack (expected 2, got 1)")
  | _ => Raise (ValueError "too many values to unpack (expected 2)")
  end.

(** [len(x) + len(y)  for (x, y) in [item]] *)
Definition pair_length (item : pyval) : res Z :=
  xy <~ unpack2 item ;;
  lx <~ py_len (fst xy) ;;
  ly <~ py_len (snd xy) ;;
  Ok (lx + ly).

(** The elements the comprehension of [embed_length] produces for one
    field [f]: the inner [for] runs over the two-element list
    [[f.get('name', ''), f.get('value', '')]]. *)
Definition field_lengths (f : pyval) : res (list Z) :=
  name <~ method_get f "name" (PStr "") ;;
  value <~ method_get f "value" (PStr "") ;;
  a <~ pair_length name ;;
  b <~ pair_length value ;;
  Ok [a; b].

Fixpoint fields_lengths (fs : list pyval) : res (list Z) :=
  match fs with
  | [] => Ok []
  | f :: r =>
      here <~ field_lengths f ;;
      rest <~ fields_lengths r ;;
      Ok (here ++ rest)%list
  end.

Definition sum (l : list Z) : Z := fold_left Z.add l 0.

Definition embed_length (e : DiscordEmbed) : res Z :=
  t <~ py_len (or_empty (_title e)) ;;
  d <~ py_len (or_empty (_description e)) ;;
  fo <~ (if is_none (_footer e) then Ok 0
         else (x <~ method_get (_footer e) "text" (PStr "") ;; py_len x)) ;;
  au <~ (if is_none (_author e) then Ok 0
         else (x <~ method_get (_author e) "name" (PStr "") ;; py_len x)) ;;
  fi <~ (if is_none (_fields e) then Ok 0
         else (fs <~ py_iter (_fields e) ;;
               ls <~ fields_lengths fs ;;
               Ok (sum ls))) ;;
  Ok (t + d + fo + au + fi).

Definition is_empty (e : DiscordEmbed) : bool :=
  forallb is_none
    [ _title e; _description e; _url e; _timestamp e; _color e; _footer e;
      _image e; _thumbnail e; _video e; _provider e; _author e; _fields e ].

Definition is_embed_valid (e : DiscordEmbed) : res bool :=
  n <~ embed_length e ;;
  Ok ((n <=? Limits.MaxLength) && negb (is_empty e)).

(** ** Setters.  Their arguments have the types the signatures
    annotate: [Optional[str]] is [option string], [int] is [Z]. *)

Definition opt_str (o : option string) : pyval :=
  match o with Some s => PStr s | None => PNone end.
Definition opt_int (o : option Z) : pyval :=
  match o with Some z => PInt z | None => PNone end.

Definition upd_title (v : pyval) (e : DiscordEmbed) : DiscordEmbed :=
  mkEmbed v (_description e) (_url e) (_timestamp e) (_color e) (_footer e)
    (_image e) (_thumbnail e) (_video e) (_provider e) (_author e) (_fields e).
Definition upd_description (v : pyval) (e : DiscordEmbed) : DiscordEmbed :=
  mkEmbed (_title e) v (_url e) (_timestamp e) (_color e) (_footer e)
    (_image e) (_thumbnail e) (_video e) (_provider e) (_author e) (_fields e).
Definition upd_url (v : pyval) (e : DiscordEmbed) : DiscordEmbed :=
  mkEmbed (_title e) (_description e) v (_timestamp e) (_color e) (_footer e)
    (_image e) (_thumbnail e) (_video e) (_provider e) (_author e) (_fields e).
Definition upd_timestamp (v : pyval) (e : DiscordEmbed) : DiscordEmbed :=
  mkEmbed (_title e) (_description e) (_url e) v (_color e) (_footer e)
    (_image e) (_thumbnail e) (_video e) (_provider e) (_author e) (_fields e).
Definition upd_color (v : pyval) (e : DiscordEmbed) : DiscordEmbed :=
  mkEmbed (_title e) (_description e) (_url e) (_timestamp e) v (_footer e)
    (_image e) (_thumbnail e) (_video e) (_provider e) (_author e) (_fields e).
Definition upd_footer (v : pyval) (e : DiscordEmbed) : DiscordEmbed :=
  mkEmbed (_title e) (_description e) (_url e) (_timestamp e) (_color e) v
    (_image e) (_thumbnail e) (_video e) (_provider e) (_author e) (_fields e).
Definition upd_image (v : pyval) (e : DiscordEmbed) : DiscordEmbed :=
  mkEmbed (_title e) (_description e) (_url e) (_timestamp e) (_color e)
    (_footer e) v (_thumbnail e) (_video e) (_provider e) (_author e) (_fields e).
Definition upd_thumbnail (v : pyval) (e : DiscordEmbed) : DiscordEmbed :=
  mkEmbed (_title e) (_description e) (_url e) (_timestamp e) (_color e)
    (_footer e) (_image e) v (_video e) (_provider e) (_author e) (_fields e).
Definition upd_video (v : pyval) (e : DiscordEmbed) : DiscordEmbed :=
  mkEmbed (_title e) (_description e) (_url e) (_timestamp e) (_color e)
    (_footer e) (_image e) (_thumbnail e) v (_provider e) (_author e) (_fields e).
Definition upd_provider (v : pyval) (e : DiscordEmbed) : DiscordEmbed :=
  mkEmbed (_title e) (_description e) (_url e) (_timestamp e) (_color e)
    (_footer e) (_image e) (_thumbnail e) (_video e) v (_author e) (_fields e).
Definition upd_author (v : pyval) (e : DiscordEmbed) : DiscordEmbed :=
  mkEmbed (_title e) (_description e) (_url e) (_timestamp e) (_color e)
    (_footer e) (_image e) (_thumbnail e) (_video e) (_provider e) v (_fields e).
Definition upd_fields (v : pyval) (e : DiscordEmbed) : DiscordEmbed :=
  mkEmbed (_title e) (_description e) (_url e) (_timestamp e) (_color e)
    (_footer e) (_image e) (_thumbnail e) (_video e) (_provider e) (_author e) v.

Definition set_title (title : option string) : M DiscordEmbed unit :=
  match title with
  | Some s =>
      if truthy (PStr s) then
        let s' := strip s in
        if str_len s' >? Limits.TitleLength
        then raise (ValueError "Embed title length is too long")
        else modify (upd_title (PStr s'))
      else modify (upd_title (PStr s))
  | None => modify (upd_title PNone)
  end.

Definition set_description (description : option string) : M DiscordEmbed unit :=
  match description with
  | Some s =>
      if truthy (PStr s) then
        let s' := strip s in
        if str_len s' >? Limits.DescriptionLength
        then raise (ValueError "Embed description length is too long")
        else modify (upd_description (PStr s'))
      else modify (upd_description (PStr s))
  | None => modify (upd_description PNone)
  end.

Definition set_url (url : option string) : M DiscordEmbed unit :=
  modify (upd_url (opt_str url)).

(** [now] is the text [datetime.now().astimezone().isoformat()] yields
    at the time of the call. *)
Definition set_timestamp (timestamp : option string) (now : string)
  : M DiscordEmbed unit :=
  match timestamp with
  | None => modify (upd_timestamp PNone)
  | Some s =>
      if truthy (PStr s) then modify (upd_timestamp (PStr s))
      else modify (upd_timestamp (PStr now))
  end.

Definition set_color_decimal (color : option Z) : M DiscordEmbed unit :=
  modify (upd_color (opt_int color)).

Definition set_color_rgb (r g b : Z) : M DiscordEmbed unit :=
  if existsb (fun v => v >? 255) [r; g; b]
  then raise (ValueError
         ("Invalid rgb color given (r:" ++ str_of_Z r ++ ", g:" ++ str_of_Z g
          ++ ", b:" ++ str_of_Z b ++ "). Values must be 0 <= color <= 255"))
  else modify (upd_color (PInt (r * 2 ^ 16 + g * 2 ^ 8 + b))).

(** *** [int(text, 16)]: optional surrounding white space, an optional
    sign, an optional [0x] prefix (one underscore may follow it), then
    hexadecimal digits, single underscores allowed between digits. *)

(** The white space [int] skips around the literal: the ASCII white
    space of C ([\t \n \v \f \r] and the space) and the white space
    above 127, which the conversion turns into spaces first.  The
    separators [\x1c] to [\x1f], which [str.strip] removes, are not
    skipped. *)
Definition int_isspace (c : ascii) : bool :=
  let n := code c in
  ((9 <=? n) && (n <=? 13)) || (n =? 32) || (n =? 133) || (n =? 160).

Fixpoint int_lstrip (s : string) : string :=
  match s with
  | EmptyString => EmptyString
  | String c r => if int_isspace c then int_lstrip r else s
  end.

Fixpoint int_rstrip (s : string) : string :=
  match s with
  | EmptyString => EmptyString
  | String c r =>
      match int_rstrip r with
      | EmptyString => if int_isspace c then EmptyString else String c EmptyString
      | r' => String c r'
      end
  end.

Definition hex_value (c : ascii) : option Z :=
  let n := code c in
  if (48 <=? n) && (n <=? 57) then Some (n - 48)
  else if (97 <=? n) && (n <=? 102) then Some (n - 87)
  else if (65 <=? n) && (n <=? 70) then Some (n - 55)
  else None.

Fixpoint hex_body (s : string) (acc : Z) (after_digit : bool) : option Z :=
  match s with
  | EmptyString => if after_digit then Some acc else None
  | String c r =>
      if Ascii.eqb c "_"%char
      then (if after_digit then hex_body r acc false else None)
      else match hex_value c with
           | Some d => hex_body r (16 * acc + d) true
           | None => None
           end
  end.

Definition hex_unsigned (s : string) : option Z :=
  match s with
  | String "0"%char (String x r) =>
      if Ascii.eqb x "x"%char || Ascii.eqb x "X"%char
      then match r with
           | String "_"%char r' => hex_body r' 0 false
           | _ => hex_body r 0 false
           end
      else hex_body s 0 false
  | _ => hex_body s 0 false
  end.

Definition int_base16 (text : string) : res Z :=
  let bad := Raise (ValueError
               ("invalid literal for int() with base 16: " ++ repr_str text)) in
  match int_rstrip (int_lstrip text) with
  | String "-"%char r =>
      match hex_unsigned r with Some n => Ok (- n) | None => bad end
  | String "+"%char r =>
      match hex_unsigned r with Some n => Ok n | None => bad end
  | s => match hex_unsigned s with Some n => Ok n | None => bad end
  end.

Definition set_color_hex (hexcolor : string) : M DiscordEmbed unit :=
  let hexcolor := replace hexcolor "#" "" in
  if str_len hexcolor >? 6
  then raise (ValueError
    "Hex color is invalid, must be 24 bits or no more than 6 hex characters")
  else
    n <- lift (int_base16 (replace hexcolor "#" "")) ;;
    modify (upd_color (PInt n)).

Definition set_footer (footer : string) : M DiscordEmbed unit :=
  modify (upd_footer (PStr (strip footer))).

(** [if v: d[k] = v] *)
Definition set_if (v : pyval) (k : string) (d : list (string * pyval))
  : list (string * pyval) :=
  if truthy v then dict_set d k v else d.

Definition set_image (url : string) (proxy_url : option string)
  (width height : option Z) : M DiscordEmbed unit :=
  if negb (truthy (PStr url)) then modify (upd_image PNone)
  else
    modify (upd_image (PDict
      (set_if (opt_int height) "height"
         (set_if (opt_int width) "width"
            (set_if (opt_str proxy_url) "proxy_url" [("url", PStr url)]))))).

(** The class declares [thumbnail] with [@property] and gives it no
    setter: the assignment [self.thumbnail = v] raises. *)
Definition assign_property_thumbnail (v : pyval) : M DiscordEmbed unit :=
  raise AttributeError.

(** [self.thumbnail[k] = v]: the property getter yields [self._thumbnail],
    whose item is then assigned. *)
Definition thumbnail_setitem (k : string) (v : pyval) : M DiscordEmbed unit :=
  e <- get ;;
  match _thumbnail e with
  | PDict d => put (upd_thumbnail (PDict (dict_set d k v)) e)
  | _ => raise TypeError
  end.

Definition set_thumbnail (url : string) (proxy_url : option string)
  (width height : option Z) : M DiscordEmbed unit :=
  if negb (truthy (PStr url)) then assign_property_thumbnail PNone
  else
    assign_property_thumbnail (PDict [("url", PStr url)]) ;;;
    (if truthy (opt_str proxy_url)
     then thumbnail_setitem "proxy_url" (opt_str proxy_url) else ret tt) ;;;
    (if truthy (opt_int width)
     then thumbnail_setitem "width" (opt_int width) else ret tt) ;;;
    (if truthy (opt_int height)
     then thumbnail_setitem "height" (opt_int height) else ret tt).

(** The accessor [thumbnail]. *)
Definition thumbnail (e : DiscordEmbed) : pyval := _thumbnail e.

Definition set_video (url : string) (width height : option Z)
  : M DiscordEmbed unit :=
  if negb (truthy (PStr url)) then modify (upd_video PNone)
  else
    modify (upd_video (PDict
      (set_if (opt_int height) "height"
         (set_if (opt_int width) "width" [("url", PStr url)])))).

Definition set_provider (url name : string) : M DiscordEmbed unit :=
  modify (upd_provider (PDict [("url", PStr url); ("name", PStr name)])).

Definition set_author (name : string) (url icon_url proxy_icon_url : option string)
  : M DiscordEmbed unit :=
  modify (upd_author (PDict
    (set_if (opt_str proxy_icon_url) "proxy_icon_url"
       (set_if (opt_str icon_url) "icon_url"
          (set_if (opt_str url) "ur" [("name", PStr (strip name))]))))).

Definition add_field (name value : string) (inline : option bool)
  : M DiscordEmbed unit :=
  e <- get ;;
  n <- lift (py_len (_fields e)) ;;
  if n =? Limits.Fields
  then raise (ValueError "Cannot add another field to embed, limit is 25")
  else
    let field := [("name", PStr (strip name)); ("value", PStr (strip value))] in
    let field := match inline with
                 | Some b => dict_set field "inline" (PBool b)
                 | None => field
                 end in
    match _fields e with
    | PList l => put (upd_fields (PList (l ++ [PDict field])%list) e)
    | _ => raise AttributeError
    end.

(** [if v: data[k] = v] on the dict under construction. *)
Definition entry (k : string) (v : pyval) : list (string * pyval) :=
  if truthy v then [(k, v)] else [].

(** The property [json]: the wire form of the embed. *)
Definition json (e : DiscordEmbed) : list (string * pyval) :=
  (entry "title" (_title e) ++ entry "description" (_description e)
   ++ entry "url" (_url e) ++ entry "timestamp" (_timestamp e)
   ++ entry "color" (_color e) ++ entry "footer" (_footer e)
   ++ entry "image" (_image e) ++ entry "thumbnail" (_thumbnail e)
   ++ entry "video" (_video e) ++ entry "provider" (_provider e)
   ++ entry "author" (_author e) ++ entry "fields" (_fields e))%list.

(* ================================================================== *)
(** * The outside world: HTTP, standard output, clock, files *)
(* ================================================================== *)

Inductive method : Type := GET | POST.

(** A call of [requests.get] or [requests.post], with the keyword
    arguments the sources pass. *)
Record Request : Type := mkRequest {
  req_method : method;
  req_url : string;
  req_headers : list (string * pyval);
  req_params : list (string * pyval);
  req_json : option pyval
}.

(** What the sources read of a [requests.Response]: [body] is the
    decoded JSON document, [None] when the text is not JSON. *)
Record Response : Type := mkResponse {
  status_code : Z;
  headers : list (string * string);
  text : string;
  body : option pyval
}.

Inductive net_result : Type :=
| Reply (r : Response)
| Unreachable.

(** A piece of a printed line: literal text, an interpolated value, or
    an interpolated object whose text form is not modelled. *)
Inductive piece : Type :=
| Lit (s : string)
| Val (v : pyval)
| Obj (name : string).

(** What a path names on disk. *)
Inductive file_state : Type :=
| NoFile
| FileJson (v : pyval)
| FileMalformed (msg : string)
| FileVanished
| FileUnreadable (msg : string).

(** [net n r] is the outcome of request [r] when it is the [n]-th
    request sent; [sent] logs the requests in order; [stdout] the lines
    printed; [clock] is the local time in ISO 8601 form. *)
Record World : Type := mkWorld {
  net : nat -> Request -> net_result;
  sent : list Request;
  stdout : list (list piece);
  clock : string;
  files : string -> file_state
}.

Definition print (line : list piece) : M World unit :=
  modify (fun w =>
    mkWorld (net w) (sent w) (stdout w ++ [line])%list (clock w) (files w)).

(** [requests.get] / [requests.post] *)
Definition http (r : Request) : M World Response :=
  fun w =>
    let w' := mkWorld (net w) (sent w ++ [r])%list (stdout w) (clock w) (files w) in
    match net w (List.length (sent w)) r with
    | Reply resp => (Ok resp, w')
    | Unreachable => (Raise RequestException, w')
    end.

(** [response.json()] *)
Definition response_json (r : Response) : res pyval :=
  match body r with
  | Some v => Ok v
  | None => Raise (ValueError "JSONDecodeError")
  end.

Definition newline : string := String (ascii_of_nat 10) EmptyString.

(* ================================================================== *)
(** * discordwebhooks/webhook.py: class DiscordWebhook *)
(* ================================================================== *)

Definition EMBED_LIMIT : Z := 10.

Definition target : Type := (string * option string * option string)%type.

Record DiscordWebhook : Type := mkWebhook {
  _urls : list target;
  _content : option string;
  _embeds : option (list DiscordEmbed)
}.

Definition DiscordWebhook_init (urls : list target) (content : option string)
  (embeds : option (list DiscordEmbed)) : res DiscordWebhook :=
  if Z.of_nat (List.length urls) =? 0
  then Raise (ValueError "Must include at least one webhook url")
  else Ok (mkWebhook urls content embeds).

Definition __has_valid_message (h : DiscordWebhook) : bool :=
  match _content h with
  | Some c => str_len c >? 0
  | None => false
  end
  ||
  match _embeds h with
  | Some es => Z.of_nat (List.length es) >? 0
  | None => false
  end.

Definition set_content (content : option string) : M DiscordWebhook unit :=
  modify (fun h => mkWebhook (_urls h) content (_embeds h)).

Definition add_embed (embed : option DiscordEmbed) : M DiscordWebhook unit :=
  h <- get ;;
  match _embeds h with
  | None => raise TypeError
  | Some es =>
      if Z.of_nat (List.length es) =? EMBED_LIMIT
      then raise (ValueError "Cannot add another embed, limit is 10")
      else match embed with
           | None => raise (ValueError "Attempted to add an embed of None")
           | Some e => put (mkWebhook (_urls h) (_content h) (Some (es ++ [e])%list))
           end
  end.

(** [[x.json for x in embeds if x.is_embed_valid()]] *)
Fixpoint valid_jsons (es : list DiscordEmbed) : res (list pyval) :=
  match es with
  | [] => Ok []
  | x :: r =>
      ok <~ is_embed_valid x ;;
      rest <~ valid_jsons r ;;
      Ok (if ok then PDict (json x) :: rest else rest)
  end.

(** The JSON body [__execute] builds for one target. *)
Definition json_payload (h : DiscordWebhook) (username avatar_url : option string)
  : res (list (string * pyval)) :=
  let p := set_if (opt_str (_content h)) "content" [] in
  p <~ match _embeds h with
       | Some (x :: r) =>
           js <~ valid_jsons (x :: r) ;; Ok (dict_set p "embeds" (PList js))
       | _ => Ok p
       end ;;
  let p := set_if (opt_str username) "username" p in
  Ok (set_if (opt_str avatar_url) "avatar_url" p).

(** The request [__execute] posts to one target. *)
Definition webhook_post (url : string) (payload : list (string * pyval))
  : Request :=
  mkRequest POST url [("Content-Type", PStr "application/json")]
    [("wait", PStr "true")] (Some (PDict payload)).

Definition __execute (h : DiscordWebhook) (url : string)
  (username avatar_url : option string) : M World unit :=
  if negb (__has_valid_message h)
  then raise (ValueError
         "Cannot execute webhook, content or embeds were not defined.")
  else
    payload <- lift (json_payload h username avatar_url) ;;
    print [Lit ("Webhook json_payload:" ++ newline); Val (PDict payload)] ;;;
    hook_res <- http (webhook_post url payload) ;;
    print [Lit "Webhook response: "; Lit (text hook_res)] ;;;
    if negb (status_code hook_res =? 200)
    then print [Lit "Error sending webhook. "; Lit (text hook_res)]
    else ret tt.

Definition execute (h : DiscordWebhook) : M World unit :=
  if negb (__has_valid_message h)
  then raise (ValueError
         "Did not define at least one of the content or embed field")
  else
    for_each (_urls h)
      (fun t => __execute h (fst (fst t)) (snd (fst t)) (snd t)).

Definition execute_on_urls (urls : list target) (content : option string)
  (embeds : option (list DiscordEmbed)) : M World unit :=
  hook <- lift (DiscordWebhook_init urls content embeds) ;;
  execute hook.

(** ** Building an embed by a sequence of setter calls *)

Inductive setter_call : Type :=
| Set_title (title : option string)
| Set_description (description : option string)
| Set_url (url : option string)
| Set_timestamp (timestamp : option string) (now : string)
| Set_color_decimal (color : option Z)
| Set_color_rgb (r g b : Z)
| Set_color_hex (hexcolor : string)
| Set_footer (footer : string)
| Set_image (url : string) (proxy_url : option string) (width height : option Z)
| Set_thumbnail (url : string) (proxy_url : option string) (width height : option Z)
| Set_video (url : string) (width height : option Z)
| Set_provider (url name : string)
| Set_author (name : string) (url icon_url proxy_icon_url : option string)
| Add_field (name value : string) (inline : option bool).

Definition call (c : setter_call) : M DiscordEmbed unit :=
  match c with
  | Set_title t => set_title t
  | Set_description d => set_description d
  | Set_url u => set_url u
  | Set_timestamp t now => set_timestamp t now
  | Set_color_decimal c => set_color_decimal c
  | Set_color_rgb r g b => set_color_rgb r g b
  | Set_color_hex h => set_color_hex h
  | Set_footer f => set_footer f
  | Set_image u p w h => set_image u p w h
  | Set_thumbnail u p w h => set_thumbnail u p w h
  | Set_video u w h => set_video u w h
  | Set_provider u n => set_provider u n
  | Set_author n u i p => set_author n u i p
  | Add_field n v i => add_field n v i
  end.

(** The wire key of the attribute a setter stores into. *)
Definition key_of (c : setter_call) : string :=
  match c with
  | Set_title _ => "title"
  | Set_description _ => "description"
  | Set_url _ => "url"
  | Set_timestamp _ _ => "timestamp"
  | Set_color_decimal _ | Set_color_rgb _ _ _ | Set_color_hex _ => "color"
  | Set_footer _ => "footer"
  | Set_image _ _ _ _ => "image"
  | Set_thumbnail _ _ _ _ => "thumbnail"
  | Set_video _ _ _ => "video"
  | Set_provider _ _ => "provider"
  | Set_author _ _ _ _ => "author"
  | Add_field _ _ _ => "fields"
  end.

(** The object after the calls [cs], made in order on [e]; a call that
    raises leaves the object as it stands and the next call goes on. *)
Definition build (cs : list setter_call) (e : DiscordEmbed) : DiscordEmbed :=
  fold_left (fun e c => snd (call c e)) cs e.

(** Whether some call of [cs] stores into the attribute of key [k]. *)
Definition touched (k : string) (cs : list setter_call) : bool :=
  existsb (fun c => String.eqb (key_of c) k) cs.

(** The attribute serialized under the wire key [k]. *)
Definition attribute (k : string) (e : DiscordEmbed) : option pyval :=
  if String.eqb "title" k then Some (_title e)
  else if String.eqb "description" k then Some (_description e)
  else if String.eqb "url" k then Some (_url e)
  else if String.eqb "timestamp" k then Some (_timestamp e)
  else if String.eqb "color" k then Some (_color e)
  else if String.eqb "footer" k then Some (_footer e)
  else if String.eqb "image" k then Some (_image e)
  else if String.eqb "thumbnail" k then Some (_thumbnail e)
  else if String.eqb "video" k then Some (_video e)
  else if String.eqb "provider" k then Some (_provider e)
  else if String.eqb "author" k then Some (_author e)
  else if String.eqb "fields" k then Some (_fields e)
  else None.

(** The reading "the wire form holds exactly the keys of the non-null
    attributes": key [k] is present if and only if its attribute is not
    [None]. *)
Definition keys_are_non_null_attributes (e : DiscordEmbed) : Prop :=
  forall k v, attribute k e = Some v ->
    (v <> PNone <-> dict_get (json e) k <> None).

(** A world whose network answers every request with status [status]
    and an empty body, with nothing sent or printed yet. *)
Definition quiet_world (status : Z) : World :=
  mkWorld (fun _ _ => Reply (mkResponse status [] "" None)) [] [] 
    "2021-03-01T12:00:00+00:00" (fun _ => NoFile).

(** The requests [execute] posts: one for each target, with the payload
    built for it. *)
Definition posts (urls : list target) (payloads : list (list (string * pyval)))
  : list Request :=
  map (fun tp => webhook_post (fst (fst (fst tp))) (snd tp)) (combine urls payloads).

(** The network of [w] answers every request. *)
Definition always_replies (w : World) : Prop :=
  forall n r, exists resp, net w n r = Reply resp.

(* ================================================================== *)
(** * pytwitch/twitch.py: class Twitch *)
(* ================================================================== *)

Module TwitchLimits.
Definition UserRequests : Z := 100.
Definition VideoRequests : Z := 100.
Definition GamesRequests : Z := 100.
End TwitchLimits.

Module APIURL.
Definition AuthToken : string := "https://id.twitch.tv/oauth2/token".
Definition RevokeToken : string := "https://id.twitch.tv/oauth2/revoke".
Definition ValidateToken : string := "https://id.twitch.tv/oauth2/validate".
Definition Users : string := "https://api.twitch.tv/helix/users".
Definition Channels : string := "https://api.twitch.tv/helix/channels".
Definition Videos : string := "https://api.twitch.tv/helix/videos".
Definition Games : string := "https://api.twitch.tv/helix/games".
End APIURL.

Record Twitch : Type := mkTwitch {
  _client_id : pyval;
  _client_secret : pyval;
  _access_token : pyval;
  _refresh_token : pyval;
  _is_authenticated : bool;
  _scopes : option (list string)
}.

(** A method of [Twitch] runs on the object and the world. *)
Definition Session : Type := (Twitch * World)%type.

Definition self : M Session Twitch := fun s => (Ok (fst s), s).

Definition io {A} (m : M World A) : M Session A :=
  zoom snd (fun w s => (fst s, w)) m.

Definition on_self (f : Twitch -> Twitch) : M Session unit :=
  modify (fun s => (f (fst s), snd s)).

Definition with_client_id (v : pyval) (t : Twitch) : Twitch :=
  mkTwitch v (_client_secret t) (_access_token t) (_refresh_token t)
    (_is_authenticated t) (_scopes t).
Definition with_client_secret (v : pyval) (t : Twitch) : Twitch :=
  mkTwitch (_client_id t) v (_access_token t) (_refresh_token t)
    (_is_authenticated t) (_scopes t).
Definition with_access_token (v : pyval) (t : Twitch) : Twitch :=
  mkTwitch (_client_id t) (_client_secret t) v (_refresh_token t)
    (_is_authenticated t) (_scopes t).
Definition with_refresh_token (v : pyval) (t : Twitch) : Twitch :=
  mkTwitch (_client_id t) (_client_secret t) (_access_token t) v
    (_is_authenticated t) (_scopes t).
Definition with_is_authenticated (b : bool) (t : Twitch) : Twitch :=
  mkTwitch (_client_id t) (_client_secret t) (_access_token t)
    (_refresh_token t) b (_scopes t).

(** The property [authenticated]. *)
Definition authenticated (t : Twitch) : bool := _is_authenticated t.

Definition __oauth : M Session unit :=
  t <- self ;;
  let params := [("client_id", _client_id t); ("client_secret", _client_secret t)] in
  let params :=
    match _scopes t with
    | Some (x :: r) => dict_set params "scopes" (PStr (String.concat " " (x :: r)))
    | _ => params
    end in
  if negb (is_none (_refresh_token t)) then
    let params := dict_set params "refresh_token" (_refresh_token t) in
    let params := dict_set params "grant_type" (PStr "refresh_token") in
    auth_res <- io (http (mkRequest POST APIURL.AuthToken [] params None)) ;;
    if negb (status_code auth_res =? 200)
    then raise (ValueError "Invalid ClientID or ClientSecret")
    else ret tt
  else
    let params := dict_set params "grant_type" (PStr "client_credentials") in
    auth_res <- io (http (mkRequest POST APIURL.AuthToken [] params None)) ;;
    if negb (status_code auth_res =? 200)
    then raise (ValueError "Invalid ClientID or ClientSecret")
    else
      auth_data <- lift (response_json auth_res) ;;
      tok <- lift (method_get auth_data "access_token" PNone) ;;
      on_self (with_access_token tok) ;;;
      rtok <- lift (method_get auth_data "refresh_token" PNone) ;;
      on_self (with_refresh_token rtok) ;;;
      if is_none tok
      then io (print [Lit "Could not retrieve twitch access token"])
      else ret tt.

(** Lower case of a code point below 256, for the case-insensitive
    header lookup of the HTTP library. *)
Definition lower_char (c : ascii) : ascii :=
  let n := code c in
  if ((65 <=? n) && (n <=? 90))
     || ((192 <=? n) && (n <=? 222) && negb (n =? 215))
  then ascii_of_nat (Z.to_nat (n + 32)) else c.

Fixpoint lower (s : string) : string :=
  match s with
  | EmptyString => EmptyString
  | String c r => String (lower_char c) (lower r)
  end.

(** [response.headers[k]] *)
Fixpoint header (hs : list (string * string)) (k : string) : res string :=
  match hs with
  | [] => Raise KeyError
  | (k', v) :: r => if String.eqb (lower k') (lower k) then Ok v else header r k
  end.

(** The challenge text [__validate_response] compares with. *)
Definition invalid_token_challenge : string :=
  "OAuth realm='TwitchTV', error='invalid_token".

Definition __validate_response (request_response : Response) : M Session bool :=
  let sc := status_code request_response in
  if sc =? 401 then
    challenge <- lift (header (headers request_response) "WWW-Authenticate") ;;
    if String.eqb challenge invalid_token_challenge then
      try_except (__oauth ;;; ret true) is_ValueError
        (fun _ => io (print [Lit "Cannot validate user access"]) ;;; ret false)
    else ret true
  else if negb (sc =? 200) then
    io (print [Lit "Could not validate response, bad response ";
               Lit (text request_response)]) ;;;
    ret false
  else ret true.

(** The headers every API request carries. *)
Definition api_headers (t : Twitch) : list (string * pyval) :=
  [("Client-ID", _client_id t);
   ("Authorization", PStr ("Bearer " ++ py_str (_access_token t)))].

(** The result is [None] when the response does not validate. *)
Definition __attempt_request_get (url : string) (params : list (string * pyval))
  : M Session (option Response) :=
  t <- self ;;
  response <- io (http (mkRequest GET url (api_headers t) params None)) ;;
  ok <- __validate_response response ;;
  if ok then ret (Some response) else ret None.

Definition __attempt_request_post (url : string) (params : list (string * pyval))
  : M Session (option Response) :=
  t <- self ;;
  response <- io (http (mkRequest POST url (api_headers t) params None)) ;;
  ok <- __validate_response response ;;
  if ok then ret (Some response) else ret None.

(** [response == 200], where [response] is the response object: the
    class [requests.Response] defines no [__eq__] and an [int] does not
    compare with it, so the test is the default identity test of two
    distinct objects. *)
Definition response_eq_int (response : Response) (n : Z) : bool := false.

Definition validate_token (access_token : pyval) : M World pyval :=
  if negb (truthy access_token)
  then raise (ValueError "No access_token given, cannot validate")
  else
    response <- http (mkRequest GET APIURL.ValidateToken
                        [("Authorization", PStr ("OAuth " ++ py_str access_token))]
                        [] None) ;;
    if response_eq_int response 200 then
      j <- lift (response_json response) ;;
      lift (method_get j "client_id" PNone)
    else ret PNone.

Definition revoke_request (client_id access_token : pyval) : Request :=
  mkRequest POST APIURL.RevokeToken []
    [("client_id", client_id); ("token", access_token)] None.

Definition revoke_access (client_id access_token : pyval) : M World unit :=
  if negb (truthy client_id)
  then raise (ValueError "Invalid client_id provided")
  else if negb (truthy access_token)
  then raise (ValueError "Invalid access_token provided")
  else
    _ <- http (revoke_request client_id access_token) ;;
    ret tt.

Definition revoke_my_access : M Session unit :=
  t <- self ;;
  io (revoke_access (_client_id t) (_access_token t)) ;;;
  on_self (with_is_authenticated false).

(** The object [__init__] starts from. *)
Definition blank (scopes : option (list string)) : Twitch :=
  mkTwitch PNone PNone PNone PNone false scopes.

Definition __init__ (auth_info : pyval) : M Session unit :=
  access_token <- lift (method_get auth_info "access_token" PNone) ;;
  client_id <- lift (method_get auth_info "client_id" PNone) ;;
  client_secret <- lift (method_get auth_info "client_secret" PNone) ;;
  (if negb (is_none access_token) then
     on_self (with_access_token access_token) ;;;
     t <- self ;;
     cid <- io (validate_token (_access_token t)) ;;
     on_self (with_client_id cid) ;;;
     on_self (with_is_authenticated (negb (is_none cid)))
   else if negb (is_none client_id) && negb (is_none client_secret) then
     io (print [Lit "Attempting to get access token with provided client_id and client_secret..."]) ;;;
     on_self (with_client_id client_id) ;;;
     on_self (with_client_secret client_secret) ;;;
     try_except_else __oauth is_ValueError
       (fun err =>
          io (print [Lit "Could not authenticate: "; Lit (exn_str err)]) ;;;
          on_self (with_is_authenticated false))
       (fun _ => on_self (with_is_authenticated true))
   else
     raise (ValueError
       "Could not authtenticate with twitch, invalid credentials provided")) ;;;
  t <- self ;;
  if _is_authenticated t
  then io (print [Lit "Successfully authenticated with twitch."])
  else io (print [Lit "Could not authenticate with twitch, invalid credentials."]).

(** [Twitch(auth_info, scopes)]: the new object, or the exception that
    escapes the constructor. *)
Definition Twitch_new (auth_info : pyval) (scopes : option (list string))
  : M World Twitch :=
  fun w =>
    match __init__ auth_info (blank scopes, w) with
    | (Ok _, (t, w')) => (Ok t, w')
    | (Raise e, (_, w')) => (Raise e, w')
    end.

(** ** Metadata operations *)

(** [v.isdecimal()]: only a string has the method. *)
Definition method_isdecimal (v : pyval) : res bool :=
  match v with
  | PStr s => Ok (isdecimal s)
  | _ => Raise AttributeError
  end.

(** The loop that sorts ids into numeric ids (sent as [num]) and names
    (sent as [name]). *)
Fixpoint classify (num name : string) (ids : list pyval)
  : res (list (string * pyval)) :=
  match ids with
  | [] => Ok []
  | id :: r =>
      d <~ method_isdecimal id ;;
      rest <~ classify num name r ;;
      Ok ((if d then (num, id) else (name, id)) :: rest)
  end.

(** A list of pairs as the value an f-string interpolates. *)
Definition pairs_val (l : list (string * pyval)) : pyval :=
  PList (map (fun kv => PList [PStr (fst kv); snd kv]) l).

Definition get_users_info (ids : list pyval) : M Session pyval :=
  let n := Z.of_nat (List.length ids) in
  if n >? TwitchLimits.UserRequests
  then raise (ValueError
         ("Requesting too many ids (" ++ str_of_Z n ++ "). Please reduce below "
          ++ str_of_Z TwitchLimits.UserRequests))
  else
    payload <- lift (classify "id" "login" ids) ;;
    io (print [Lit "Getting user request with payload: "; Val (pairs_val payload)]) ;;;
    response <- __attempt_request_get APIURL.Users payload ;;
    match response with
    | Some r =>
        j <- lift (response_json r) ;;
        lift (method_get j "data" (PList []))
    | None =>
        io (print [Lit "There was an error with the get_users_info request. Payload ";
                   Val (pairs_val payload)]) ;;;
        ret PNone
    end.

Definition get_user_info (user : pyval) : M Session pyval :=
  info <- get_users_info [user] ;;
  if truthy info then
    n <- lift (py_len info) ;;
    if n =? 1 then lift (subscript_0 info) else ret PNone
  else ret PNone.

Definition get_channel_info (user_id : pyval) : M Session pyval :=
  response <- __attempt_request_get APIURL.Channels [("broadcaster_id", user_id)] ;;
  match response with
  | None => ret PNone
  | Some r =>
      res_json <- lift (response_json r) ;;
      data <- lift (method_get res_json "data" PNone) ;;
      if is_none data then ret PNone
      else
        n <- lift (py_len data) ;;
        if n =? 0 then ret PNone else lift (subscript_0 data)
  end.

(** The operation is modelled for calls without further keyword
    arguments.  The result is [None] or the pair of the videos and the
    pagination cursor. *)
Definition get_videos_info (video_ids user_id game_id : pyval) : M Session pyval :=
  if negb (forallb hashable [video_ids; user_id; game_id]) then raise TypeError
  else if forallb is_none [video_ids; user_id; game_id]
  then raise (ValueError
    "Expected any combination of video_ids, user_id, or game_id to be specified")
  else
    p1 <- (if truthy video_ids then
             n <- lift (py_len video_ids) ;;
             if n >? TwitchLimits.VideoRequests
             then raise (ValueError
                    ("Requested too many video ids (" ++ str_of_Z n
                     ++ "), please reduce to "
                     ++ str_of_Z TwitchLimits.VideoRequests ++ " or less"))
             else
               ids <- lift (py_iter video_ids) ;;
               ret (map (fun id => ("id", id)) ids)
           else ret []) ;;
    let p2 := if truthy user_id then (p1 ++ [("user_id", user_id)])%list else p1 in
    let payload := if truthy game_id then (p2 ++ [("game_id", game_id)])%list else p2 in
    response <- __attempt_request_get APIURL.Videos payload ;;
    match response with
    | None => ret PNone
    | Some r =>
        res_json <- lift (response_json r) ;;
        video_data <- lift (method_get res_json "data" (PList [])) ;;
        pg <- lift (method_get res_json "pagination" (PDict [])) ;;
        pagination <- lift (method_get pg "cursor" PNone) ;;
        n <- lift (py_len video_data) ;;
        if n =? 0 then ret PNone else ret (PList [video_data; pagination])
    end.

Definition get_games_info (games : list pyval) : M Session pyval :=
  let n := Z.of_nat (List.length games) in
  if n >? TwitchLimits.GamesRequests
  then raise (ValueError
         ("Requested too many game ids (" ++ str_of_Z n ++ "), please reduce to "
          ++ str_of_Z TwitchLimits.GamesRequests ++ " or less"))
  else
    payload <- lift (classify "id" "name" games) ;;
    response <- __attempt_request_get APIURL.Games payload ;;
    match response with
    | None => ret PNone
    | Some r =>
        res_json <- lift (response_json r) ;;
        data <- lift (method_get res_json "data" (PList [])) ;;
        n <- lift (py_len data) ;;
        if n =? 0 then ret PNone else ret data
    end.

Definition get_game_info (game : pyval) : M Session pyval :=
  data <- get_games_info [game] ;;
  if is_none data then ret PNone
  else
    n <- lift (py_len data) ;;
    if n =? 0 then ret PNone else lift (subscript_0 data).

(* ================================================================== *)
(** * discord-notification.py *)
(* ================================================================== *)

(** ** Floating point: [BOXART_RATIO] and [round] *)

(** Conversion of an [int] to a [float] (binary64, round to nearest
    even), as the product of an [int] and a [float] performs it. *)
Definition float_of_int (z : Z) : res float :=
  let f := SF2Prim (binary_normalize prec emax z 0 false) in
  if PrimFloat.is_infinity f then Raise OverflowError else Ok f.

Definition BOXART_RATIO : float :=
  PrimFloat.div (SF2Prim (binary_normalize prec emax 13 0 false))
                (SF2Prim (binary_normalize prec emax 18 0 false)).

(** The integer nearest to [m * 2^e], ties going to the even one. *)
Definition round_half_even (m e : Z) : Z :=
  if 0 <=? e then m * 2 ^ e
  else
    let d := 2 ^ (- e) in
    let q := m / d in
    let r := m mod d in
    if 2 * r <? d then q
    else if 2 * r >? d then q + 1
    else if Z.even q then q else q + 1.

(** [round(x)] of a float, an [int]. *)
Definition py_round (x : float) : res Z :=
  match Prim2SF x with
  | S754_zero _ => Ok 0
  | S754_infinity _ => Raise OverflowError
  | S754_nan => Raise (ValueError "cannot convert float NaN to integer")
  | S754_finite s m e =>
      let n := round_half_even (Zpos m) e in
      Ok (if s then - n else n)
  end.

(** ** The script object *)

(** The attributes the methods read or write; the attributes kept for
    the former Twitter support are never read and are left out.  The
    auth path is the text of the [Path] object. *)
Record DiscordNotificationScript : Type := mkScript {
  _discord_start_msg : option string;
  _discord_stop_msg : option string;
  _username : pyval;
  _boxart_height : Z;
  _twitch_auth_path : string;
  _hooks_list : list string;
  _twitch : option Twitch;
  _is_streaming : bool;
  _loaded : bool;
  _do_discord_start_notice : bool;
  _do_discord_stop_notice : bool
}.

(** The object the module creates at import time. *)
Definition DiscordNotificationScript_new : DiscordNotificationScript :=
  mkScript None None PNone 72 "." [] None false false false false.

Definition with_twitch (t : option Twitch) (s : DiscordNotificationScript)
  : DiscordNotificationScript :=
  mkScript (_discord_start_msg s) (_discord_stop_msg s) (_username s)
    (_boxart_height s) (_twitch_auth_path s) (_hooks_list s) t
    (_is_streaming s) (_loaded s) (_do_discord_start_notice s)
    (_do_discord_stop_notice s).

Definition with_is_streaming (b : bool) (s : DiscordNotificationScript)
  : DiscordNotificationScript :=
  mkScript (_discord_start_msg s) (_discord_stop_msg s) (_username s)
    (_boxart_height s) (_twitch_auth_path s) (_hooks_list s) (_twitch s)
    b (_loaded s) (_do_discord_start_notice s) (_do_discord_stop_notice s).

Definition with_loaded (b : bool) (s : DiscordNotificationScript)
  : DiscordNotificationScript :=
  mkScript (_discord_start_msg s) (_discord_stop_msg s) (_username s)
    (_boxart_height s) (_twitch_auth_path s) (_hooks_list s) (_twitch s)
    (_is_streaming s) b (_do_discord_start_notice s) (_do_discord_stop_notice s).

(** A method of the script runs on the object and the world. *)
Definition Env : Type := (DiscordNotificationScript * World)%type.

Definition this : M Env DiscordNotificationScript := fun s => (Ok (fst s), s).

Definition out {A} (m : M World A) : M Env A :=
  zoom snd (fun w s => (fst s, w)) m.

Definition on_this (f : DiscordNotificationScript -> DiscordNotificationScript)
  : M Env unit :=
  modify (fun s => (f (fst s), snd s)).

(** A method call on [self._twitch]; on [None] the attribute lookup
    raises. *)
Definition twitch_call {A} (m : M Session A) : M Env A :=
  fun s =>
    match _twitch (fst s) with
    | None => (Raise AttributeError, s)
    | Some t =>
        match m (t, snd s) with
        | (r, (t', w')) => (r, (with_twitch (Some t') (fst s), w'))
        end
    end.

(** [self._twitch.authenticated] *)
Definition twitch_authenticated : M Env bool :=
  twitch_call (t <- self ;; ret (authenticated t)).

Definition load_json_file (file_path : string) : M World pyval :=
  w <- get ;;
  match files w file_path with
  | NoFile =>
      print [Lit "Tried to load invalid file "; Lit file_path] ;;; ret PNone
  | FileJson v => ret v
  | FileMalformed msg =>
      print [Lit "There was an error loading twitter auth information from ";
             Lit file_path; Lit ": "; Lit msg] ;;;
      ret PNone
  | FileVanished =>
      print [Lit "Could not find file "; Lit file_path] ;;; ret PNone
  | FileUnreadable msg =>
      print [Lit "There was an error opening the file "; Lit file_path;
             Lit " --- "; Lit msg] ;;;
      ret PNone
  end.

(** [path.is_file()] *)
Definition is_file (w : World) (path : string) : bool :=
  match files w path with NoFile => false | _ => true end.

Definition __authenticate_twitch : M Env unit :=
  out (print [Lit "Authenticating with twitch..."]) ;;;
  s <- this ;;
  try_except_else (out (load_json_file (_twitch_auth_path s))) is_ValueError
    (fun err => out (print [Lit (exn_str err)]))
    (fun auth =>
       if is_none auth then
         out (print [Lit "Invalid data in twitch auth file ";
                     Lit (_twitch_auth_path s)])
       else
         t <- out (Twitch_new auth None) ;;
         on_this (with_twitch (Some t)) ;;;
         if authenticated t then
           out (print [Lit "Twitch Authentication successful, access token acquired."])
         else
           on_this (with_twitch None) ;;;
           out (print [Lit "Could not authenticate with twitch, please check your client_id, client_secret, or access_token are valid"])).

Definition __attempt_authentication (twitch : bool) : M Env unit :=
  sw <- get ;;
  let s := fst sw in
  if twitch && is_file (snd sw) (_twitch_auth_path s)
     && match _twitch s with
        | None => true
        | Some t => negb (authenticated t)
        end
  then __authenticate_twitch
  else ret tt.

Definition __on_frontend_loaded : M Env unit :=
  out (print [Lit "Frontend has loaded, attempting authentication"]) ;;;
  __attempt_authentication true ;;;
  on_this (with_loaded true).

Definition __unauthenticate_twitch : M Env unit :=
  s <- this ;;
  match _twitch s with
  | Some t => if authenticated t then twitch_call revoke_my_access else ret tt
  | None => ret tt
  end.

(** The tuple [__get_relavent_channel_info] returns. *)
Record channel_info : Type := mkInfo {
  ci_name : pyval;
  ci_title : pyval;
  ci_game_name : pyval;
  ci_game_id : pyval;
  ci_boxart_url : string;
  ci_width : Z;
  ci_height : Z
}.

(** [v.replace(old, new)]: only a string has the method. *)
Definition method_replace (v : pyval) (old new : string) : res string :=
  match v with
  | PStr s => Ok (replace s old new)
  | _ => Raise AttributeError
  end.

Definition __get_relavent_channel_info (user_id : pyval) : M Env channel_info :=
  auth <- twitch_authenticated ;;
  if negb auth
  then raise (NotAuthenticatedError
         "Cannot retrieve channel information, not authenticated with twitch.")
  else
    user_id <- (if negb (truthy user_id) then
                  s <- this ;;
                  user_info <- twitch_call (get_user_info (_username s)) ;;
                  if is_none user_info
                  then raise (ValueError "Invalid twitch username")
                  else lift (method_get user_info "id" PNone)
                else ret user_id) ;;
    info <- twitch_call (get_channel_info user_id) ;;
    if is_none info then raise (ValueError "Invalid user id")
    else
      game_name <- lift (subscript_key info "game_name") ;;
      game_id <- lift (subscript_key info "game_id") ;;
      title <- lift (subscript_key info "title") ;;
      name <- lift (subscript_key info "broadcaster_name") ;;
      g <- twitch_call (get_game_info game_id) ;;
      let game_info := if truthy g then g else PDict [] in
      s <- this ;;
      h <- lift (float_of_int (_boxart_height s)) ;;
      width <- lift (py_round (PrimFloat.mul h BOXART_RATIO)) ;;
      let height := _boxart_height s in
      template <- lift (method_get game_info "box_art_url" (PStr "")) ;;
      boxart_url <- lift (method_replace template "{width}x{height}"
                            (str_of_Z width ++ "x" ++ str_of_Z height)) ;;
      ret (mkInfo name title game_name game_id boxart_url width height).

Definition hook_targets (hooks : list string) : list target :=
  map (fun url => (url, None, None)) hooks.

(** The embed [__on_start] sends. *)
Definition start_embed (s : DiscordNotificationScript) (i : channel_info)
  (now : string) : DiscordEmbed :=
  let title := py_str (ci_name i) ++ " is streaming " ++ py_str (ci_game_name i)
               ++ " on twitch.tv  | " ++ py_str (ci_title i) in
  let stream_url := "https://www.twitch.tv/" ++ py_str (_username s) ++ "/" in
  snd (set_timestamp (Some "") now
         (DiscordEmbed_init
            [("title", PStr title);
             ("url", PStr stream_url);
             ("image", PDict [("url", PStr (ci_boxart_url i));
                              ("width", PInt (ci_width i));
                              ("height", PInt (ci_height i))])])).

(** The [else] suite of the [try] statement of [__on_start], run on the
    tuple the lookup returned. *)
Definition __on_start_else (i : channel_info) : M Env unit :=
  sw <- get ;;
  let s := fst sw in
  if _do_discord_start_notice s then
    out (execute_on_urls (hook_targets (_hooks_list s))
           (_discord_start_msg s)
           (Some [start_embed s i (clock (snd sw))]))
  else ret tt.

Definition __on_start : M Env unit :=
  try_finally
    (try_except_else (__get_relavent_channel_info PNone)
       (fun e => is_ValueError e || is_NotAuthenticatedError e)
       (fun err =>
          out (print [Lit "Can not retrieve channel information: ";
                      Lit (exn_str err)]))
       __on_start_else)
    (on_this (with_is_streaming true)).

(** The embed [__on_stop] sends. *)
Definition stop_embed (title video_url : pyval) (now : string) : DiscordEmbed :=
  snd (set_timestamp (Some "") now
         (DiscordEmbed_init [("title", title); ("url", video_url)])).

Definition __on_stop : M Env unit :=
  s <- this ;;
  if match _twitch s with
     | None => true
     | Some t => negb (authenticated t)
     end
  then raise (NotAuthenticatedError
         "Not Authenticated with twitch, cannot retrieve information")
  else
    user_info <- twitch_call (get_user_info (_username s)) ;;
    if is_none user_info then raise (ValueError "Invalid twitch username")
    else
      user_id <- lift (method_get user_info "id" PNone) ;;
      videos <- twitch_call (get_videos_info PNone user_id PNone) ;;
      pair <- lift (unpack2 videos) ;;
      let video_info := fst pair in
      empty <- (if is_none video_info then ret true
                else n <- lift (py_len video_info) ;; ret (n =? 0)) ;;
      if (empty : bool) then raise (ValueError "Invalid video info requested")
      else
        video <- lift (subscript_0 video_info) ;;
        video_url <- lift (method_get video "url" (PStr "")) ;;
        (if _do_discord_stop_notice s then
           title <- lift (method_get video "title" (PStr "")) ;;
           sw <- get ;;
           out (execute_on_urls (hook_targets (_hooks_list s))
                  (_discord_stop_msg s)
                  (Some [stop_embed title video_url (clock (snd sw))]))
         else ret tt) ;;;
        on_this (with_is_streaming false).

Definition __on_scene_changed : M Env unit := ret tt.

(** ** Event dispatch: class OBSScript *)

Inductive event : Type :=
| OBS_FRONTEND_EVENT_FINISHED_LOADING
| OBS_FRONTEND_EVENT_EXIT
| OBS_FRONTEND_EVENT_SCENE_CHANGED
| OBS_FRONTEND_EVENT_STREAMING_STARTED
| OBS_FRONTEND_EVENT_STREAMING_STOPPED
| OBS_FRONTEND_EVENT_OTHER (n : Z).

Definition event_eqb (a b : event) : bool :=
  match a, b with
  | OBS_FRONTEND_EVENT_FINISHED_LOADING, OBS_FRONTEND_EVENT_FINISHED_LOADING
  | OBS_FRONTEND_EVENT_EXIT, OBS_FRONTEND_EVENT_EXIT
  | OBS_FRONTEND_EVENT_SCENE_CHANGED, OBS_FRONTEND_EVENT_SCENE_CHANGED
  | OBS_FRONTEND_EVENT_STREAMING_STARTED, OBS_FRONTEND_EVENT_STREAMING_STARTED
  | OBS_FRONTEND_EVENT_STREAMING_STOPPED, OBS_FRONTEND_EVENT_STREAMING_STOPPED => true
  | OBS_FRONTEND_EVENT_OTHER n, OBS_FRONTEND_EVENT_OTHER m => n =? m
  | _, _ => false
  end.

(** The bound methods [on_loaded] registers. *)
Inductive callback : Type :=
| Cb_on_frontend_loaded
| Cb_unauthenticate_twitch
| Cb_on_scene_changed
| Cb_on_start
| Cb_on_stop.

Definition run_callback (c : callback) : M Env unit :=
  match c with
  | Cb_on_frontend_loaded => __on_frontend_loaded
  | Cb_unauthenticate_twitch => __unauthenticate_twitch
  | Cb_on_scene_changed => __on_scene_changed
  | Cb_on_start => __on_start
  | Cb_on_stop => __on_stop
  end.

Definition callback_name (c : callback) : string :=
  match c with
  | Cb_on_frontend_loaded => "__on_frontend_loaded"
  | Cb_unauthenticate_twitch => "__unauthenticate_twitch"
  | Cb_on_scene_changed => "__on_scene_changed"
  | Cb_on_start => "__on_start"
  | Cb_on_stop => "__on_stop"
  end.

Definition event_name (e : event) : string :=
  match e with
  | OBS_FRONTEND_EVENT_FINISHED_LOADING => "OBS_FRONTEND_EVENT_FINISHED_LOADING"
  | OBS_FRONTEND_EVENT_EXIT => "OBS_FRONTEND_EVENT_EXIT"
  | OBS_FRONTEND_EVENT_SCENE_CHANGED => "OBS_FRONTEND_EVENT_SCENE_CHANGED"
  | OBS_FRONTEND_EVENT_STREAMING_STARTED => "OBS_FRONTEND_EVENT_STREAMING_STARTED"
  | OBS_FRONTEND_EVENT_STREAMING_STOPPED => "OBS_FRONTEND_EVENT_STREAMING_STOPPED"
  | OBS_FRONTEND_EVENT_OTHER _ => "OBS_FRONTEND_EVENT"
  end.

(** The class attribute [frontend_event_callbacks]. *)
Definition registry : Type := list (event * list callback).

Fixpoint registry_get (r : registry) (e : event) : list callback :=
  match r with
  | [] => []
  | (e', cs) :: r' => if event_eqb e' e then cs else registry_get r' e
  end.

(** [setdefault(event, []).append(callback)] *)
Fixpoint registry_add (r : registry) (e : event) (c : callback) : registry :=
  match r with
  | [] => [(e, [c])]
  | (e', cs) :: r' =>
      if event_eqb e' e then (e', (cs ++ [c])%list) :: r'
      else (e', cs) :: registry_add r' e c
  end.

(** The process: the registry, the script object [discord_script], and
    the world. *)
Record Host : Type := mkHost {
  frontend_event_callbacks : registry;
  discord_script : DiscordNotificationScript;
  world : World
}.

Definition in_script {A} (m : M Env A) : M Host A :=
  fun h =>
    match m (discord_script h, world h) with
    | (r, (s', w')) => (r, mkHost (frontend_event_callbacks h) s' w')
    end.

Definition handle_events (ev : event) : M Host unit :=
  h <- get ;;
  let event_callbacks := registry_get (frontend_event_callbacks h) ev in
  for_each event_callbacks (fun c => in_script (run_callback c)).

Definition register_frontend_event_callback (ev : event) (c : callback)
  : M Host unit :=
  in_script (out (print [Lit "Registering callback "; Obj (callback_name c);
                         Lit " for event "; Obj (event_name ev)])) ;;;
  modify (fun h =>
    mkHost (registry_add (frontend_event_callbacks h) ev c)
      (discord_script h) (world h)).

Definition on_loaded : M Host unit :=
  register_frontend_event_callback OBS_FRONTEND_EVENT_FINISHED_LOADING
    Cb_on_frontend_loaded ;;;
  register_frontend_event_callback OBS_FRONTEND_EVENT_EXIT
    Cb_unauthenticate_twitch ;;;
  register_frontend_event_callback OBS_FRONTEND_EVENT_SCENE_CHANGED
    Cb_on_scene_changed ;;;
  register_frontend_event_callback OBS_FRONTEND_EVENT_STREAMING_STARTED
    Cb_on_start ;;;
  register_frontend_event_callback OBS_FRONTEND_EVENT_STREAMING_STOPPED
    Cb_on_stop.

Definition on_unloaded : M Host unit := in_script __unauthenticate_twitch.

(** The registry after [script_load]. *)
Definition loaded_registry : registry :=
  [(OBS_FRONTEND_EVENT_FINISHED_LOADING, [Cb_on_frontend_loaded]);
   (OBS_FRONTEND_EVENT_EXIT, [Cb_unauthenticate_twitch]);
   (OBS_FRONTEND_EVENT_SCENE_CHANGED, [Cb_on_scene_changed]);
   (OBS_FRONTEND_EVENT_STREAMING_STARTED, [Cb_on_start]);
   (OBS_FRONTEND_EVENT_STREAMING_STOPPED, [Cb_on_stop])].

(* ================================================================== *)
(** * Worlds and objects used in the statements *)
(* ================================================================== *)

(** A response with status 200 carrying the JSON document [v]. *)
Definition json_reply (v : pyval) : Response := mkResponse 200 [] "" (Some v).

(** A world whose network answers every request with status 200 and the
    JSON document [v]. *)
Definition echo_world (v : pyval) : World :=
  mkWorld (fun _ _ => Reply (json_reply v)) [] []
    "2021-03-01T12:00:00+00:00" (fun _ => NoFile).

(** The data of the stream-start scenario that the lookups return: the
    id of the user alice, the name under which the channel is shown, the
    id of the game, and the box-art template of the game. *)
Record lookup_data : Type := mkData {
  user_id_of : string;
  broadcaster_name_of : string;
  game_id_of : string;
  box_art_template_of : string
}.

(** The network of the stream-start scenario: the user lookup resolves
    the login alice to a user id, the channel lookup answers with a
    record of game GameX and title My Title, the game lookup answers with
    a record holding a box-art template, and a POST gets what [post]
    says. *)
Definition scenario_net (d : lookup_data) (post : nat -> Request -> net_result)
  : nat -> Request -> net_result :=
  fun n r =>
    match req_method r with
    | POST => post n r
    | GET =>
        if String.eqb (req_url r) APIURL.Users then
          Reply (json_reply (PDict [("data", PList [PDict
            [("id", PStr (user_id_of d)); ("login", PStr "alice")]])]))
        else if String.eqb (req_url r) APIURL.Channels then
          Reply (json_reply (PDict [("data", PList [PDict
            [("broadcaster_id", PStr (user_id_of d));
             ("broadcaster_name", PStr (broadcaster_name_of d));
             ("game_name", PStr "GameX");
             ("game_id", PStr (game_id_of d));
             ("title", PStr "My Title")]])]))
        else if String.eqb (req_url r) APIURL.Games then
          Reply (json_reply (PDict [("data", PList [PDict
            [("id", PStr (game_id_of d)); ("name", PStr "GameX");
             ("box_art_url", PStr (box_art_template_of d))]])]))
        else Reply (mkResponse 404 [] "" None)
    end.

(** The three lookups expected in the scenario, written out: the user
    by login, the channel by the user id, the game by its id (under [id]
    when the id is made of decimal digits, under [name] otherwise). *)
Definition scenario_lookups (t : Twitch) (d : lookup_data) : list Request :=
  let headers := [("Client-ID", _client_id t);
                  ("Authorization", PStr ("Bearer " ++ py_str (_access_token t)))] in
  [mkRequest GET "https://api.twitch.tv/helix/users" headers
     [("login", PStr "alice")] None;
   mkRequest GET "https://api.twitch.tv/helix/channels" headers
     [("broadcaster_id", PStr (user_id_of d))] None;
   mkRequest GET "https://api.twitch.tv/helix/games" headers
     [if isdecimal (game_id_of d)
      then ("id", PStr (game_id_of d)) else ("name", PStr (game_id_of d))]
     None].

(** The title expected in the scenario, for a channel shown under
    [name]. *)
Definition scenario_title (name : string) : string :=
  name ++ " is streaming GameX on twitch.tv  | My Title".

(** The box-art URL expected in the scenario: the template with its
    placeholder replaced by the dimensions 52 and 72. *)
Definition scenario_boxart_url (template : string) : string :=
  replace template "{width}x{height}" "52x72".

(** The body expected in every POST of the scenario: the start message
    as [content] when there is one and it is not empty, and the embeds,
    which hold the one embed unless its title exceeds the length limit of
    6000. *)
Definition scenario_payload (d : lookup_data) (msg : option string) (now : string)
  : list (string * pyval) :=
  let content := match msg with
                 | Some (String c m) => [("content", PStr (String c m))]
                 | _ => []
                 end in
  let embed :=
    PDict [("title", PStr (scenario_title (broadcaster_name_of d)));
           ("url", PStr "https://www.twitch.tv/alice/");
           ("timestamp", PStr now);
           ("image", PDict
              [("url", PStr (scenario_boxart_url (box_art_template_of d)));
               ("width", PInt 52);
               ("height", PInt 72)])] in
  (content
   ++ [("embeds", PList (if str_len (scenario_title (broadcaster_name_of d)) <=? 6000
                         then [embed] else []))])%list.

(** The POST expected for one webhook URL, written out. *)
Definition scenario_post (url : string) (payload : list (string * pyval))
  : Request :=
  mkRequest POST url [("Content-Type", PStr "application/json")]
    [("wait", PStr "true")] (Some (PDict payload)).

(** Of the requests [rs], due in this order from position [n] of the
    log on, those that are attempted when the first failure in transport
    ends the sequence: the answered ones and the first unanswered one. *)
Fixpoint attempted (post : nat -> Request -> net_result) (n : nat)
  (rs : list Request) : list Request :=
  match rs with
  | [] => []
  | r :: rest =>
      match post n r with
      | Reply _ => r :: attempted post (S n) rest
      | Unreachable => [r]
      end
  end.

(** Whether each of the requests [rs], due from position [n] on, is
    answered. *)
Fixpoint all_answered (post : nat -> Request -> net_result) (n : nat)
  (rs : list Request) : bool :=
  match rs with
  | [] => true
  | r :: rest =>
      match post n r with
      | Reply _ => all_answered post (S n) rest
      | Unreachable => false
      end
  end.

(** What the start handler is expected to return in the scenario: it
    raises [ValueError] when no URL is configured, returns when every
    POST is answered, and raises [RequestException] otherwise. *)
Definition scenario_outcome (post : nat -> Request -> net_result) (n : nat)
  (urls : list string) (p : list (string * pyval)) : res unit :=
  match urls with
  | [] => Raise (ValueError "Must include at least one webhook url")
  | _ => if all_answered post n (map (fun u => scenario_post u p) urls)
         then Ok tt else Raise RequestException
  end.

(** The script configured as in the scenario: user name alice, box-art
    height 72, the start notice enabled. *)
Definition scenario_script (t : Twitch) (msg : option string) (urls : list string)
  (streaming : bool) : DiscordNotificationScript :=
  mkScript msg None (PStr "alice") 72 "twitch.json" urls (Some t)
    streaming true true false.

(** The world after one more request. *)
Definition after_request (r : Request) (w : World) : World :=
  mkWorld (net w) (sent w ++ [r])%list (stdout w) (clock w) (files w).

(** The platform client of the script is absent or not authenticated. *)
Definition unauthenticated (s : DiscordNotificationScript) : Prop :=
  match _twitch s with
  | None => True
  | Some t => authenticated t = false
  end.

(** The six metadata operations with their arguments. *)
Inductive operation : Type :=
| Get_users_info (ids : list pyval)
| Get_user_info (user : pyval)
| Get_channel_info (user_id : pyval)
| Get_videos_info (video_ids user_id game_id : pyval)
| Get_games_info (games : list pyval)
| Get_game_info (game : pyval).

Definition perform (op : operation) : M Session pyval :=
  match op with
  | Get_users_info ids => get_users_info ids
  | Get_user_info user => get_user_info user
  | Get_channel_info user_id => get_channel_info user_id
  | Get_videos_info video_ids user_id game_id =>
      get_videos_info video_ids user_id game_id
  | Get_games_info games => get_games_info games
  | Get_game_info game => get_game_info game
  end.

(** A computation on a session that neither reads nor writes the
    [authenticated] flag: run from a session with the flag forced to [b],
    it does what it does from the original one, flag apart. *)
Definition flag_blind {A} (m : M Session A) : Prop :=
  forall b t w,
    m (with_is_authenticated b t, w)
    = match m (t, w) with
      | (r, (t', w')) => (r, (with_is_authenticated b t', w'))
      end.

Definition is_na {A} (r : res A) : bool :=
  match r with
  | Raise (NotAuthenticatedError _) => true
  | _ => false
  end.

(** A computation that never raises [NotAuthenticatedError]. *)
Definition na_free {S A} (m : M S A) : Prop :=
  forall s, is_na (fst (m s)) = false.

(** The world of the scenario: its network is [scenario_net]; [log],
    [lines], [now] and [fs] are what has been sent and printed so far,
    the clock and the disk. *)
Definition scenario_world (d : lookup_data) (post : nat -> Request -> net_result)
  (log : list Request) (lines : list (list piece)) (now : string)
  (fs : string -> file_state) : World :=
  mkWorld (scenario_net d post) log lines now fs.

(** What [__get_relavent_channel_info] is expected to return in the
    scenario. *)
Definition scenario_info (d : lookup_data) : channel_info :=
  mkInfo (PStr (broadcaster_name_of d)) (PStr "My Title") (PStr "GameX")
    (PStr (game_id_of d)) (scenario_boxart_url (box_art_template_of d)) 52 72.

(** The lookup data used in the instances. *)
Definition alice_data : lookup_data :=
  mkData "1234" "Alice" "509"
    "https://static-cdn.jtvnw.net/ttv-boxart/509-{width}x{height}.jpg".

(* ================================================================== *)
(** * Further notions used in the statements *)
(* ================================================================== *)

(** A text attribute is unset or a string of at most [limit]
    characters. *)
Definition text_within (limit : Z) (v : pyval) : Prop :=
  v = PNone \/ exists s, v = PStr s /\ str_len s <= limit.

(** The arguments of the [add_field] calls of a sequence, in order. *)
Fixpoint added_fields (cs : list setter_call)
  : list (string * string * option bool) :=
  match cs with
  | [] => []
  | Add_field n v i :: r => (n, v, i) :: added_fields r
  | _ :: r => added_fields r
  end.

(** The dict [add_field] appends for its arguments. *)
Definition field_of (a : string * string * option bool) : pyval :=
  let field := [("name", PStr (strip (fst (fst a))));
                ("value", PStr (strip (snd (fst a))))] in
  PDict (match snd a with
         | Some b => dict_set field "inline" (PBool b)
         | None => field
         end).

(** Two lower-case hexadecimal digits of a byte, and the text
    [#rrggbb] of a colour. *)
Definition hex2 (n : Z) : string :=
  String (hex_digit (n / 16)) (String (hex_digit (n mod 16)) EmptyString).

Definition hex_color (r g b : Z) : string :=
  String "#"%char (hex2 r ++ hex2 g ++ hex2 b).

(** A field dict with the given name and value. *)
Definition plain_field (nv : string * string) : pyval :=
  PDict [("name", PStr (fst nv)); ("value", PStr (snd nv))].

Definition two_chars (nv : string * string) : bool :=
  Nat.eqb (String.length (fst nv)) 2 && Nat.eqb (String.length (snd nv)) 2.


(** The webhook after [add_embed] has been called with each embed of
    [es] in order, a refused call leaving it as it stands. *)
Definition add_embeds (es : list DiscordEmbed) (h : DiscordWebhook)
  : DiscordWebhook :=
  fold_left (fun h e => snd (add_embed (Some e) h)) es h.

(** A world whose network is unreachable for every request. *)
Definition offline_world : World :=
  mkWorld (fun _ _ => Unreachable) [] [] "2021-03-01T12:00:00+00:00"
    (fun _ => NoFile).

(** The token request of the client-credentials flow. *)
Definition credentials_request (client_id client_secret : pyval)
  (scopes : option (list string)) : Request :=
  let params := [("client_id", client_id); ("client_secret", client_secret)] in
  let params :=
    match scopes with
    | Some (x :: r) => (params ++ [("scopes", PStr (String.concat " " (x :: r)))])%list
    | _ => params
    end in
  mkRequest POST APIURL.AuthToken []
    (params ++ [("grant_type", PStr "client_credentials")])%list None.

(** The query parameters of a lookup by ids: a decimal id goes under
    [num], any other under [name]. *)
Definition lookup_params (num name : string) (ids : list string)
  : list (string * pyval) :=
  map (fun s => (if isdecimal s then num else name, PStr s)) ids.

(** A GET request of the API client. *)
Definition api_get (t : Twitch) (url : string) (params : list (string * pyval))
  : Request :=
  mkRequest GET url (api_headers t) params None.

(** The world after one more printed line. *)
Definition after_print (line : list piece) (w : World) : World :=
  mkWorld (net w) (sent w) (stdout w ++ [line])%list (clock w) (files w).

(** A world whose network answers every request with status 401, a
    challenge, and the JSON document [v]. *)
Definition unauthorized_world (challenge : string) (v : pyval) : World :=
  mkWorld (fun _ _ => Reply (mkResponse 401 [("WWW-Authenticate", challenge)]
                               "" (Some v)))
    [] [] "2021-03-01T12:00:00+00:00" (fun _ => NoFile).

(** A computation of the script that leaves the streaming flag as it
    finds it. *)
Definition keeps_streaming {A} (m : M Env A) : Prop :=
  forall s w, _is_streaming (fst (snd (m (s, w)))) = _is_streaming s.

(** A computation of the script that clears the streaming flag when it
    returns and leaves it as it was when it raises. *)
Definition clears_streaming_on_return {A} (m : M Env A) : Prop :=
  forall s w,
    match m (s, w) with
    | (Ok _, (s', _)) => _is_streaming s' = false
    | (Raise _, (s', _)) => _is_streaming s' = _is_streaming s
    end.

(** The credentials path names nothing that yields credentials: no file,
    or a file that cannot be read, is not JSON, or holds [null]. *)
Definition no_credentials_at (w : World) (path : string) : Prop :=
  match files w path with
  | NoFile | FileMalformed _ | FileVanished | FileUnreadable _ => True
  | FileJson v => v = PNone
  end.

(** A world whose network answers every GET with status 401, the
    invalid-token challenge and the JSON document [err], and every POST
    with status 200 and the JSON document [v]. *)
Definition expired_token_world (err v : pyval) : World :=
  mkWorld (fun _ r =>
             match req_method r with
             | GET => Reply (mkResponse 401
                               [("WWW-Authenticate", invalid_token_challenge)]
                               "" (Some err))
             | POST => Reply (json_reply v)
             end)
    [] [] "2021-03-01T12:00:00+00:00" (fun _ => NoFile).



(** The request [validate_token] sends for a token. *)
Definition validate_request (access_token : pyval) : Request :=
  mkRequest GET APIURL.ValidateToken
    [("Authorization", PStr ("OAuth " ++ py_str access_token))] [] None.

(** A world in which every path names a file holding the JSON document
    [v], and the network answers every request with status 200. *)
Definition world_with_file (v : pyval) : World :=
  mkWorld (fun _ _ => Reply (mkResponse 200 [] "" None)) [] []
    "2021-03-01T12:00:00+00:00" (fun _ => FileJson v).

(* ================================================================== *)
(** * Checks of the Python helpers *)
(* ================================================================== *)

Example repr_demo :
  py_repr (PDict [("a", PList [PInt 1; PStr "xy"; PNone]); ("b", PInt (-12))])
  = "{'a': [1, 'xy', None], 'b': -12}".
Proof. vm_compute. reflexivity. Qed.

Example hex_demo :
  int_base16 " 0xFFff00" = Ok 16776960
  /\ int_base16 "f__f"
     = Raise (ValueError "invalid literal for int() with base 16: 'f__f'").
Proof. vm_compute. split; reflexivity. Qed.

(** [int] does not skip the separators [str.strip] removes. *)
Example hex_separator_demo :
  strip (String (ascii_of_nat 28) "ff") = "ff"
  /\ exists msg, int_base16 (String (ascii_of_nat 28) "ff") = Raise (ValueError msg).
Proof. split; [reflexivity | eexists; reflexivity]. Qed.

Example strip_demo : strip "  a b  " = "a b".
Proof. reflexivity. Qed.

Example replace_demo :
  replace "https://x/{width}x{height}.jpg" "{width}x{height}" "52x72"
  = "https://x/52x72.jpg".
Proof. reflexivity. Qed.

(* ================================================================== *)
(** * Properties of DiscordEmbed *)
(* ================================================================== *)

(** ** Emptiness and validity *)

Lemma is_empty_fields_none (e : DiscordEmbed) :
  is_empty e = true -> _fields e = PNone.
Proof.
  unfold is_empty. cbn [forallb]. rewrite !andb_true_iff.
  intros H. decompose [and] H.
  destruct (_fields e); simpl in *; congruence.
Qed.

(** The constructor never yields an empty embed unless the caller passes
    [fields] explicitly. *)
Lemma init_not_empty (kwargs : list (string * pyval)) :
  dict_get kwargs "fields" = None -> is_empty (DiscordEmbed_init kwargs) = false.
Proof.
  intros H. destruct (is_empty (DiscordEmbed_init kwargs)) eqn:E; [|reflexivity].
  apply is_empty_fields_none in E. cbn in E. unfold kwarg in E.
  rewrite H in E. discriminate.
Qed.

(** C4. An embed constructed with no attribute set has the empty list as
    its [fields] (the constructor's default): [is_empty] answers false and
    [is_embed_valid] answers true. *)
Theorem is_embed_valid_of_unset_embed :
  json (DiscordEmbed_init []) = []
  /\ is_empty (DiscordEmbed_init []) = false
  /\ is_embed_valid (DiscordEmbed_init []) = Ok true.
Proof. repeat split. Qed.

(** Whenever the length can be computed, validity is the conjunction
    the source writes. *)
Lemma is_embed_valid_spec (e : DiscordEmbed) (n : Z) :
  embed_length e = Ok n ->
  is_embed_valid e = Ok (negb ((n >? Limits.MaxLength) || is_empty e)).
Proof.
  intros H. unfold is_embed_valid. rewrite H. cbn [rbind].
  rewrite negb_orb, Z.gtb_ltb, Z.ltb_antisym, negb_involutive. reflexivity.
Qed.

(** ** Length of the fields *)

Lemma chars_length (s : string) : List.length (chars s) = String.length s.
Proof. induction s; simpl; congruence. Qed.

(** A string unpacks into [(x, y)] only when it has two characters. *)
Lemma pair_length_str (s : string) (n : Z) :
  pair_length (PStr s) = Ok n -> String.length s = 2%nat /\ n = 2.
Proof.
  unfold pair_length, unpack2. simpl.
  destruct s as [|a [|b [|c s]]]; simpl; try discriminate.
  intros H. injection H as <-. split; reflexivity.
Qed.

Lemma pair_length_str_raises (s : string) :
  String.length s <> 2%nat -> exists m, pair_length (PStr s) = Raise (ValueError m).
Proof.
  unfold pair_length, unpack2. simpl.
  destruct s as [|a [|b [|c s]]]; simpl; intros H; eauto.
  congruence.
Qed.

(** A field whose name has not exactly two characters makes the
    comprehension raise. *)
Lemma field_lengths_raises (d : list (string * pyval)) (s : string) :
  dict_get d "name" = Some (PStr s) -> String.length s <> 2%nat ->
  exists m, field_lengths (PDict d) = Raise (ValueError m).
Proof.
  intros Hd Hs. unfold field_lengths. cbn [method_get rbind]. rewrite Hd.
  destruct (pair_length_str_raises s Hs) as [m Hm]. rewrite Hm.
  exists m. reflexivity.
Qed.

(** A field whose name and value both have two characters counts for
    four, the sum of their lengths. *)
Lemma field_lengths_two (a b c d : ascii) :
  let name := String a (String b EmptyString) in
  let value := String c (String d EmptyString) in
  field_lengths (PDict [("name", PStr name); ("value", PStr value)])
  = Ok [str_len name; str_len value].
Proof. reflexivity. Qed.

(** C9. After [add_field("abc", "x")] on a fresh embed, [embed_length]
    and [is_embed_valid] raise [ValueError]: the comprehension unpacks
    the name string itself into [(x, y)]. *)
Theorem embed_length_raises_on_field :
  let e := snd (add_field "abc" "x" None (DiscordEmbed_init [])) in
  _fields e = PList [PDict [("name", PStr "abc"); ("value", PStr "x")]]
  /\ embed_length e = Raise (ValueError "too many values to unpack (expected 2)")
  /\ is_embed_valid e = Raise (ValueError "too many values to unpack (expected 2)").
Proof. repeat split. Qed.

(** ** The thumbnail setter *)

(** C10. [set_thumbnail] raises [AttributeError] on every embed and for
    every argument, and leaves the embed as it was. *)
Theorem set_thumbnail_raises (url : string) (proxy_url : option string)
  (width height : option Z) (e : DiscordEmbed) :
  set_thumbnail url proxy_url width height e = (Raise AttributeError, e)
  /\ thumbnail (snd (set_thumbnail url proxy_url width height e)) = thumbnail e.
Proof.
  unfold set_thumbnail.
  destruct (negb (truthy (PStr url))); split; reflexivity.
Qed.

(** ** The wire form *)

Lemma dict_get_entry_app (k' k : string) (v : pyval) (rest : list (string * pyval)) :
  dict_get (entry k' v ++ rest)%list k
  = if String.eqb k' k
    then (if truthy v then Some v else dict_get rest k)
    else dict_get rest k.
Proof.
  unfold entry. destruct (truthy v); simpl; [|destruct (String.eqb k' k)]; reflexivity.
Qed.

Lemma dict_get_entry (k' k : string) (v : pyval) :
  dict_get (entry k' v) k
  = if String.eqb k' k then (if truthy v then Some v else None) else None.
Proof.
  rewrite <- (app_nil_r (entry k' v)), dict_get_entry_app.
  reflexivity.
Qed.

(** Key [k] of the wire form holds the attribute of that key when its
    value is true in the Python sense, and is absent otherwise. *)
Lemma json_lookup (e : DiscordEmbed) (k : string) :
  dict_get (json e) k
  = match attribute k e with
    | Some v => if truthy v then Some v else None
    | None => None
    end.
Proof.
  unfold json, attribute.
  rewrite !dict_get_entry_app, dict_get_entry.
  repeat match goal with
         | |- context [String.eqb ?a k] =>
             destruct (String.eqb_spec a k) as [<-|_];
             [ cbn [String.eqb Ascii.eqb Bool.eqb];
               repeat match goal with
                      | |- context [truthy ?x] => destruct (truthy x)
                      end; reflexivity | ]
         end.
  reflexivity.
Qed.

Ltac embed_proj :=
  cbn [_title _description _url _timestamp _color _footer _image _thumbnail
       _video _provider _author _fields
       upd_title upd_description upd_url upd_timestamp upd_color upd_footer
       upd_image upd_thumbnail upd_video upd_provider upd_author upd_fields
       DiscordEmbed_init kwarg dict_get].

Ltac frame_upd :=
  intros; unfold attribute; embed_proj;
  repeat match goal with
         | |- context [String.eqb ?a ?k] =>
             destruct (String.eqb_spec a k); [ try congruence; try reflexivity | ]
         end; reflexivity.

Lemma attribute_upd_title k v e :
  "title" <> k -> attribute k (upd_title v e) = attribute k e.
Proof. frame_upd. Qed.
Lemma attribute_upd_description k v e :
  "description" <> k -> attribute k (upd_description v e) = attribute k e.
Proof. frame_upd. Qed.
Lemma attribute_upd_url k v e :
  "url" <> k -> attribute k (upd_url v e) = attribute k e.
Proof. frame_upd. Qed.
Lemma attribute_upd_timestamp k v e :
  "timestamp" <> k -> attribute k (upd_timestamp v e) = attribute k e.
Proof. frame_upd. Qed.
Lemma attribute_upd_color k v e :
  "color" <> k -> attribute k (upd_color v e) = attribute k e.
Proof. frame_upd. Qed.
Lemma attribute_upd_footer k v e :
  "footer" <> k -> attribute k (upd_footer v e) = attribute k e.
Proof. frame_upd. Qed.
Lemma attribute_upd_image k v e :
  "image" <> k -> attribute k (upd_image v e) = attribute k e.
Proof. frame_upd. Qed.
Lemma attribute_upd_thumbnail k v e :
  "thumbnail" <> k -> attribute k (upd_thumbnail v e) = attribute k e.
Proof. frame_upd. Qed.
Lemma attribute_upd_video k v e :
  "video" <> k -> attribute k (upd_video v e) = attribute k e.
Proof. frame_upd. Qed.
Lemma attribute_upd_provider k v e :
  "provider" <> k -> attribute k (upd_provider v e) = attribute k e.
Proof. frame_upd. Qed.
Lemma attribute_upd_author k v e :
  "author" <> k -> attribute k (upd_author v e) = attribute k e.
Proof. frame_upd. Qed.
Lemma attribute_upd_fields k v e :
  "fields" <> k -> attribute k (upd_fields v e) = attribute k e.
Proof. frame_upd. Qed.

Create HintDb frame.
#[local] Hint Resolve attribute_upd_title attribute_upd_description
  attribute_upd_url attribute_upd_timestamp attribute_upd_color
  attribute_upd_footer attribute_upd_image attribute_upd_thumbnail
  attribute_upd_video attribute_upd_provider attribute_upd_author
  attribute_upd_fields : frame.

(** A setter call changes no attribute but its own. *)
Lemma call_frame (c : setter_call) (k : string) (e : DiscordEmbed) :
  key_of c <> k -> attribute k (snd (call c e)) = attribute k e.
Proof.
  destruct c; cbn [call key_of]; intros Hk;
    unfold set_title, set_description, set_url, set_timestamp,
      set_color_decimal, set_color_rgb, set_color_hex, set_footer, set_image,
      set_thumbnail, set_video, set_provider, set_author, add_field,
      assign_property_thumbnail, modify, raise, bind, lift, get, put;
    repeat match goal with
           | |- context [match ?x with _ => _ end] => destruct x
           end;
    cbn [snd]; auto with frame.
Qed.

Lemma build_frame (cs : list setter_call) (k : string) (e : DiscordEmbed) :
  touched k cs = false -> attribute k (build cs e) = attribute k e.
Proof.
  revert e. induction cs as [|c cs IH]; intros e H; [reflexivity|].
  cbn in H. apply orb_false_elim in H as [Hc Hcs].
  cbn [build fold_left]. fold (build cs (snd (call c e))).
  rewrite IH by exact Hcs.
  apply call_frame. intros E. rewrite E, String.eqb_refl in Hc. discriminate.
Qed.

(** [set_author] stores the URL of the author under the key [ur]. *)
Lemma set_author_url_key (name url : string) (e : DiscordEmbed) :
  url <> "" ->
  _author (snd (set_author name (Some url) None None e))
  = PDict [("name", PStr (strip name)); ("ur", PStr url)].
Proof. intros H. destruct url; [congruence | reflexivity]. Qed.

(** C6, as stated, fails: after [set_color_rgb(0, 0, 0)] the colour is
    the integer 0, which is not [None], and the wire form has no key
    [color]. *)
Lemma json_drops_non_null_attribute :
  _color (build [Set_color_rgb 0 0 0] (DiscordEmbed_init [])) = PInt 0
  /\ json (build [Set_color_rgb 0 0 0] (DiscordEmbed_init [])) = []
  /\ ~ keys_are_non_null_attributes
         (build [Set_color_rgb 0 0 0] (DiscordEmbed_init [])).
Proof.
  repeat split.
  intros H. specialize (H "color" (PInt 0) eq_refl).
  destruct H as [H _]. apply H; [discriminate | reflexivity].
Qed.

(** C6, amended.  For an embed built from a fresh one by setter calls,
    the wire form holds key [k] exactly when the attribute of that key has
    a true value (not [None], not zero, not an empty string, list or
    dict), and then maps it to the stored value; the key of an attribute
    that no call has set is absent. *)
Theorem json_keys_of_built_embed (cs : list setter_call) (k : string) :
  dict_get (json (build cs (DiscordEmbed_init []))) k
  = match attribute k (build cs (DiscordEmbed_init [])) with
    | Some v => if truthy v then Some v else None
    | None => None
    end
  /\ (touched k cs = false ->
      dict_get (json (build cs (DiscordEmbed_init []))) k = None).
Proof.
  split; [apply json_lookup|].
  intros H. rewrite json_lookup, (build_frame cs k _ H).
  unfold attribute. embed_proj.
  repeat match goal with
         | |- context [String.eqb ?a k] => destruct (String.eqb a k)
         end; reflexivity.
Qed.

(** An instance: after [set_title] and [set_url] the title is sent under
    its key and the colour, never set, is absent. *)
Lemma json_keys_of_built_embed_witness :
  dict_get
    (json (build [Set_title (Some " Live now "); Set_url (Some "https://twitch.tv/alice")]
             (DiscordEmbed_init []))) "title" = Some (PStr "Live now")
  /\ dict_get
    (json (build [Set_title (Some " Live now "); Set_url (Some "https://twitch.tv/alice")]
             (DiscordEmbed_init []))) "color" = None.
Proof.
  split.
  - rewrite (proj1 (json_keys_of_built_embed
             [Set_title (Some " Live now "); Set_url (Some "https://twitch.tv/alice")]
             "title")). reflexivity.
  - apply (proj2 (json_keys_of_built_embed
             [Set_title (Some " Live now "); Set_url (Some "https://twitch.tv/alice")]
             "color")). reflexivity.
Defined.

(* ================================================================== *)
(** * Properties of DiscordWebhook *)
(* ================================================================== *)

Lemma has_valid_message_spec (h : DiscordWebhook) :
  __has_valid_message h = true
  <-> (exists c, _content h = Some c /\ c <> "")
      \/ (exists e es, _embeds h = Some (e :: es)).
Proof.
  unfold __has_valid_message. rewrite orb_true_iff. split.
  - intros [H|H].
    + left. destruct (_content h) as [c|]; [|discriminate].
      exists c. split; [reflexivity|]. intros ->. discriminate.
    + right. destruct (_embeds h) as [[|e es]|]; try discriminate. eauto.
  - intros [(c & -> & Hc)|(e & es & ->)].
    + left. destruct c; [congruence|].
      unfold str_len. cbn [String.length]. apply Z.gtb_lt. lia.
    + right. cbn [List.length]. apply Z.gtb_lt. lia.
Qed.

(** One target: the payload is printed, posted, and the answer printed. *)
Lemma __execute_posts (h : DiscordWebhook) (url : string)
  (username avatar_url : option string) (p : list (string * pyval)) (w : World) :
  __has_valid_message h = true ->
  json_payload h username avatar_url = Ok p ->
  always_replies w ->
  exists w',
    __execute h url username avatar_url w = (Ok tt, w')
    /\ sent w' = (sent w ++ [webhook_post url p])%list
    /\ net w' = net w.
Proof.
  intros Hv Hp Hn. unfold __execute. rewrite Hv. cbn [negb].
  unfold bind, lift. rewrite Hp.
  unfold print, modify, http. cbn [net sent].
  destruct (Hn (List.length (sent w)) (webhook_post url p)) as [resp Hr].
  rewrite Hr.
  destruct (negb (status_code resp =? 200)); eexists; repeat split.
Qed.

Lemma for_each_posts (h : DiscordWebhook) (urls : list target)
  (ps : list (list (string * pyval))) :
  __has_valid_message h = true ->
  Forall2 (fun t p => json_payload h (snd (fst t)) (snd t) = Ok p) urls ps ->
  forall w, always_replies w ->
  exists w',
    for_each urls (fun t => __execute h (fst (fst t)) (snd (fst t)) (snd t)) w
    = (Ok tt, w')
    /\ sent w' = (sent w ++ posts urls ps)%list.
Proof.
  intros Hv HF. induction HF as [|t p urls ps Hp HF IH]; intros w Hn.
  - exists w. cbn. rewrite app_nil_r. split; reflexivity.
  - destruct (__execute_posts h (fst (fst t)) (snd (fst t)) (snd t) p w Hv Hp Hn)
      as (w1 & E1 & S1 & N1).
    assert (Hn1 : always_replies w1).
    { intros n r. rewrite N1. apply Hn. }
    destruct (IH w1 Hn1) as (w2 & E2 & S2).
    exists w2. split.
    + cbn [for_each]. unfold bind at 1. rewrite E1. exact E2.
    + rewrite S2, S1, <- app_assoc. reflexivity.
Qed.

(** C5, as stated, fails: with no content and an embed list holding one
    invalid embed (every attribute [None]), [execute] raises nothing and
    posts a body with an empty [embeds] list to the target. *)
Lemma execute_posts_invalid_embeds_only :
  let invalid := DiscordEmbed_init [("fields", PNone)] in
  let h := mkWebhook [("https://discord.test/hook", None, None)] None (Some [invalid]) in
  is_embed_valid invalid = Ok false
  /\ fst (execute h (quiet_world 200)) = Ok tt
  /\ sent (snd (execute h (quiet_world 200)))
     = [webhook_post "https://discord.test/hook" [("embeds", PList [])]].
Proof. repeat split. Qed.

(** C5, amended.  [execute] raises [ValueError] before anything is
    posted exactly when the content is absent or empty and the embed list
    is absent or empty.  When the content is not empty or the embed list
    holds at least one embed, valid or not, then, provided the payload of
    every target can be built and the network answers, it posts once to
    each target, in order. *)
Theorem execute_needs_content_or_embeds (h : DiscordWebhook) (w : World) :
  (__has_valid_message h = false ->
   execute h w
   = (Raise (ValueError
        "Did not define at least one of the content or embed field"), w))
  /\ (forall ps,
        (exists c, _content h = Some c /\ c <> "")
        \/ (exists e es, _embeds h = Some (e :: es)) ->
        Forall2 (fun t p => json_payload h (snd (fst t)) (snd t) = Ok p)
          (_urls h) ps ->
        always_replies w ->
        fst (execute h w) = Ok tt
        /\ sent (snd (execute h w)) = (sent w ++ posts (_urls h) ps)%list).
Proof.
  split.
  - intros H. unfold execute. rewrite H. reflexivity.
  - intros ps Hc HF Hn. apply has_valid_message_spec in Hc.
    destruct (for_each_posts h (_urls h) ps Hc HF w Hn) as (w' & E & S).
    unfold execute. rewrite Hc. cbn [negb]. rewrite E. split; [reflexivity|exact S].
Qed.

Lemma quiet_world_replies (status : Z) : always_replies (quiet_world status).
Proof. intros n r. eexists. reflexivity. Defined.

(** Instances: an empty content with an empty embed list is refused;
    a content alone is posted to both targets. *)
Lemma execute_needs_content_or_embeds_witness :
  execute (mkWebhook [("https://discord.test/a", None, None)] (Some "") (Some []))
    (quiet_world 200)
  = (Raise (ValueError
       "Did not define at least one of the content or embed field"),
     quiet_world 200)
  /\ sent (snd (execute
       (mkWebhook [("https://discord.test/a", None, None);
                   ("https://discord.test/b", Some "bot", None)]
          (Some "live") None) (quiet_world 500)))
     = [webhook_post "https://discord.test/a" [("content", PStr "live")];
        webhook_post "https://discord.test/b"
          [("content", PStr "live"); ("username", PStr "bot")]].
Proof.
  split.
  - apply (proj1 (execute_needs_content_or_embeds
             (mkWebhook [("https://discord.test/a", None, None)] (Some "") (Some []))
             (quiet_world 200))).
    reflexivity.
  - apply (proj2 (execute_needs_content_or_embeds
             (mkWebhook [("https://discord.test/a", None, None);
                         ("https://discord.test/b", Some "bot", None)]
                (Some "live") None) (quiet_world 500))
             [[("content", PStr "live")];
              [("content", PStr "live"); ("username", PStr "bot")]]).
    + left. exists "live". split; [reflexivity | discriminate].
    + repeat constructor.
    + apply quiet_world_replies.
Defined.

(* ================================================================== *)
(** * Properties of Twitch: construction with an access token *)
(* ================================================================== *)

(** Whatever the validation endpoint answers, [validate_token] yields
    [None]. *)
Lemma validate_token_none (access_token v : pyval) (w w' : World) :
  validate_token access_token w = (Ok v, w') -> v = PNone.
Proof.
  unfold validate_token.
  destruct (negb (truthy access_token)); [discriminate|].
  unfold bind, http.
  destruct (net w _ _); [|discriminate].
  unfold response_eq_int, ret. congruence.
Qed.

(** Construction from an access token never yields an authenticated
    session. *)
Lemma Twitch_new_token_never_authenticates (auth : list (string * pyval))
  (tok : pyval) (scopes : option (list string)) (w w' : World) (t : Twitch) :
  dict_get auth "access_token" = Some tok -> tok <> PNone ->
  Twitch_new (PDict auth) scopes w = (Ok t, w') ->
  authenticated t = false /\ _client_id t = PNone.
Proof.
  intros Hget Hnn. unfold Twitch_new, __init__.
  unfold bind at 1. unfold lift at 1. cbn [method_get]. rewrite Hget.
  unfold bind at 1. unfold lift at 1.
  unfold bind at 1. unfold lift at 1.
  assert (E : negb (is_none tok) = true) by (destruct tok; try reflexivity; congruence).
  rewrite E.
  unfold bind, on_self, modify, self, io, zoom. cbn [fst snd _access_token with_access_token].
  destruct (validate_token tok w) as [[v|e] w1] eqn:V; [|discriminate].
  apply validate_token_none in V. subst v.
  cbn. unfold print, modify. cbn. intros H. injection H as <- _.
  split; reflexivity.
Qed.

(** C1. A token the validation endpoint accepts with HTTP 200 and a
    [client_id] still gives an unauthenticated session with no client id:
    [validate_token] compares the response object, not its status code,
    with 200. *)
Theorem Twitch_new_valid_token_unauthenticated :
  fst (Twitch_new (PDict [("access_token", PStr "abc123")]) None
         (echo_world (PDict [("client_id", PStr "my-client")])))
  = Ok (mkTwitch PNone PNone (PStr "abc123") PNone false None)
  /\ sent (snd (Twitch_new (PDict [("access_token", PStr "abc123")]) None
                  (echo_world (PDict [("client_id", PStr "my-client")]))))
     = [mkRequest GET APIURL.ValidateToken
          [("Authorization", PStr "OAuth abc123")] [] None].
Proof. split; reflexivity. Qed.

(** An access token that is present but empty makes the constructor
    raise. *)
Lemma Twitch_new_empty_token_raises (scopes : option (list string)) (w : World) :
  Twitch_new (PDict [("access_token", PStr "")]) scopes w
  = (Raise (ValueError "No access_token given, cannot validate"), w).
Proof. reflexivity. Qed.

(* ================================================================== *)
(** * Properties of Twitch: revoking access *)
(* ================================================================== *)

(** C8, as stated, fails, in two ways.  A session obtained by a
    client-credentials exchange whose answer carries no access token is
    authenticated and holds no token; [revoke_my_access] then raises
    before any request is sent and the session stays authenticated.  And
    when the revoke request itself fails in transport, the exception
    escapes after the request has been attempted and the session stays
    authenticated as well. *)
Lemma revoke_my_access_keeps_session :
  let creds := PDict [("client_id", PStr "cid"); ("client_secret", PStr "s3cret")] in
  let t := mkTwitch (PStr "cid") (PStr "s3cret") PNone PNone true None in
  let t' := mkTwitch (PStr "cid") (PStr "s3cret") (PStr "tok") PNone true None in
  fst (Twitch_new creds None (echo_world (PDict []))) = Ok t
  /\ revoke_my_access (t, quiet_world 200)
     = (Raise (ValueError "Invalid access_token provided"), (t, quiet_world 200))
  /\ authenticated (fst (snd (revoke_my_access (t, quiet_world 200)))) = true
  /\ fst (revoke_my_access (t', offline_world)) = Raise RequestException
  /\ sent (snd (snd (revoke_my_access (t', offline_world))))
     = [mkRequest POST "https://id.twitch.tv/oauth2/revoke" []
          [("client_id", PStr "cid"); ("token", PStr "tok")] None]
  /\ authenticated (fst (snd (revoke_my_access (t', offline_world)))) = true.
Proof. repeat split. Qed.

(** C8, amended.  When the client id or the access token is missing or
    empty, [revoke_my_access] raises [ValueError], sends nothing and
    leaves the session as it was.  Otherwise it sends exactly one POST to
    the revoke endpoint, carrying the client id and the token.  If the
    request is answered, whatever the status of the answer, the call
    returns with the session marked unauthenticated; if the request fails
    in transport, [RequestException] escapes and the session is left as
    it was, its [authenticated] flag included. *)
Theorem revoke_my_access_spec (t : Twitch) (w : World) :
  let request :=
    mkRequest POST "https://id.twitch.tv/oauth2/revoke" []
      [("client_id", _client_id t); ("token", _access_token t)] None in
  (truthy (_client_id t) = false \/ truthy (_access_token t) = false ->
   exists msg, revoke_my_access (t, w) = (Raise (ValueError msg), (t, w)))
  /\ (truthy (_client_id t) = true -> truthy (_access_token t) = true ->
      revoke_my_access (t, w)
      = match net w (List.length (sent w)) request with
        | Reply _ =>
            (Ok tt, (with_is_authenticated false t,
                     mkWorld (net w) (sent w ++ [request]) (stdout w) (clock w)
                       (files w)))
        | Unreachable =>
            (Raise RequestException,
             (t, mkWorld (net w) (sent w ++ [request]) (stdout w) (clock w)
                   (files w)))
        end).
Proof.
  intros request. split.
  - intros H.
    unfold revoke_my_access, revoke_access, bind, self, io, zoom, raise.
    cbn [fst snd].
    destruct (truthy (_client_id t)); cbn [negb]; [|eauto].
    destruct H as [H|H]; [discriminate|]. rewrite H. cbn [negb]. eauto.
  - intros Hc Ha.
    unfold revoke_my_access, revoke_access, bind, self, io, zoom, http, on_self,
      modify, ret.
    cbn [fst snd]. rewrite Hc, Ha. cbn [negb].
    change (revoke_request (_client_id t) (_access_token t)) with request.
    destruct (net w (List.length (sent w)) request); reflexivity.
Qed.

(** Instances: a session without client id raises; a revoke answered
    with status 503 still marks the session unauthenticated; a revoke
    that cannot reach the network leaves it authenticated. *)
Lemma revoke_my_access_spec_witness :
  (exists msg,
     revoke_my_access
       (mkTwitch PNone PNone (PStr "tok") PNone false None, quiet_world 200)
     = (Raise (ValueError msg),
        (mkTwitch PNone PNone (PStr "tok") PNone false None, quiet_world 200)))
  /\ fst (snd (revoke_my_access
       (mkTwitch (PStr "cid") PNone (PStr "tok") PNone true None, quiet_world 503)))
     = mkTwitch (PStr "cid") PNone (PStr "tok") PNone false None
  /\ fst (snd (revoke_my_access
       (mkTwitch (PStr "cid") PNone (PStr "tok") PNone true None, offline_world)))
     = mkTwitch (PStr "cid") PNone (PStr "tok") PNone true None.
Proof.
  split; [|split].
  - apply (proj1 (revoke_my_access_spec
             (mkTwitch PNone PNone (PStr "tok") PNone false None)
             (quiet_world 200))).
    left. reflexivity.
  - rewrite (proj2 (revoke_my_access_spec
               (mkTwitch (PStr "cid") PNone (PStr "tok") PNone true None)
               (quiet_world 503)) eq_refl eq_refl).
    reflexivity.
  - rewrite (proj2 (revoke_my_access_spec
               (mkTwitch (PStr "cid") PNone (PStr "tok") PNone true None)
               offline_world) eq_refl eq_refl).
    reflexivity.
Defined.

(* ================================================================== *)
(** * Properties of the script: the stop event *)
(* ================================================================== *)

Lemma on_loaded_registry (s : DiscordNotificationScript) (w : World) :
  frontend_event_callbacks (snd (on_loaded (mkHost [] s w))) = loaded_registry
  /\ discord_script (snd (on_loaded (mkHost [] s w))) = s.
Proof. destruct s; split; reflexivity. Qed.

(** Without an authenticated client, [__on_stop] raises at once and
    touches neither the script nor the world. *)
Lemma __on_stop_unauthenticated (s : DiscordNotificationScript) (w : World) :
  unauthenticated s ->
  __on_stop (s, w)
  = (Raise (NotAuthenticatedError
       "Not Authenticated with twitch, cannot retrieve information"), (s, w)).
Proof.
  unfold unauthenticated, __on_stop, bind, this. cbn [fst].
  destruct (_twitch s) as [t|]; [|reflexivity].
  intros ->. reflexivity.
Qed.

(** C3. With the callbacks registered by [on_loaded] and no
    authenticated client, delivering the stop event raises
    [NotAuthenticatedError] out of [handle_events]; the script, its
    streaming flag included, the output and the network log are left as
    they were. *)
Theorem stop_event_unauthenticated_propagates (h : Host) :
  frontend_event_callbacks h = loaded_registry ->
  unauthenticated (discord_script h) ->
  handle_events OBS_FRONTEND_EVENT_STREAMING_STOPPED h
  = (Raise (NotAuthenticatedError
       "Not Authenticated with twitch, cannot retrieve information"), h).
Proof.
  intros Hr Hu. destruct h as [r s w]. cbn in Hr, Hu. subst r.
  unfold handle_events, bind, get.
  cbn [frontend_event_callbacks loaded_registry registry_get event_eqb for_each
       run_callback].
  unfold bind, in_script. cbn [discord_script world frontend_event_callbacks].
  rewrite (__on_stop_unauthenticated s w Hu). reflexivity.
Qed.

(** An instance: a streaming script that holds no client. *)
Lemma stop_event_unauthenticated_propagates_witness :
  let h := mkHost loaded_registry
             (mkScript (Some "live") (Some "over") (PStr "alice") 72 "twitch.json"
                ["https://discord.test/hook"] None true true true true)
             (quiet_world 200) in
  fst (handle_events OBS_FRONTEND_EVENT_STREAMING_STOPPED h)
  = Raise (NotAuthenticatedError
      "Not Authenticated with twitch, cannot retrieve information")
  /\ _is_streaming (discord_script
       (snd (handle_events OBS_FRONTEND_EVENT_STREAMING_STOPPED h))) = true
  /\ stdout (world (snd (handle_events OBS_FRONTEND_EVENT_STREAMING_STOPPED h))) = []
  /\ sent (world (snd (handle_events OBS_FRONTEND_EVENT_STREAMING_STOPPED h))) = [].
Proof.
  intros h.
  rewrite (stop_event_unauthenticated_propagates h eq_refl I).
  repeat split.
Defined.

(** The sibling handler of the start event catches the same failure,
    prints it, and still sets the streaming flag. *)
Lemma start_event_unauthenticated_is_caught (s : DiscordNotificationScript)
  (t : Twitch) (w : World) :
  _twitch s = Some t -> authenticated t = false ->
  exists s' w',
    __on_start (s, w) = (Ok tt, (s', w'))
    /\ _is_streaming s' = true
    /\ sent w' = sent w
    /\ stdout w'
       = (stdout w ++
          [[Lit "Can not retrieve channel information: ";
            Lit "Cannot retrieve channel information, not authenticated with twitch."]])%list.
Proof.
  intros Ht Ha.
  unfold __on_start, try_finally, try_except_else, __get_relavent_channel_info,
    twitch_authenticated, twitch_call, bind, self, ret.
  cbn [fst snd]. rewrite Ht. cbn [fst snd]. rewrite Ha. cbn [negb].
  unfold raise. cbn. eexists. eexists. repeat split.
Qed.

(* ================================================================== *)
(** * Properties of Twitch: the metadata operations *)
(* ================================================================== *)

Section FlagBlind.

Context {A B : Type}.

Lemma flag_blind_ret (a : A) : flag_blind (ret a).
Proof. intros b t w. reflexivity. Qed.

Lemma flag_blind_raise (e : exn) : flag_blind (@raise Session A e).
Proof. intros b t w. reflexivity. Qed.

Lemma flag_blind_lift (r : res A) : flag_blind (lift r).
Proof. intros b t w. reflexivity. Qed.

Lemma flag_blind_io (m : M World A) : flag_blind (io m).
Proof.
  intros b t w. unfold io, zoom. cbn [fst snd].
  destruct (m w). reflexivity.
Qed.

Lemma flag_blind_bind (m : M Session A) (k : A -> M Session B) :
  flag_blind m -> (forall a, flag_blind (k a)) -> flag_blind (bind m k).
Proof.
  intros Hm Hk b t w. unfold bind. rewrite Hm.
  destruct (m (t, w)) as [[a|e] [t' w']]; [apply Hk | reflexivity].
Qed.

Lemma flag_blind_self_bind (k : Twitch -> M Session B) :
  (forall b t, k (with_is_authenticated b t) = k t) ->
  (forall t, flag_blind (k t)) -> flag_blind (bind self k).
Proof.
  intros Hk Hb b t w. unfold bind, self. cbn [fst]. rewrite Hk. apply Hb.
Qed.

Lemma flag_blind_try_except (m : M Session A) (c : exn -> bool)
  (h : exn -> M Session A) :
  flag_blind m -> (forall e, flag_blind (h e)) -> flag_blind (try_except m c h).
Proof.
  intros Hm Hh b t w. unfold try_except. rewrite Hm.
  destruct (m (t, w)) as [[a|e] [t' w']]; [reflexivity|].
  destruct (c e); [apply Hh | reflexivity].
Qed.

End FlagBlind.

Lemma flag_blind_on_self (f : Twitch -> Twitch) :
  (forall b t, f (with_is_authenticated b t) = with_is_authenticated b (f t)) ->
  flag_blind (on_self f).
Proof.
  intros Hf b t w. unfold on_self, modify. cbn [fst snd]. rewrite Hf. reflexivity.
Qed.

Create HintDb blind.

Ltac blind :=
  repeat first
    [ apply flag_blind_ret
    | apply flag_blind_raise
    | apply flag_blind_lift
    | apply flag_blind_io
    | solve [auto with blind]
    | apply flag_blind_on_self; reflexivity
    | apply flag_blind_self_bind; [reflexivity | intros ]
    | apply flag_blind_bind; [ | intros ]
    | apply flag_blind_try_except; [ | intros ]
    | match goal with
      | |- flag_blind (if ?c then _ else _) => destruct c
      | |- flag_blind (match ?x with _ => _ end) => destruct x
      | |- flag_blind (let _ := _ in _) => cbv zeta
      end ].

Lemma flag_blind_oauth : flag_blind __oauth.
Proof. unfold __oauth. blind. Qed.
#[local] Hint Resolve flag_blind_oauth : blind.

Lemma flag_blind_validate_response (r : Response) :
  flag_blind (__validate_response r).
Proof. unfold __validate_response. blind. Qed.
#[local] Hint Resolve flag_blind_validate_response : blind.

Lemma flag_blind_attempt_request_get (url : string) (params : list (string * pyval)) :
  flag_blind (__attempt_request_get url params).
Proof. unfold __attempt_request_get. blind. Qed.
#[local] Hint Resolve flag_blind_attempt_request_get : blind.

Lemma flag_blind_get_users_info (ids : list pyval) : flag_blind (get_users_info ids).
Proof. unfold get_users_info. blind. Qed.
#[local] Hint Resolve flag_blind_get_users_info : blind.

Lemma flag_blind_get_games_info (games : list pyval) : flag_blind (get_games_info games).
Proof. unfold get_games_info. blind. Qed.
#[local] Hint Resolve flag_blind_get_games_info : blind.

Lemma flag_blind_perform (op : operation) : flag_blind (perform op).
Proof.
  destruct op; cbn [perform];
    unfold get_user_info, get_channel_info, get_videos_info, get_game_info;
    blind.
Qed.

(** ** No operation raises [NotAuthenticatedError] *)

Section NaFree.

Context {S A B : Type}.

Lemma na_free_ret (a : A) : na_free (@ret S A a).
Proof. intros s. reflexivity. Qed.

Lemma na_free_raise (e : exn) :
  is_NotAuthenticatedError e = false -> na_free (@raise S A e).
Proof. intros H s. destruct e; try reflexivity. discriminate. Qed.

Lemma na_free_lift (r : res A) : is_na r = false -> na_free (@lift S A r).
Proof. intros H s. exact H. Qed.

Lemma na_free_bind (m : M S A) (k : A -> M S B) :
  na_free m -> (forall a, na_free (k a)) -> na_free (bind m k).
Proof.
  intros Hm Hk s. unfold bind. specialize (Hm s).
  destruct (m s) as [[a|e] s']; [apply Hk | exact Hm].
Qed.

Lemma na_free_try_except (m : M S A) (c : exn -> bool) (h : exn -> M S A) :
  na_free m -> (forall e, na_free (h e)) -> na_free (try_except m c h).
Proof.
  intros Hm Hh s. unfold try_except. specialize (Hm s).
  destruct (m s) as [[a|e] s']; [reflexivity|].
  destruct (c e); [apply Hh | exact Hm].
Qed.

End NaFree.

Lemma na_free_io {A} (m : M World A) : na_free m -> na_free (io m).
Proof.
  intros Hm s. unfold io, zoom. specialize (Hm (snd s)).
  destruct (m (snd s)). exact Hm.
Qed.

Lemma na_free_self : na_free self.
Proof. intros s. reflexivity. Qed.

Lemma na_free_on_self (f : Twitch -> Twitch) : na_free (on_self f).
Proof. intros s. reflexivity. Qed.

Lemma na_free_print (line : list piece) : na_free (print line).
Proof. intros s. reflexivity. Qed.

Lemma na_free_http (r : Request) : na_free (http r).
Proof. intros w. unfold http. destruct (net w _ r); reflexivity. Qed.

(** The pure steps raise only the built-in exceptions. *)

Lemma is_na_method_get v k d : is_na (method_get v k d) = false.
Proof. destruct v; reflexivity. Qed.

Lemma is_na_py_len v : is_na (py_len v) = false.
Proof. destruct v; reflexivity. Qed.

Lemma is_na_py_iter v : is_na (py_iter v) = false.
Proof. destruct v; reflexivity. Qed.

Lemma is_na_subscript_0 v : is_na (subscript_0 v) = false.
Proof. destruct v as [| | |[|]|[|]|]; reflexivity. Qed.

Lemma is_na_response_json r : is_na (response_json r) = false.
Proof. unfold response_json. destruct (body r); reflexivity. Qed.

Lemma is_na_header hs k : is_na (header hs k) = false.
Proof.
  induction hs as [|[k' v] hs IH]; [reflexivity|].
  cbn [header]. destruct (String.eqb _ _); [reflexivity | exact IH].
Qed.

Lemma is_na_classify num name ids : is_na (classify num name ids) = false.
Proof.
  induction ids as [|id ids IH]; [reflexivity|].
  cbn [classify]. destruct id; try reflexivity.
  cbn [method_isdecimal rbind].
  destruct (classify num name ids); [reflexivity | exact IH].
Qed.

Create HintDb nafree.
#[local] Hint Resolve na_free_self na_free_on_self na_free_print na_free_http
  is_na_method_get is_na_py_len is_na_py_iter is_na_subscript_0
  is_na_response_json is_na_header is_na_classify : nafree.

Ltac nafree :=
  repeat first
    [ apply na_free_ret
    | apply na_free_raise; reflexivity
    | apply na_free_lift; solve [auto with nafree]
    | solve [auto with nafree]
    | apply na_free_io
    | apply na_free_bind; [ | intros ]
    | apply na_free_try_except; [ | intros ]
    | match goal with
      | |- na_free (if ?c then _ else _) => destruct c
      | |- na_free (match ?x with _ => _ end) => destruct x
      | |- na_free (let _ := _ in _) => cbv zeta
      end ].

Lemma na_free_oauth : na_free __oauth.
Proof. unfold __oauth. nafree. Qed.
#[local] Hint Resolve na_free_oauth : nafree.

Lemma na_free_validate_response (r : Response) : na_free (__validate_response r).
Proof. unfold __validate_response. nafree. Qed.
#[local] Hint Resolve na_free_validate_response : nafree.

Lemma na_free_attempt_request_get (url : string) (params : list (string * pyval)) :
  na_free (__attempt_request_get url params).
Proof. unfold __attempt_request_get. nafree. Qed.
#[local] Hint Resolve na_free_attempt_request_get : nafree.

Lemma na_free_get_users_info (ids : list pyval) : na_free (get_users_info ids).
Proof. unfold get_users_info. nafree. Qed.
#[local] Hint Resolve na_free_get_users_info : nafree.

Lemma na_free_get_games_info (games : list pyval) : na_free (get_games_info games).
Proof. unfold get_games_info. nafree. Qed.
#[local] Hint Resolve na_free_get_games_info : nafree.

Lemma na_free_perform (op : operation) : na_free (perform op).
Proof.
  destruct op; cbn [perform];
    unfold get_user_info, get_channel_info, get_videos_info, get_game_info;
    nafree.
Qed.

(** C2, as stated, fails: on the unauthenticated session that
    construction from an access token leaves, every operation sends its
    request and returns the data of the answer. *)
Lemma operations_run_unauthenticated :
  let t := mkTwitch PNone PNone (PStr "abc123") PNone false None in
  let record := PDict [("id", PStr "1234"); ("login", PStr "alice")] in
  let w := echo_world (PDict [("data", PList [record])]) in
  authenticated t = false
  /\ fst (get_users_info [PStr "alice"] (t, w)) = Ok (PList [record])
  /\ fst (get_user_info (PStr "alice") (t, w)) = Ok record
  /\ fst (get_channel_info (PStr "1234") (t, w)) = Ok record
  /\ fst (get_videos_info PNone (PStr "1234") PNone (t, w))
     = Ok (PList [PList [record]; PNone])
  /\ fst (get_games_info [PStr "509"] (t, w)) = Ok (PList [record])
  /\ fst (get_game_info (PStr "509") (t, w)) = Ok record
  /\ sent (snd (snd (get_channel_info (PStr "1234") (t, w))))
     = [mkRequest GET APIURL.Channels (api_headers t)
          [("broadcaster_id", PStr "1234")] None].
Proof. repeat split. Qed.

(** C2, amended.  No metadata operation looks at the [authenticated]
    flag: from any session it returns the same result, sends the same
    requests and prints the same lines whether the flag is true or false,
    it leaves the flag as it found it, and it never raises
    [NotAuthenticatedError]. *)
Theorem operations_ignore_authenticated (op : operation) (b : bool)
  (t : Twitch) (w : World) :
  perform op (with_is_authenticated b t, w)
  = match perform op (t, w) with
    | (r, (t', w')) => (r, (with_is_authenticated b t', w'))
    end
  /\ authenticated (fst (snd (perform op (t, w)))) = authenticated t
  /\ forall msg, fst (perform op (t, w)) <> Raise (NotAuthenticatedError msg).
Proof.
  split; [apply flag_blind_perform|]. split.
  - pose proof (flag_blind_perform op (authenticated t) t w) as H.
    assert (E : with_is_authenticated (authenticated t) t = t) by (destruct t; reflexivity).
    rewrite E in H.
    destruct (perform op (t, w)) as [r [t' w']].
    injection H as H. cbn [fst snd].
    rewrite H at 1. reflexivity.
  - intros msg H. pose proof (na_free_perform op (t, w)) as N.
    rewrite H in N. discriminate.
Qed.

(* ================================================================== *)
(** * Properties of the script: the start event *)
(* ================================================================== *)

Example boxart_width_72 :
  (h <~ float_of_int 72 ;; py_round (PrimFloat.mul h BOXART_RATIO)) = Ok 52.
Proof. vm_compute. reflexivity. Qed.

(** The lookups of the scenario: three requests, and the tuple with the
    name of the channel record, the box-art width 52 and height 72. *)
Lemma scenario_channel_info (t : Twitch) (d : lookup_data) (msg : option string)
  (urls : list string) (streaming : bool) post log lines now fs :
  authenticated t = true ->
  __get_relavent_channel_info PNone
    (scenario_script t msg urls streaming,
     scenario_world d post log lines now fs)
  = (Ok (scenario_info d),
     (scenario_script t msg urls streaming,
      scenario_world d post
        (log ++ scenario_lookups t d)%list
        (lines ++ [[Lit "Getting user request with payload: ";
                    Val (PList [PList [PStr "login"; PStr "alice"]])]])%list
        now fs)).
Proof.
  destruct t as [cid cs tok rt au sc]. cbn [authenticated _is_authenticated].
  intros ->. unfold scenario_lookups.
  cbn [_client_id _access_token].
  change (log ++ [?a; ?b; ?c])%list with (log ++ [a] ++ [b] ++ [c])%list.
  rewrite !app_assoc.
  destruct d as [uid name gid tpl].
  cbn [user_id_of broadcaster_name_of game_id_of box_art_template_of].
  reflexivity.
Qed.

Lemma scenario_title_truthy (name : string) :
  truthy (PStr (scenario_title name)) = true.
Proof. destruct name; reflexivity. Qed.

(** The body built in the scenario is the expected one. *)
Lemma scenario_json_payload (t : Twitch) (d : lookup_data) (msg : option string)
  (now : string) (urls : list string) (streaming : bool) :
  now <> "" ->
  json_payload
    (mkWebhook (hook_targets urls) msg
       (Some [start_embed (scenario_script t msg urls streaming)
                (scenario_info d) now]))
    None None
  = Ok (scenario_payload d msg now).
Proof.
  intros Hn. destruct now as [|c0 now]; [congruence|].
  unfold json_payload, start_embed.
  cbn [_content _embeds valid_jsons scenario_info ci_name ci_title ci_game_name
       ci_boxart_url ci_width ci_height py_str scenario_script _username].
  change (broadcaster_name_of d ++ " is streaming " ++ "GameX"
          ++ " on twitch.tv  | " ++ "My Title")
    with (scenario_title (broadcaster_name_of d)).
  change ("https://www.twitch.tv/" ++ "alice" ++ "/") with "https://www.twitch.tv/alice/".
  unfold scenario_payload.
  pose proof (scenario_title_truthy (broadcaster_name_of d)) as T.
  generalize dependent (scenario_title (broadcaster_name_of d)). intros title T.
  generalize (scenario_boxart_url (box_art_template_of d)). intros boxart_url.
  destruct title as [|c ttl]; [discriminate|].
  set (e := snd (set_timestamp _ _ _)).
  assert (V : is_embed_valid e = Ok (str_len (String c ttl) <=? 6000)).
  { unfold is_embed_valid, embed_length. subst e.
    cbn -[str_len Z.leb Z.add].
    change (str_len "") with 0. unfold Limits.MaxLength.
    rewrite !Z.add_0_r, andb_true_r. reflexivity. }
  rewrite V. cbn [rbind].
  destruct (str_len (String c ttl) <=? 6000);
    destruct msg as [[|c1 m]|]; reflexivity.
Qed.

Lemma attempted_posts (d : lookup_data) (post : nat -> Request -> net_result)
  (n : nat) (rs : list Request) :
  Forall (fun r => req_method r = POST) rs ->
  attempted (scenario_net d post) n rs = attempted post n rs
  /\ all_answered (scenario_net d post) n rs = all_answered post n rs.
Proof.
  intros H. revert n. induction H as [|r rs Hr H IH]; intros n; [split; reflexivity|].
  cbn [attempted all_answered]. unfold scenario_net at 1 3. rewrite Hr.
  destruct (post n r); [|split; reflexivity].
  destruct (IH (S n)) as [-> ->]. split; reflexivity.
Qed.

(** One target: the payload is printed and posted; an answer is
    printed, a failure in transport escapes. *)
Lemma __execute_outcome (h : DiscordWebhook) (url : string)
  (p : list (string * pyval)) (w : World) :
  __has_valid_message h = true ->
  json_payload h None None = Ok p ->
  exists w',
    __execute h url None None w
    = (match net w (List.length (sent w)) (scenario_post url p) with
       | Reply _ => Ok tt
       | Unreachable => Raise RequestException
       end, w')
    /\ sent w' = (sent w ++ [scenario_post url p])%list
    /\ net w' = net w.
Proof.
  intros Hv Hp. unfold __execute. rewrite Hv. cbn [negb].
  unfold bind, lift. rewrite Hp.
  unfold print, modify, http. cbn [net sent].
  change (webhook_post url p) with (scenario_post url p).
  destruct (net w (List.length (sent w)) (scenario_post url p)) as [resp|].
  - destruct (negb (status_code resp =? 200)); eexists; repeat split.
  - eexists; repeat split.
Qed.

(** One target after the other, until a POST fails in transport. *)
Lemma for_each_attempted (h : DiscordWebhook) (p : list (string * pyval))
  (urls : list string) :
  __has_valid_message h = true ->
  json_payload h None None = Ok p ->
  forall w,
    let rs := map (fun u => scenario_post u p) urls in
    exists w',
      for_each (hook_targets urls)
        (fun t => __execute h (fst (fst t)) (snd (fst t)) (snd t)) w
      = (if all_answered (net w) (List.length (sent w)) rs
         then Ok tt else Raise RequestException, w')
      /\ sent w' = (sent w ++ attempted (net w) (List.length (sent w)) rs)%list.
Proof.
  intros Hv Hp. induction urls as [|u urls IH]; intros w rs; subst rs.
  - exists w. cbn. rewrite app_nil_r. split; reflexivity.
  - cbn [hook_targets map for_each fst snd attempted all_answered].
    destruct (__execute_outcome h u p w Hv Hp) as (w1 & E & S1 & N1).
    unfold bind at 1. rewrite E.
    destruct (net w (List.length (sent w)) (scenario_post u p)) as [resp|].
    + destruct (IH w1) as (w2 & E2 & S2). cbv zeta in E2, S2.
      fold (hook_targets urls). rewrite E2.
      rewrite N1, S1, length_app, Nat.add_1_r in *. cbn [List.length] in *.
      exists w2. split; [reflexivity|]. rewrite S2, <- app_assoc. reflexivity.
    + exists w1. split; [reflexivity | exact S1].
Qed.

Lemma scenario_posts_are_posts (p : list (string * pyval)) (urls : list string) :
  Forall (fun r => req_method r = POST) (map (fun u => scenario_post u p) urls).
Proof. induction urls; constructor; [reflexivity | assumption]. Qed.

(** All the requests are attempted when all are answered. *)
Lemma attempted_all (post : nat -> Request -> net_result) (rs : list Request) :
  forall n, all_answered post n rs = true -> attempted post n rs = rs.
Proof.
  induction rs as [|q qs IH]; intros n A; [reflexivity|].
  cbn [attempted all_answered] in *. destruct (post n q); [|discriminate].
  f_equal. apply IH, A.
Qed.

Lemma __on_start_else_scenario (t : Twitch) (d : lookup_data) (msg : option string)
  (now : string) (urls : list string) (streaming : bool) post log lines fs :
  now <> "" ->
  let s := scenario_script t msg urls streaming in
  let p := scenario_payload d msg now in
  exists w',
    __on_start_else (scenario_info d)
      (s, scenario_world d post log lines now fs)
    = (scenario_outcome post (List.length log) urls p, (s, w'))
    /\ sent w'
       = (log ++ attempted post (List.length log)
                   (map (fun u => scenario_post u p) urls))%list.
Proof.
  intros Hn s p.
  set (w1 := scenario_world d post log lines now fs).
  unfold __on_start_else, bind, get, out, zoom, execute_on_urls, bind, lift.
  cbn [fst snd]. subst s.
  cbn [scenario_script _do_discord_start_notice _hooks_list _discord_start_msg].
  fold (scenario_script t msg urls streaming).
  unfold DiscordWebhook_init.
  destruct urls as [|u urls].
  - exists w1. cbn. rewrite app_nil_r. split; reflexivity.
  - set (us := u :: urls).
    assert (E : (Z.of_nat (List.length (hook_targets us)) =? 0) = false).
    { apply Z.eqb_neq. subst us. cbn [hook_targets map List.length]. lia. }
    rewrite E.
    change (clock w1) with now.
    set (h := mkWebhook _ _ _).
    assert (Hv : __has_valid_message h = true).
    { unfold __has_valid_message. subst h. cbn [_embeds List.length].
      apply orb_true_r. }
    pose proof (scenario_json_payload t d msg now us streaming Hn) as Hp.
    fold h p in Hp.
    destruct (for_each_attempted h p us Hv Hp w1) as (w2 & E2 & S2).
    destruct (attempted_posts d post (List.length log)
                (map (fun u => scenario_post u p) us)
                (scenario_posts_are_posts p us)) as [A1 A2].
    change (net w1) with (scenario_net d post) in E2, S2.
    change (sent w1) with log in E2, S2.
    rewrite A2 in E2. rewrite A1 in S2.
    unfold execute. rewrite Hv. cbn [negb].
    change (_urls h) with (hook_targets us). cbn [fst snd]. rewrite E2.
    exists w2. split; [reflexivity | exact S2].
Qed.

Lemma __on_start_scenario (t : Twitch) (d : lookup_data) (msg : option string)
  (now : string) (urls : list string) (streaming : bool) post log lines fs :
  authenticated t = true -> now <> "" ->
  let p := scenario_payload d msg now in
  let n := (List.length log + 3)%nat in
  exists w',
    __on_start (scenario_script t msg urls streaming,
                scenario_world d post log lines now fs)
    = (scenario_outcome post n urls p, (scenario_script t msg urls true, w'))
    /\ sent w'
       = (log ++ scenario_lookups t d
          ++ attempted post n (map (fun u => scenario_post u p) urls))%list.
Proof.
  intros Ha Hn p n.
  unfold __on_start, try_finally, try_except_else.
  rewrite (scenario_channel_info t d msg urls streaming post log lines now fs Ha).
  match goal with
  | |- context [__on_start_else _ (?s, scenario_world _ _ ?l ?o _ _)] =>
      destruct (__on_start_else_scenario t d msg now urls streaming post l o fs Hn)
        as (w2 & E & S)
  end.
  cbv zeta in E, S. rewrite E.
  assert (L : List.length (log ++ scenario_lookups t d) = n).
  { rewrite length_app. reflexivity. }
  rewrite L in S. rewrite L.
  unfold on_this, modify. cbn [fst snd].
  exists w2. split.
  - destruct (scenario_outcome post n urls _); reflexivity.
  - rewrite S, <- app_assoc. reflexivity.
Qed.

(** C7, as stated, fails: with the user name alice configured, the
    box-art height 72, the start notice enabled and the channel lookup
    answering game GameX and title My Title, the title of the embed
    starts with the [broadcaster_name] of the channel record, here Alice,
    not with the configured user name. *)
Lemma start_event_title_from_channel :
  let t := mkTwitch (PStr "cid") PNone (PStr "tok") PNone true None in
  let h := mkHost loaded_registry
             (scenario_script t (Some "Live!") ["https://discord.test/a"] false)
             (scenario_world alice_data
                (fun _ _ => Reply (mkResponse 204 [] "" None))
                [] [] "2021-03-01T12:00:00+00:00" (fun _ => NoFile)) in
  _username (discord_script h) = PStr "alice"
  /\ _boxart_height (discord_script h) = 72
  /\ _do_discord_start_notice (discord_script h) = true
  /\ fst (handle_events OBS_FRONTEND_EVENT_STREAMING_STARTED h) = Ok tt
  /\ sent (world (snd (handle_events OBS_FRONTEND_EVENT_STREAMING_STARTED h)))
     = [mkRequest GET "https://api.twitch.tv/helix/users"
          [("Client-ID", PStr "cid"); ("Authorization", PStr "Bearer tok")]
          [("login", PStr "alice")] None;
        mkRequest GET "https://api.twitch.tv/helix/channels"
          [("Client-ID", PStr "cid"); ("Authorization", PStr "Bearer tok")]
          [("broadcaster_id", PStr "1234")] None;
        mkRequest GET "https://api.twitch.tv/helix/games"
          [("Client-ID", PStr "cid"); ("Authorization", PStr "Bearer tok")]
          [("id", PStr "509")] None;
        mkRequest POST "https://discord.test/a"
          [("Content-Type", PStr "application/json")] [("wait", PStr "true")]
          (Some (PDict
             [("content", PStr "Live!");
              ("embeds", PList [PDict
                 [("title", PStr "Alice is streaming GameX on twitch.tv  | My Title");
                  ("url", PStr "https://www.twitch.tv/alice/");
                  ("timestamp", PStr "2021-03-01T12:00:00+00:00");
                  ("image", PDict
                     [("url", PStr "https://static-cdn.jtvnw.net/ttv-boxart/509-52x72.jpg");
                      ("width", PInt 52);
                      ("height", PInt 72)])]])]))].
Proof. repeat split. Qed.

(** C7, amended.  In the scenario (user name alice, box-art height 72,
    start notice enabled, an authenticated client, the user and game
    lookups answered, the channel lookup answering game GameX and title My
    Title for a channel shown under some name), the lookup yields the
    box-art width 52 and height 72, and the start event makes the three
    lookups and then POSTs to the configured webhook URLs, in order, one
    POST each, until a POST fails in transport.  Each POST carries the
    start message as content, when there is one and it is not empty, and
    one embed whose title is the name of the channel record followed by
    [ is streaming GameX on twitch.tv  | My Title] and whose image is 52
    wide and 72 high.  The handler returns when every POST is answered,
    raises [RequestException] at the first that is not, and raises
    [ValueError] when no URL is configured; the streaming flag is set in
    each case. *)
Theorem start_event_scenario (t : Twitch) (d : lookup_data) (msg : option string)
  (now : string) (urls : list string) (streaming : bool)
  (post : nat -> Request -> net_result)
  (log : list Request) (lines : list (list piece)) (fs : string -> file_state) :
  authenticated t = true -> now <> "" ->
  let h := mkHost loaded_registry (scenario_script t msg urls streaming)
             (scenario_world d post log lines now fs) in
  let r := handle_events OBS_FRONTEND_EVENT_STREAMING_STARTED h in
  let posts := map (fun u => scenario_post u (scenario_payload d msg now)) urls in
  let n := (List.length log + 3)%nat in
  fst (__get_relavent_channel_info PNone (discord_script h, world h))
  = Ok (mkInfo (PStr (broadcaster_name_of d)) (PStr "My Title") (PStr "GameX")
          (PStr (game_id_of d))
          (replace (box_art_template_of d) "{width}x{height}" "52x72") 52 72)
  /\ sent (world (snd r)) = (log ++ scenario_lookups t d ++ attempted post n posts)%list
  /\ (all_answered post n posts = true ->
      sent (world (snd r)) = (log ++ scenario_lookups t d ++ posts)%list)
  /\ fst r = scenario_outcome post n urls (scenario_payload d msg now)
  /\ discord_script (snd r) = scenario_script t msg urls true.
Proof.
  intros Ha Hn h r posts n. subst r h posts.
  cbn [discord_script world].
  rewrite (scenario_channel_info t d msg urls streaming post log lines now fs Ha).
  destruct (__on_start_scenario t d msg now urls streaming post log lines fs Ha Hn)
    as (w2 & E & S).
  cbv zeta in E, S. fold n in E, S.
  assert (G : handle_events OBS_FRONTEND_EVENT_STREAMING_STARTED
                (mkHost loaded_registry (scenario_script t msg urls streaming)
                   (scenario_world d post log lines now fs))
              = (scenario_outcome post n urls (scenario_payload d msg now),
                 mkHost loaded_registry (scenario_script t msg urls true) w2)).
  { unfold handle_events, bind, get.
    cbn [frontend_event_callbacks loaded_registry registry_get event_eqb for_each
         run_callback].
    unfold bind, in_script, ret. cbn [discord_script world frontend_event_callbacks].
    rewrite E. destruct (scenario_outcome post n urls _) as [[]|e]; reflexivity. }
  rewrite G. cbn [fst snd world discord_script].
  split; [reflexivity|]. split; [exact S|]. split; [|split; reflexivity].
  intros A. rewrite S, (attempted_all post _ n A). reflexivity.
Qed.

(** Instances: two webhook URLs, both answered; and two URLs of which
    the first cannot be reached, with no start message. *)
Lemma start_event_scenario_witness :
  let t := mkTwitch (PStr "cid") PNone (PStr "tok") PNone true None in
  let urls := ["https://discord.test/a"; "https://discord.test/b"] in
  let now := "2021-03-01T12:00:00+00:00" in
  let h := mkHost loaded_registry (scenario_script t (Some "Live!") urls false)
             (scenario_world alice_data
                (fun _ _ => Reply (mkResponse 204 [] "" None))
                [] [] now (fun _ => NoFile)) in
  let h' := mkHost loaded_registry (scenario_script t None urls false)
              (scenario_world alice_data (fun _ _ => Unreachable)
                 [] [] now (fun _ => NoFile)) in
  (fst (handle_events OBS_FRONTEND_EVENT_STREAMING_STARTED h) = Ok tt
   /\ sent (world (snd (handle_events OBS_FRONTEND_EVENT_STREAMING_STARTED h)))
      = (scenario_lookups t alice_data
         ++ [scenario_post "https://discord.test/a"
               (scenario_payload alice_data (Some "Live!") now);
             scenario_post "https://discord.test/b"
               (scenario_payload alice_data (Some "Live!") now)])%list)
  /\ (fst (handle_events OBS_FRONTEND_EVENT_STREAMING_STARTED h')
      = Raise RequestException
      /\ sent (world (snd (handle_events OBS_FRONTEND_EVENT_STREAMING_STARTED h')))
         = (scenario_lookups t alice_data
            ++ [scenario_post "https://discord.test/a"
                  (scenario_payload alice_data None now)])%list
      /\ _is_streaming
           (discord_script (snd (handle_events OBS_FRONTEND_EVENT_STREAMING_STARTED h')))
         = true).
Proof.
  intros t urls now h h'. split.
  - destruct (start_event_scenario t alice_data (Some "Live!") now urls false
                (fun _ _ => Reply (mkResponse 204 [] "" None)) [] [] (fun _ => NoFile)
                eq_refl ltac:(discriminate)) as (_ & _ & H2 & H3 & _).
    split; [exact H3 | exact (H2 eq_refl)].
  - destruct (start_event_scenario t alice_data None now urls false
                (fun _ _ => Unreachable) [] [] (fun _ => NoFile)
                eq_refl ltac:(discriminate)) as (_ & H1 & _ & H3 & H4).
    split; [exact H3|]. split; [exact H1|].
    fold h' in H4. rewrite H4. reflexivity.
Defined.

(* ================================================================== *)
(** * Further properties of DiscordEmbed *)
(* ================================================================== *)

Lemma build_cons (c : setter_call) (cs : list setter_call) (e : DiscordEmbed) :
  build (c :: cs) e = build cs (snd (call c e)).
Proof. reflexivity. Qed.

Lemma call_keeps_title (c : setter_call) (e : DiscordEmbed) :
  key_of c <> "title" -> _title (snd (call c e)) = _title e.
Proof.
  intros H. pose proof (call_frame c "title" e H) as F.
  unfold attribute in F. cbn [String.eqb Ascii.eqb Bool.eqb] in F. congruence.
Qed.

Lemma call_keeps_description (c : setter_call) (e : DiscordEmbed) :
  key_of c <> "description" -> _description (snd (call c e)) = _description e.
Proof.
  intros H. pose proof (call_frame c "description" e H) as F.
  unfold attribute in F. cbn [String.eqb Ascii.eqb Bool.eqb] in F. congruence.
Qed.

Lemma call_keeps_fields (c : setter_call) (e : DiscordEmbed) :
  key_of c <> "fields" -> _fields (snd (call c e)) = _fields e.
Proof.
  intros H. pose proof (call_frame c "fields" e H) as F.
  unfold attribute in F. cbn [String.eqb Ascii.eqb Bool.eqb] in F. congruence.
Qed.

Lemma set_title_within (title : option string) (e : DiscordEmbed) :
  text_within Limits.TitleLength (_title e) ->
  text_within Limits.TitleLength (_title (snd (set_title title e))).
Proof.
  intros H. unfold set_title.
  destruct title as [s|]; [|left; reflexivity].
  destruct (truthy (PStr s)) eqn:T.
  - destruct (str_len (strip s) >? Limits.TitleLength) eqn:L; [exact H|].
    right. exists (strip s). split; [reflexivity|].
    rewrite Z.gtb_ltb in L. apply Z.ltb_ge in L. exact L.
  - right. exists s. split; [reflexivity|].
    destruct s; [|discriminate]. unfold Limits.TitleLength. cbn. lia.
Qed.

Lemma set_description_within (d : option string) (e : DiscordEmbed) :
  text_within Limits.DescriptionLength (_description e) ->
  text_within Limits.DescriptionLength (_description (snd (set_description d e))).
Proof.
  intros H. unfold set_description.
  destruct d as [s|]; [|left; reflexivity].
  destruct (truthy (PStr s)) eqn:T.
  - destruct (str_len (strip s) >? Limits.DescriptionLength) eqn:L; [exact H|].
    right. exists (strip s). split; [reflexivity|].
    rewrite Z.gtb_ltb in L. apply Z.ltb_ge in L. exact L.
  - right. exists s. split; [reflexivity|].
    destruct s; [|discriminate]. unfold Limits.DescriptionLength. cbn. lia.
Qed.

Lemma build_within (cs : list setter_call) (e : DiscordEmbed) :
  text_within Limits.TitleLength (_title e) ->
  text_within Limits.DescriptionLength (_description e) ->
  text_within Limits.TitleLength (_title (build cs e))
  /\ text_within Limits.DescriptionLength (_description (build cs e)).
Proof.
  revert e. induction cs as [|c cs IH]; intros e Ht Hd; [split; assumption|].
  rewrite build_cons. apply IH.
  - destruct c; try (rewrite call_keeps_title by (cbn; discriminate); exact Ht).
    apply set_title_within, Ht.
  - destruct c; try (rewrite call_keeps_description by (cbn; discriminate); exact Hd).
    apply set_description_within, Hd.
Qed.

(** X1. Whatever setters are called on a fresh embed, in whatever order
    and whether or not they raise, the title stays unset or a string of at
    most 256 characters and the description unset or a string of at most
    2048 characters. *)
Theorem built_embed_text_limits (cs : list setter_call) :
  text_within 256 (_title (build cs (DiscordEmbed_init [])))
  /\ text_within 2048 (_description (build cs (DiscordEmbed_init []))).
Proof. apply build_within; left; reflexivity. Qed.

(** One call of [add_field] on an embed whose fields are the list [l]. *)
Lemma add_field_step (name value : string) (inline : option bool)
  (e : DiscordEmbed) (l : list pyval) :
  _fields e = PList l ->
  add_field name value inline e
  = if Nat.eqb (List.length l) 25
    then (Raise (ValueError "Cannot add another field to embed, limit is 25"), e)
    else (Ok tt, upd_fields (PList (l ++ [field_of (name, value, inline)])%list) e).
Proof.
  intros H. unfold add_field, bind, get, lift. rewrite H. cbn [py_len].
  unfold Limits.Fields.
  destruct (Nat.eqb_spec (List.length l) 25) as [E|E].
  - rewrite E. reflexivity.
  - assert (N : (Z.of_nat (List.length l) =? 25) = false) by (apply Z.eqb_neq; lia).
    rewrite N. destruct inline; reflexivity.
Qed.

Lemma build_fields (cs : list setter_call) (e : DiscordEmbed) (l : list pyval) :
  _fields e = PList l -> (List.length l <= 25)%nat ->
  _fields (build cs e)
  = PList (l ++ map field_of (firstn (25 - List.length l) (added_fields cs)))%list.
Proof.
  revert e l. induction cs as [|c cs IH]; intros e l Hf Hl.
  - cbn. rewrite firstn_nil, app_nil_r. exact Hf.
  - rewrite build_cons.
    destruct c;
      try (cbn [added_fields]; apply IH;
           [rewrite call_keeps_fields by (cbn; discriminate); exact Hf | exact Hl]).
    cbn [call added_fields]. rewrite (add_field_step _ _ _ e l Hf).
    destruct (Nat.eqb_spec (List.length l) 25) as [E|E]; cbn [snd].
    + rewrite (IH e l Hf Hl). rewrite E, Nat.sub_diag. reflexivity.
    + rewrite (IH (upd_fields (PList (l ++ [field_of (name, value, inline)])%list) e)
                 (l ++ [field_of (name, value, inline)])%list eq_refl)
        by (rewrite length_app; cbn; lia).
      rewrite length_app. cbn [List.length].
      replace (25 - List.length l)%nat with (S (25 - (List.length l + 1)))%nat by lia.
      cbn [firstn map]. rewrite <- app_assoc. reflexivity.
Qed.

(** X2. On a fresh embed, the fields after any sequence of setter calls
    are the first 25 fields added, in order, each with its name and value
    stripped: every [add_field] after the 25th is refused and changes
    nothing. *)
Theorem built_embed_fields (cs : list setter_call) :
  _fields (build cs (DiscordEmbed_init []))
  = PList (map field_of (firstn 25 (added_fields cs))).
Proof. apply (build_fields cs (DiscordEmbed_init []) [] eq_refl). cbn. lia. Qed.

(** The limit is tested by equality: an embed constructed with more than
    25 fields accepts further ones. *)
Lemma add_field_beyond_limit (name value : string) (inline : option bool)
  (kwargs : list (string * pyval)) (l : list pyval) :
  dict_get kwargs "fields" = Some (PList l) -> (25 < List.length l)%nat ->
  fst (add_field name value inline (DiscordEmbed_init kwargs)) = Ok tt.
Proof.
  intros H L. rewrite (add_field_step _ _ _ _ l).
  - destruct (Nat.eqb_spec (List.length l) 25); [lia | reflexivity].
  - cbn. unfold kwarg. rewrite H. reflexivity.
Qed.

(** ** Colours *)

(** X3. [set_color_rgb] refuses exactly the calls with a component above
    255.  For components between 0 and 255 it stores a 24-bit number from
    which the three components can be read back. *)
Theorem set_color_rgb_spec (r g b : Z) (e : DiscordEmbed) :
  (r > 255 \/ g > 255 \/ b > 255 ->
   exists msg, set_color_rgb r g b e = (Raise (ValueError msg), e))
  /\ (0 <= r <= 255 -> 0 <= g <= 255 -> 0 <= b <= 255 ->
      exists c,
        set_color_rgb r g b e = (Ok tt, upd_color (PInt c) e)
        /\ 0 <= c < 2 ^ 24
        /\ c / 2 ^ 16 = r /\ (c / 2 ^ 8) mod 2 ^ 8 = g /\ c mod 2 ^ 8 = b).
Proof.
  unfold set_color_rgb. cbn [existsb]. split.
  - intros H.
    assert (E : (r >? 255) || ((g >? 255) || ((b >? 255) || false)) = true).
    { rewrite !orb_true_iff, !Z.gtb_ltb, !Z.ltb_lt. lia. }
    rewrite E. eexists. reflexivity.
  - intros Hr Hg Hb.
    assert (E : (r >? 255) || ((g >? 255) || ((b >? 255) || false)) = false).
    { rewrite !orb_false_iff, !Z.gtb_ltb, !Z.ltb_ge. lia. }
    rewrite E. exists (r * 2 ^ 16 + g * 2 ^ 8 + b).
    split; [reflexivity|].
    change (2 ^ 24) with 16777216. change (2 ^ 16) with 65536.
    change (2 ^ 8) with 256.
    repeat split; try lia.
    + symmetry. apply (Z.div_unique _ 65536 r (g * 256 + b)); lia.
    + replace ((r * 65536 + g * 256 + b) / 256) with (r * 256 + g)
        by (apply (Z.div_unique _ 256 _ b); lia).
      symmetry. apply (Z.mod_unique _ 256 r g); lia.
    + symmetry. apply (Z.mod_unique _ 256 (r * 256 + g) b); lia.
Qed.

(** Instances: yellow is stored as 16776960; a component of 256 is
    refused. *)
Lemma set_color_rgb_spec_witness :
  (exists msg,
     set_color_rgb 0 256 0 (DiscordEmbed_init [])
     = (Raise (ValueError msg), DiscordEmbed_init []))
  /\ exists c,
       set_color_rgb 255 255 0 (DiscordEmbed_init [])
       = (Ok tt, upd_color (PInt c) (DiscordEmbed_init []))
       /\ 0 <= c < 2 ^ 24
       /\ c / 2 ^ 16 = 255 /\ (c / 2 ^ 8) mod 2 ^ 8 = 255 /\ c mod 2 ^ 8 = 0.
Proof.
  split.
  - apply (proj1 (set_color_rgb_spec 0 256 0 (DiscordEmbed_init []))). lia.
  - apply (proj2 (set_color_rgb_spec 255 255 0 (DiscordEmbed_init []))); lia.
Defined.

(** *** Hexadecimal texts *)

Ltac digit_cases d H :=
  assert (d = 0 \/ d = 1 \/ d = 2 \/ d = 3 \/ d = 4 \/ d = 5 \/ d = 6 \/ d = 7
          \/ d = 8 \/ d = 9 \/ d = 10 \/ d = 11 \/ d = 12 \/ d = 13 \/ d = 14
          \/ d = 15) as H by lia;
  repeat (destruct H as [H|H]; [subst d | ]); [ .. | subst d].

Lemma hex_value_digit (d : Z) : 0 <= d < 16 -> hex_value (hex_digit d) = Some d.
Proof. intros H. digit_cases d C; reflexivity. Qed.

Lemma hex_digit_plain (d : Z) :
  0 <= d < 16 ->
  int_isspace (hex_digit d) = false
  /\ Ascii.eqb (hex_digit d) "_" = false
  /\ Ascii.eqb (hex_digit d) "x" = false
  /\ Ascii.eqb (hex_digit d) "X" = false
  /\ Ascii.eqb (hex_digit d) "#" = false.
Proof. intros H. digit_cases d C; repeat split. Qed.

Lemma hex_body_digit (d acc : Z) (after_digit : bool) (r : string) :
  0 <= d < 16 ->
  hex_body (String (hex_digit d) r) acc after_digit = hex_body r (16 * acc + d) true.
Proof.
  intros H. cbn [hex_body].
  destruct (hex_digit_plain d H) as (_ & -> & _).
  rewrite (hex_value_digit d H). reflexivity.
Qed.

Lemma int_lstrip_plain (c : ascii) (r : string) :
  int_isspace c = false -> int_lstrip (String c r) = String c r.
Proof. intros H. cbn [int_lstrip]. rewrite H. reflexivity. Qed.

Lemma int_rstrip_plain (s : string) :
  all_chars (fun c => negb (int_isspace c)) s = true -> int_rstrip s = s.
Proof.
  induction s as [|c r IH]; [reflexivity|].
  cbn [all_chars int_rstrip]. rewrite andb_true_iff, negb_true_iff.
  intros [Hc Hr]. rewrite (IH Hr). destruct r; [rewrite Hc|]; reflexivity.
Qed.

Lemma replace_no_hash (s : string) :
  all_chars (fun c => negb (Ascii.eqb c "#")) s = true -> replace s "#" "" = s.
Proof.
  unfold replace. induction s as [|c r IH]; [reflexivity|].
  cbn [all_chars replace_from String.prefix]. rewrite andb_true_iff, negb_true_iff.
  intros [Hc Hr]. destruct (ascii_dec "#" c) as [E|_].
  - subst c. discriminate.
  - rewrite (IH Hr). reflexivity.
Qed.

Lemma replace_leading_hash (s : string) :
  replace (String "#" s) "#" "" = replace s "#" "".
Proof.
  unfold replace. cbn [replace_from String.prefix].
  destruct (ascii_dec "#" "#") as [_|N]; [|congruence].
  destruct s; reflexivity.
Qed.

(** The text of six hexadecimal digits denotes the number they spell. *)
Lemma int_base16_digits (a b c d e f : Z) :
  0 <= a < 16 -> 0 <= b < 16 -> 0 <= c < 16 ->
  0 <= d < 16 -> 0 <= e < 16 -> 0 <= f < 16 ->
  int_base16
    (String (hex_digit a) (String (hex_digit b) (String (hex_digit c)
       (String (hex_digit d) (String (hex_digit e) (String (hex_digit f) ""))))))
  = Ok (16 * (16 * (16 * (16 * (16 * a + b) + c) + d) + e) + f).
Proof.
  intros Ha Hb Hc Hd He Hf.
  set (rest := String (hex_digit b) _).
  assert (S : int_rstrip (int_lstrip (String (hex_digit a) rest))
              = String (hex_digit a) rest).
  { rewrite int_lstrip_plain by apply (hex_digit_plain a Ha).
    apply int_rstrip_plain. subst rest. cbn [all_chars].
    rewrite (proj1 (hex_digit_plain a Ha)), (proj1 (hex_digit_plain b Hb)),
      (proj1 (hex_digit_plain c Hc)), (proj1 (hex_digit_plain d Hd)),
      (proj1 (hex_digit_plain e He)), (proj1 (hex_digit_plain f Hf)).
    reflexivity. }
  unfold int_base16. rewrite S.
  assert (U : hex_unsigned (String (hex_digit a) rest)
              = hex_body (String (hex_digit a) rest) 0 false).
  { subst rest. unfold hex_unsigned.
    destruct (hex_digit_plain b Hb) as (_ & _ & -> & -> & _).
    digit_cases a C; reflexivity. }
  assert (M : forall bad,
            match String (hex_digit a) rest with
            | String "-" r =>
                match hex_unsigned r with Some n => Ok (- n) | None => bad end
            | String "+" r =>
                match hex_unsigned r with Some n => Ok n | None => bad end
            | s => match hex_unsigned s with Some n => Ok n | None => bad end
            end
            = match hex_unsigned (String (hex_digit a) rest) with
              | Some n => Ok n
              | None => bad
              end).
  { intros bad. clear S U. digit_cases a C; reflexivity. }
  cbv zeta. rewrite M, U. subst rest.
  rewrite !hex_body_digit by assumption. cbn [hex_body].
  f_equal; lia.
Qed.

Lemma hex2_digits (n : Z) :
  0 <= n <= 255 -> 0 <= n / 16 < 16 /\ 0 <= n mod 16 < 16 /\ n = 16 * (n / 16) + n mod 16.
Proof.
  intros H. pose proof (Z.div_mod n 16 ltac:(lia)).
  pose proof (Z.mod_pos_bound n 16 ltac:(lia)).
  assert (0 <= n / 16) by (apply Z.div_pos; lia).
  assert (n / 16 < 16) by (apply Z.div_lt_upper_bound; lia).
  lia.
Qed.

(** X4. A colour given as [#rrggbb] in lower-case hexadecimal is stored
    as the same number as the colour given by its three components. *)
Theorem set_color_hex_rgb (r g b : Z) (e : DiscordEmbed) :
  0 <= r <= 255 -> 0 <= g <= 255 -> 0 <= b <= 255 ->
  set_color_hex (hex_color r g b) e = set_color_rgb r g b e
  /\ set_color_hex (hex_color r g b) e
     = (Ok tt, upd_color (PInt (r * 2 ^ 16 + g * 2 ^ 8 + b)) e).
Proof.
  intros Hr Hg Hb.
  destruct (hex2_digits r Hr) as (R1 & R2 & R3).
  destruct (hex2_digits g Hg) as (G1 & G2 & G3).
  destruct (hex2_digits b Hb) as (B1 & B2 & B3).
  assert (Hrgb : set_color_rgb r g b e
                 = (Ok tt, upd_color (PInt (r * 2 ^ 16 + g * 2 ^ 8 + b)) e)).
  { unfold set_color_rgb. cbn [existsb].
    assert (E : (r >? 255) || ((g >? 255) || ((b >? 255) || false)) = false).
    { rewrite !orb_false_iff, !Z.gtb_ltb, !Z.ltb_ge. lia. }
    rewrite E. reflexivity. }
  rewrite Hrgb.
  enough (set_color_hex (hex_color r g b) e
          = (Ok tt, upd_color (PInt (r * 2 ^ 16 + g * 2 ^ 8 + b)) e))
    by (split; assumption).
  unfold set_color_hex, hex_color, hex2. cbn [String.append].
  rewrite replace_leading_hash.
  set (digits := String (hex_digit (r / 16)) _).
  assert (N : replace digits "#" "" = digits).
  { apply replace_no_hash. subst digits. cbn [all_chars].
    rewrite (proj2 (proj2 (proj2 (proj2 (hex_digit_plain _ R1))))),
      (proj2 (proj2 (proj2 (proj2 (hex_digit_plain _ R2))))),
      (proj2 (proj2 (proj2 (proj2 (hex_digit_plain _ G1))))),
      (proj2 (proj2 (proj2 (proj2 (hex_digit_plain _ G2))))),
      (proj2 (proj2 (proj2 (proj2 (hex_digit_plain _ B1))))),
      (proj2 (proj2 (proj2 (proj2 (hex_digit_plain _ B2))))).
    reflexivity. }
  rewrite N, N. subst digits.
  change (str_len _ >? 6) with false. cbv iota.
  unfold bind, lift, modify.
  rewrite (int_base16_digits _ _ _ _ _ _ R1 R2 G1 G2 B1 B2).
  do 3 f_equal. change (2 ^ 16) with 65536. change (2 ^ 8) with 256. lia.
Qed.

(** An instance: [#ffff00] is yellow. *)
Lemma set_color_hex_rgb_witness :
  set_color_hex "#ffff00" (DiscordEmbed_init [])
  = set_color_rgb 255 255 0 (DiscordEmbed_init [])
  /\ set_color_hex "#ffff00" (DiscordEmbed_init [])
     = (Ok tt, upd_color (PInt 16776960) (DiscordEmbed_init [])).
Proof.
  apply (set_color_hex_rgb 255 255 0 (DiscordEmbed_init [])); lia.
Defined.

(** ** Length and validity *)



Lemma sum_cons (a : Z) (l : list Z) : sum (a :: l) = a + sum l.
Proof.
  unfold sum. cbn [fold_left].
  assert (G : forall l x y, fold_left Z.add l (x + y) = x + fold_left Z.add l y).
  { clear. induction l as [|b l IH]; intros x y; cbn [fold_left]; [reflexivity|].
    rewrite <- Z.add_assoc. apply IH. }
  replace (0 + a) with (a + 0) by lia. apply G.
Qed.

Lemma sum_app (l1 l2 : list Z) : sum (l1 ++ l2) = sum l1 + sum l2.
Proof.
  induction l1 as [|a l1 IH]; [reflexivity|].
  cbn [app]. rewrite !sum_cons, IH. lia.
Qed.

Lemma pair_length_two (s : string) :
  String.length s = 2%nat -> pair_length (PStr s) = Ok 2.
Proof.
  destruct s as [|a [|b [|c s]]]; try discriminate. reflexivity.
Qed.

Lemma plain_field_lengths (nv : string * string) :
  if two_chars nv
  then field_lengths (plain_field nv) = Ok [2; 2]
  else exists m, field_lengths (plain_field nv) = Raise (ValueError m).
Proof.
  destruct nv as [n v]. unfold two_chars, plain_field, field_lengths.
  cbn [fst snd method_get dict_get String.eqb Ascii.eqb Bool.eqb rbind].
  destruct (Nat.eqb_spec (String.length n) 2) as [En|En]; cbn [andb].
  - rewrite (pair_length_two n En). cbn [rbind].
    destruct (Nat.eqb_spec (String.length v) 2) as [Ev|Ev].
    + rewrite (pair_length_two v Ev). reflexivity.
    + destruct (pair_length_str_raises v Ev) as [m Hm]. rewrite Hm. eexists; reflexivity.
  - destruct (pair_length_str_raises n En) as [m Hm]. rewrite Hm. eexists; reflexivity.
Qed.

Lemma plain_fields_lengths (nvs : list (string * string)) :
  if forallb two_chars nvs
  then exists ls, fields_lengths (map plain_field nvs) = Ok ls
                  /\ sum ls = 4 * Z.of_nat (List.length nvs)
  else exists m, fields_lengths (map plain_field nvs) = Raise (ValueError m).
Proof.
  induction nvs as [|nv nvs IH]; [exists []; split; reflexivity|].
  cbn [forallb map fields_lengths]. pose proof (plain_field_lengths nv) as H.
  destruct (two_chars nv); cbn [andb].
  - rewrite H. cbn [rbind]. destruct (forallb two_chars nvs).
    + destruct IH as (ls & -> & S). cbn [rbind]. eexists. split; [reflexivity|].
      rewrite sum_app, S. cbn [List.length]. rewrite Nat2Z.inj_succ.
      change (sum [2; 2]) with 4. lia.
    + destruct IH as (m & ->). eexists; reflexivity.
  - destruct H as (m & ->). eexists; reflexivity.
Qed.

(** X6. For an embed that holds nothing but fields with string names and
    values, [embed_length] returns only when every name and every value
    has exactly two characters, and then returns four per field, the sum
    of their lengths; in every other case it raises [ValueError]. *)
Theorem embed_length_of_fields (nvs : list (string * string)) :
  if forallb two_chars nvs
  then embed_length (DiscordEmbed_init [("fields", PList (map plain_field nvs))])
       = Ok (4 * Z.of_nat (List.length nvs))
  else exists m,
      embed_length (DiscordEmbed_init [("fields", PList (map plain_field nvs))])
      = Raise (ValueError m).
Proof.
  pose proof (plain_fields_lengths nvs) as H.
  unfold embed_length.
  cbn [DiscordEmbed_init kwarg dict_get String.eqb Ascii.eqb Bool.eqb
       _title _description _footer _author _fields or_empty truthy py_len
       is_none rbind py_iter].
  destruct (forallb two_chars nvs).
  - destruct H as (ls & -> & S). cbn [rbind]. rewrite S. reflexivity.
  - destruct H as (m & ->). eexists; reflexivity.
Qed.



(* ================================================================== *)
(** * Further properties of DiscordWebhook *)
(* ================================================================== *)

(** X8. Delivery stops at the first transport error: when the POST to
    the first target raises, [execute] raises [RequestException] and no
    request is attempted for any of the other targets. *)
Theorem execute_stops_at_transport_error (h : DiscordWebhook) (w : World)
  (url : string) (username avatar_url : option string) (others : list target)
  (p : list (string * pyval)) :
  __has_valid_message h = true ->
  _urls h = (url, username, avatar_url) :: others ->
  json_payload h username avatar_url = Ok p ->
  net w (List.length (sent w)) (webhook_post url p) = Unreachable ->
  fst (execute h w) = Raise RequestException
  /\ sent (snd (execute h w)) = (sent w ++ [webhook_post url p])%list.
Proof.
  intros Hv Hu Hp Hn. unfold execute. rewrite Hv, Hu. cbn [negb for_each fst snd].
  unfold bind at 1. unfold __execute. rewrite Hv. cbn [negb].
  unfold bind, lift. rewrite Hp. unfold print, modify, http. cbn [net sent].
  rewrite Hn. split; reflexivity.
Qed.

Lemma execute_stops_at_transport_error_witness :
  fst (execute
         (mkWebhook [("https://discord.test/a", None, None);
                     ("https://discord.test/b", None, None)] (Some "live") None)
         offline_world)
  = Raise RequestException
  /\ sent (snd (execute
         (mkWebhook [("https://discord.test/a", None, None);
                     ("https://discord.test/b", None, None)] (Some "live") None)
         offline_world))
     = [webhook_post "https://discord.test/a" [("content", PStr "live")]].
Proof.
  apply (execute_stops_at_transport_error
           (mkWebhook [("https://discord.test/a", None, None);
                       ("https://discord.test/b", None, None)] (Some "live") None)
           offline_world "https://discord.test/a" None None
           [("https://discord.test/b", None, None)] [("content", PStr "live")]);
    reflexivity.
Defined.

Lemma add_embed_step (e : DiscordEmbed) (h : DiscordWebhook)
  (es : list DiscordEmbed) :
  _embeds h = Some es ->
  add_embed (Some e) h
  = if Nat.eqb (List.length es) 10
    then (Raise (ValueError "Cannot add another embed, limit is 10"), h)
    else (Ok tt, mkWebhook (_urls h) (_content h) (Some (es ++ [e])%list)).
Proof.
  intros H. unfold add_embed, bind, get. rewrite H. unfold EMBED_LIMIT.
  destruct (Nat.eqb_spec (List.length es) 10) as [E|E].
  - rewrite E. reflexivity.
  - assert (N : (Z.of_nat (List.length es) =? 10) = false) by (apply Z.eqb_neq; lia).
    rewrite N. reflexivity.
Qed.

Lemma add_embeds_from (more : list DiscordEmbed) (h : DiscordWebhook)
  (es : list DiscordEmbed) :
  _embeds h = Some es -> (List.length es <= 10)%nat ->
  add_embeds more h
  = mkWebhook (_urls h) (_content h)
      (Some (es ++ firstn (10 - List.length es) more)%list).
Proof.
  revert h es. induction more as [|e more IH]; intros h es H L.
  - cbn. rewrite firstn_nil, app_nil_r, <- H. destruct h; reflexivity.
  - change (add_embeds (e :: more) h)
      with (add_embeds more (snd (add_embed (Some e) h))).
    rewrite (add_embed_step e h es H).
    destruct (Nat.eqb_spec (List.length es) 10) as [E|E]; cbn [snd].
    + rewrite (IH h es H L), E, Nat.sub_diag. reflexivity.
    + rewrite (IH (mkWebhook (_urls h) (_content h) (Some (es ++ [e])%list))
                 (es ++ [e])%list eq_refl) by (rewrite length_app; cbn; lia).
      cbn [_urls _content]. rewrite length_app. cbn [List.length].
      replace (10 - List.length es)%nat with (S (10 - (List.length es + 1)))%nat by lia.
      cbn [firstn]. rewrite <- app_assoc. reflexivity.
Qed.

(** X9. A webhook whose list of embeds is empty keeps the first ten
    embeds added to it, in order; every [add_embed] after the tenth is
    refused and changes nothing, and the targets and the content are never
    touched. *)
Theorem add_embeds_keeps_first_ten (urls : list target) (content : option string)
  (es : list DiscordEmbed) :
  add_embeds es (mkWebhook urls content (Some []))
  = mkWebhook urls content (Some (firstn 10 es)).
Proof.
  apply (add_embeds_from es (mkWebhook urls content (Some [])) [] eq_refl).
  cbn. lia.
Qed.

(* ================================================================== *)
(** * Further properties of Twitch *)
(* ================================================================== *)

Lemma method_get_dict (d : list (string * pyval)) (k : string) (dflt : pyval) :
  method_get (PDict d) k dflt = Ok (kwarg d k dflt).
Proof. reflexivity. Qed.

(** X10. Credentials that hold neither an access token nor both a client
    id and a client secret make the constructor raise [ValueError] before
    anything is sent or printed. *)
Theorem Twitch_new_needs_credentials (auth : list (string * pyval))
  (scopes : option (list string)) (w : World) :
  kwarg auth "access_token" PNone = PNone ->
  kwarg auth "client_id" PNone = PNone \/ kwarg auth "client_secret" PNone = PNone ->
  Twitch_new (PDict auth) scopes w
  = (Raise (ValueError
       "Could not authtenticate with twitch, invalid credentials provided"), w).
Proof.
  intros Ha Hc. unfold Twitch_new, __init__, bind, lift.
  rewrite !method_get_dict, Ha. cbn [is_none negb].
  destruct Hc as [-> | ->]; cbn [is_none negb andb]; [reflexivity|].
  rewrite andb_false_r. reflexivity.
Qed.

Lemma Twitch_new_needs_credentials_witness :
  Twitch_new (PDict [("client_id", PStr "cid")]) None (quiet_world 200)
  = (Raise (ValueError
       "Could not authtenticate with twitch, invalid credentials provided"),
     quiet_world 200).
Proof.
  apply (Twitch_new_needs_credentials [("client_id", PStr "cid")] None
           (quiet_world 200)).
  - reflexivity.
  - right. reflexivity.
Defined.

(** The client-credentials exchange, for each kind of answer. *)
Lemma oauth_credentials (t : Twitch) (w : World) (resp : Response) :
  _refresh_token t = PNone ->
  net w (List.length (sent w))
    (credentials_request (_client_id t) (_client_secret t) (_scopes t))
  = Reply resp ->
  let w1 := after_request
              (credentials_request (_client_id t) (_client_secret t) (_scopes t)) w in
  __oauth (t, w)
  = if negb (status_code resp =? 200)
    then (Raise (ValueError "Invalid ClientID or ClientSecret"), (t, w1))
    else match body resp with
         | None => (Raise (ValueError "JSONDecodeError"), (t, w1))
         | Some (PDict d) =>
             (Ok tt,
              (with_refresh_token (kwarg d "refresh_token" PNone)
                 (with_access_token (kwarg d "access_token" PNone) t),
               if is_none (kwarg d "access_token" PNone)
               then after_print [Lit "Could not retrieve twitch access token"] w1
               else w1))
         | Some _ => (Raise AttributeError, (t, w1))
         end.
Proof.
  intros Hr Hn w1. subst w1. revert Hn.
  unfold __oauth, bind, self. cbn [fst snd]. rewrite Hr. cbn [is_none negb].
  unfold credentials_request, io, zoom, http. cbn [fst snd].
  destruct (_scopes t) as [[|x r]|];
    cbn [dict_set app String.eqb Ascii.eqb Bool.eqb];
    intros ->; unfold after_request;
    (destruct (negb (status_code resp =? 200)); [reflexivity|]);
    unfold lift, response_json;
    (destruct (body resp) as [[| | | | |d]|]; try reflexivity);
    rewrite !method_get_dict; unfold on_self, modify, bind;
    cbn [fst snd _access_token with_access_token];
    (destruct (is_none (kwarg d "access_token" PNone)); reflexivity).
Qed.

(** X11. Construction from a client id and a client secret performs one
    token exchange.  An answer other than 200, or a 200 whose body is not
    JSON, gives an unauthenticated session; a 200 with a JSON object gives
    an authenticated session holding the [access_token] and
    [refresh_token] of the answer.  In each case construction succeeds. *)
Theorem Twitch_new_client_credentials (auth : list (string * pyval))
  (scopes : option (list string)) (w : World) (resp : Response) :
  let cid := kwarg auth "client_id" PNone in
  let secret := kwarg auth "client_secret" PNone in
  kwarg auth "access_token" PNone = PNone ->
  cid <> PNone -> secret <> PNone ->
  net w (List.length (sent w)) (credentials_request cid secret scopes) = Reply resp ->
  sent (snd (Twitch_new (PDict auth) scopes w))
  = (sent w ++ [credentials_request cid secret scopes])%list
  /\ (status_code resp <> 200 \/ body resp = None ->
      fst (Twitch_new (PDict auth) scopes w)
      = Ok (mkTwitch cid secret PNone PNone false scopes))
  /\ (forall d, status_code resp = 200 -> body resp = Some (PDict d) ->
      fst (Twitch_new (PDict auth) scopes w)
      = Ok (mkTwitch cid secret (kwarg d "access_token" PNone)
              (kwarg d "refresh_token" PNone) true scopes)).
Proof.
  intros cid secret Ha Hc Hs Hn.
  assert (Ec : is_none cid = false) by (destruct cid; try reflexivity; congruence).
  assert (Es : is_none secret = false) by (destruct secret; try reflexivity; congruence).
  unfold Twitch_new, __init__, bind, lift, io, zoom, print, on_self, modify,
    try_except_else, self.
  rewrite !method_get_dict. cbv beta. cbn [fst snd].
  rewrite Ha. fold cid secret. cbn [is_none negb]. rewrite Ec, Es. cbn [negb andb].
  cbv beta iota zeta. cbn [fst snd].
  match goal with
  | |- context [__oauth (?t1, ?w1)] =>
      pose proof (oauth_credentials t1 w1 resp eq_refl Hn) as O; cbv zeta in O;
      rewrite O; clear O
  end.
  cbn [_client_id _client_secret _scopes with_client_id with_client_secret blank].
  destruct (status_code resp =? 200) eqn:St; cbn [negb];
    [ apply Z.eqb_eq in St; destruct (body resp) as [[| | | | |d]|] eqn:B;
      try destruct (is_none (kwarg d "access_token" PNone))
    | apply Z.eqb_neq in St ];
    cbv beta iota zeta; cbn [fst snd is_ValueError];
    (split; [reflexivity | split]);
    first [ intros [?|?]; first [congruence | reflexivity]
          | intros d' ? E; first [congruence | injection E as <-; reflexivity] ].
Qed.

(** Instances: an exchange answered 401 and one answered 200 with a
    token. *)
Lemma Twitch_new_client_credentials_witness :
  fst (Twitch_new (PDict [("client_id", PStr "cid"); ("client_secret", PStr "s")])
         None (quiet_world 401))
  = Ok (mkTwitch (PStr "cid") (PStr "s") PNone PNone false None)
  /\ fst (Twitch_new (PDict [("client_id", PStr "cid"); ("client_secret", PStr "s")])
            None (echo_world (PDict [("access_token", PStr "tok")])))
     = Ok (mkTwitch (PStr "cid") (PStr "s") (PStr "tok") PNone true None).
Proof.
  split.
  - destruct (Twitch_new_client_credentials
                [("client_id", PStr "cid"); ("client_secret", PStr "s")] None
                (quiet_world 401) (mkResponse 401 [] "" None)
                eq_refl ltac:(discriminate) ltac:(discriminate) eq_refl)
      as (_ & H & _).
    apply H. left. discriminate.
  - destruct (Twitch_new_client_credentials
                [("client_id", PStr "cid"); ("client_secret", PStr "s")] None
                (echo_world (PDict [("access_token", PStr "tok")]))
                (json_reply (PDict [("access_token", PStr "tok")]))
                eq_refl ltac:(discriminate) ltac:(discriminate) eq_refl)
      as (_ & _ & H).
    apply (H [("access_token", PStr "tok")]); reflexivity.
Defined.

(** X12. When the session holds a refresh token, the re-authentication
    sends one request and never stores anything from the answer: the
    access token, the refresh token and every other attribute of the
    session are the same afterwards, whatever the network does. *)
Theorem oauth_refresh_keeps_tokens (t : Twitch) (w : World) :
  _refresh_token t <> PNone ->
  fst (snd (__oauth (t, w))) = t
  /\ List.length (sent (snd (snd (__oauth (t, w))))) = S (List.length (sent w)).
Proof.
  intros H.
  assert (E : is_none (_refresh_token t) = false)
    by (destruct (_refresh_token t); try reflexivity; congruence).
  unfold __oauth, bind, self, io, zoom, http, raise, ret. cbn [fst snd].
  rewrite E. cbn [negb]. cbv beta iota zeta. cbn [fst snd].
  match goal with
  | |- context [net w ?n ?r] => destruct (net w n r) as [resp|]
  end; cbv beta iota zeta; cbn [fst snd];
    [destruct (negb (status_code resp =? 200))|];
    cbv beta iota zeta; cbn [fst snd sent]; rewrite length_app;
    cbn [List.length]; split; try reflexivity; lia.
Qed.

Lemma oauth_refresh_keeps_tokens_witness :
  fst (snd (__oauth
       (mkTwitch (PStr "cid") (PStr "s") (PStr "old") (PStr "refresh") true None,
        echo_world (PDict [("access_token", PStr "new")]))))
  = mkTwitch (PStr "cid") (PStr "s") (PStr "old") (PStr "refresh") true None
  /\ List.length (sent (snd (snd (__oauth
       (mkTwitch (PStr "cid") (PStr "s") (PStr "old") (PStr "refresh") true None,
        echo_world (PDict [("access_token", PStr "new")])))))) = 1%nat.
Proof.
  apply (oauth_refresh_keeps_tokens
           (mkTwitch (PStr "cid") (PStr "s") (PStr "old") (PStr "refresh") true None)
           (echo_world (PDict [("access_token", PStr "new")]))).
  discriminate.
Defined.

(** X13. A lookup of more than 100 users or games raises [ValueError]
    before anything is sent or printed; the session is left as it was. *)
Theorem lookups_refuse_over_100 (ids : list pyval) (t : Twitch) (w : World) :
  (100 < List.length ids)%nat ->
  (exists msg, get_users_info ids (t, w) = (Raise (ValueError msg), (t, w)))
  /\ (exists msg, get_games_info ids (t, w) = (Raise (ValueError msg), (t, w))).
Proof.
  intros H.
  assert (E : (Z.of_nat (List.length ids) >? 100) = true)
    by (rewrite Z.gtb_ltb; apply Z.ltb_lt; lia).
  unfold get_users_info, get_games_info, TwitchLimits.UserRequests,
    TwitchLimits.GamesRequests.
  rewrite E. split; eexists; reflexivity.
Qed.

Lemma lookups_refuse_over_100_witness :
  (exists msg,
     get_users_info (repeat (PStr "alice") 101)
       (mkTwitch (PStr "cid") PNone (PStr "tok") PNone true None, quiet_world 200)
     = (Raise (ValueError msg),
        (mkTwitch (PStr "cid") PNone (PStr "tok") PNone true None, quiet_world 200)))
  /\ (exists msg,
     get_games_info (repeat (PStr "alice") 101)
       (mkTwitch (PStr "cid") PNone (PStr "tok") PNone true None, quiet_world 200)
     = (Raise (ValueError msg),
        (mkTwitch (PStr "cid") PNone (PStr "tok") PNone true None, quiet_world 200))).
Proof.
  apply (lookups_refuse_over_100 (repeat (PStr "alice") 101)
           (mkTwitch (PStr "cid") PNone (PStr "tok") PNone true None)
           (quiet_world 200)).
  rewrite repeat_length. lia.
Defined.

Lemma classify_strings (num name : string) (ids : list string) :
  classify num name (map PStr ids) = Ok (lookup_params num name ids).
Proof.
  induction ids as [|s ids IH]; [reflexivity|].
  cbn [map classify method_isdecimal rbind lookup_params]. rewrite IH.
  cbn [rbind]. destruct (isdecimal s); reflexivity.
Qed.

(** A request answered with status 200 is returned as it is; the
    session is not touched. *)
Lemma attempt_request_get_200 (url : string) (params : list (string * pyval))
  (t : Twitch) (w : World) (resp : Response) :
  net w (List.length (sent w)) (api_get t url params) = Reply resp ->
  status_code resp = 200 ->
  __attempt_request_get url params (t, w)
  = (Ok (Some resp), (t, after_request (api_get t url params) w)).
Proof.
  intros Hn Hs. unfold __attempt_request_get, bind, self, io, zoom, http.
  cbn [fst snd]. fold (api_get t url params). rewrite Hn.
  unfold __validate_response. rewrite Hs. reflexivity.
Qed.

(** The outcome of a user lookup answered with status 200. *)
Lemma get_users_info_200 (ids : list string) (t : Twitch) (w : World)
  (resp : Response) :
  (List.length ids <= 100)%nat ->
  net w (List.length (sent w))
    (api_get t APIURL.Users (lookup_params "id" "login" ids)) = Reply resp ->
  status_code resp = 200 ->
  get_users_info (map PStr ids) (t, w)
  = ((j <~ response_json resp ;; method_get j "data" (PList [])),
     (t, after_request (api_get t APIURL.Users (lookup_params "id" "login" ids))
           (after_print [Lit "Getting user request with payload: ";
                         Val (pairs_val (lookup_params "id" "login" ids))] w))).
Proof.
  intros Hl Hn Hs.
  assert (E : (Z.of_nat (List.length (map PStr ids)) >? 100) = false).
  { rewrite length_map, Z.gtb_ltb. apply Z.ltb_ge. lia. }
  unfold get_users_info, TwitchLimits.UserRequests. rewrite E.
  unfold bind, lift, io, zoom, print, modify. rewrite classify_strings.
  cbv beta iota zeta. cbn [fst snd].
  match goal with
  | |- context [__attempt_request_get ?u ?p (?t1, ?w1)] =>
      rewrite (attempt_request_get_200 u p t1 w1 resp Hn Hs)
  end.
  destruct (response_json resp) as [j|e]; cbn [rbind fst snd];
    [destruct (method_get j "data" (PList []))|]; reflexivity.
Qed.

(** X14. A lookup of at most 100 users given as strings sends one GET in
    which every id made of decimal digits goes under [id] and every other
    one under [login], in the order given; when the answer has status 200
    the result is the [data] entry of its JSON body (the empty list when
    the entry is missing). *)
Theorem get_users_info_request (ids : list string) (t : Twitch) (w : World)
  (resp : Response) :
  (List.length ids <= 100)%nat ->
  net w (List.length (sent w))
    (api_get t APIURL.Users (lookup_params "id" "login" ids)) = Reply resp ->
  status_code resp = 200 ->
  fst (get_users_info (map PStr ids) (t, w))
  = (j <~ response_json resp ;; method_get j "data" (PList []))
  /\ fst (snd (get_users_info (map PStr ids) (t, w))) = t
  /\ sent (snd (snd (get_users_info (map PStr ids) (t, w))))
     = (sent w ++ [api_get t APIURL.Users (lookup_params "id" "login" ids)])%list.
Proof.
  intros Hl Hn Hs. rewrite (get_users_info_200 ids t w resp Hl Hn Hs).
  repeat split.
Qed.

Lemma get_users_info_request_witness :
  let t := mkTwitch (PStr "cid") PNone (PStr "tok") PNone true None in
  let w := echo_world (PDict [("data", PList [PDict [("id", PStr "42")]])]) in
  fst (get_users_info [PStr "42"; PStr "alice"] (t, w))
  = Ok (PList [PDict [("id", PStr "42")]])
  /\ sent (snd (snd (get_users_info [PStr "42"; PStr "alice"] (t, w))))
     = [api_get t APIURL.Users [("id", PStr "42"); ("login", PStr "alice")]].
Proof.
  intros t w.
  destruct (get_users_info_request ["42"; "alice"] t w
              (json_reply (PDict [("data", PList [PDict [("id", PStr "42")]])])))
    as (H1 & _ & H3).
  - cbn. lia.
  - reflexivity.
  - reflexivity.
  - split; [exact H1 | exact H3].
Defined.

(** The outcome of a request whose answer has a status other than 200
    and 401: no response is returned and one line is printed. *)
Lemma attempt_request_get_refused (url : string) (params : list (string * pyval))
  (t : Twitch) (w : World) (resp : Response) :
  net w (List.length (sent w)) (api_get t url params) = Reply resp ->
  status_code resp <> 200 -> status_code resp <> 401 ->
  __attempt_request_get url params (t, w)
  = (Ok None,
     (t, after_print [Lit "Could not validate response, bad response ";
                      Lit (text resp)]
           (after_request (api_get t url params) w))).
Proof.
  intros Hn H2 H4. unfold __attempt_request_get, bind, self, io, zoom, http.
  cbn [fst snd]. fold (api_get t url params). rewrite Hn.
  unfold __validate_response.
  apply Z.eqb_neq in H2, H4. rewrite H2, H4. reflexivity.
Qed.

(** The outcome of a request answered 401 with a challenge other than
    the expected one: the response is returned as a valid one. *)
Lemma attempt_request_get_401 (url : string) (params : list (string * pyval))
  (t : Twitch) (w : World) (resp : Response) (challenge : string) :
  net w (List.length (sent w)) (api_get t url params) = Reply resp ->
  status_code resp = 401 ->
  header (headers resp) "WWW-Authenticate" = Ok challenge ->
  challenge <> invalid_token_challenge ->
  __attempt_request_get url params (t, w)
  = (Ok (Some resp), (t, after_request (api_get t url params) w)).
Proof.
  intros Hn Hs Hh Hc. unfold __attempt_request_get, bind, self, io, zoom, http.
  cbn [fst snd]. fold (api_get t url params). rewrite Hn.
  unfold __validate_response, bind, lift. rewrite Hs, Hh. cbn [Z.eqb Pos.eqb].
  apply String.eqb_neq in Hc. rewrite Hc. reflexivity.
Qed.

(** What [get_channel_info] makes of a response it got. *)
Lemma get_channel_info_of (user_id : pyval) (t : Twitch) (w w1 : World)
  (resp : Response) :
  __attempt_request_get APIURL.Channels [("broadcaster_id", user_id)] (t, w)
  = (Ok (Some resp), (t, w1)) ->
  forall d, body resp = Some (PDict d) ->
  (kwarg d "data" PNone = PNone \/ kwarg d "data" PNone = PList [] ->
   get_channel_info user_id (t, w) = (Ok PNone, (t, w1)))
  /\ (forall x l, kwarg d "data" PNone = PList (x :: l) ->
      get_channel_info user_id (t, w) = (Ok x, (t, w1))).
Proof.
  intros H d B.
  split; [intros [E | E] | intros x l E];
    unfold get_channel_info; unfold bind at 1; rewrite H;
    unfold bind, lift, response_json; rewrite B, method_get_dict, E;
    reflexivity.
Qed.

(** X15. [get_channel_info] sends one GET with the id under
    [broadcaster_id].  When the answer has status 200 and a JSON object as
    body, the result is the first record of its [data] list, and [None]
    when [data] is missing, null or empty. *)
Theorem get_channel_info_result (user_id : pyval) (t : Twitch) (w : World)
  (resp : Response) (d : list (string * pyval)) :
  net w (List.length (sent w))
    (api_get t APIURL.Channels [("broadcaster_id", user_id)]) = Reply resp ->
  status_code resp = 200 -> body resp = Some (PDict d) ->
  let w1 := after_request (api_get t APIURL.Channels [("broadcaster_id", user_id)]) w in
  (kwarg d "data" PNone = PNone \/ kwarg d "data" PNone = PList [] ->
   get_channel_info user_id (t, w) = (Ok PNone, (t, w1)))
  /\ (forall x l, kwarg d "data" PNone = PList (x :: l) ->
      get_channel_info user_id (t, w) = (Ok x, (t, w1))).
Proof.
  intros Hn Hs B w1.
  apply (get_channel_info_of user_id t w w1 resp
           (attempt_request_get_200 _ _ t w resp Hn Hs) d B).
Qed.

Lemma get_channel_info_result_witness :
  let t := mkTwitch (PStr "cid") PNone (PStr "tok") PNone true None in
  get_channel_info (PStr "1234") (t, echo_world (PDict [("data", PList [])]))
  = (Ok PNone,
     (t, after_request (api_get t APIURL.Channels [("broadcaster_id", PStr "1234")])
           (echo_world (PDict [("data", PList [])])))).
Proof.
  intros t.
  apply (get_channel_info_result (PStr "1234") t
           (echo_world (PDict [("data", PList [])]))
           (json_reply (PDict [("data", PList [])])) [("data", PList [])]
           eq_refl eq_refl eq_refl).
  right. reflexivity.
Defined.

(** X16. An answer whose status is neither 200 nor 401 is not an error
    for the caller: [get_channel_info] returns [None], prints one line
    with the text of the answer, and leaves the session as it was. *)
Theorem get_channel_info_bad_status (user_id : pyval) (t : Twitch) (w : World)
  (resp : Response) :
  net w (List.length (sent w))
    (api_get t APIURL.Channels [("broadcaster_id", user_id)]) = Reply resp ->
  status_code resp <> 200 -> status_code resp <> 401 ->
  get_channel_info user_id (t, w)
  = (Ok PNone,
     (t, after_print [Lit "Could not validate response, bad response ";
                      Lit (text resp)]
           (after_request
              (api_get t APIURL.Channels [("broadcaster_id", user_id)]) w))).
Proof.
  intros Hn H2 H4. unfold get_channel_info. unfold bind at 1.
  rewrite (attempt_request_get_refused _ _ t w resp Hn H2 H4). reflexivity.
Qed.

Lemma get_channel_info_bad_status_witness :
  fst (get_channel_info (PStr "1234")
         (mkTwitch (PStr "cid") PNone (PStr "tok") PNone true None,
          quiet_world 500))
  = Ok PNone.
Proof.
  rewrite (get_channel_info_bad_status (PStr "1234")
             (mkTwitch (PStr "cid") PNone (PStr "tok") PNone true None)
             (quiet_world 500) (mkResponse 500 [] "" None) eq_refl);
    [reflexivity | discriminate | discriminate].
Defined.

(** X17. An answer with status 401 whose [WWW-Authenticate] challenge is
    not the text the client compares with is taken for a valid answer: no
    re-authentication is tried and [get_channel_info] returns the first
    record of the [data] list of the 401 body, as for a status 200. *)
Theorem get_channel_info_401_accepted (user_id : pyval) (t : Twitch) (w : World)
  (resp : Response) (challenge : string) (d : list (string * pyval))
  (x : pyval) (l : list pyval) :
  net w (List.length (sent w))
    (api_get t APIURL.Channels [("broadcaster_id", user_id)]) = Reply resp ->
  status_code resp = 401 ->
  header (headers resp) "WWW-Authenticate" = Ok challenge ->
  challenge <> invalid_token_challenge ->
  body resp = Some (PDict d) -> kwarg d "data" PNone = PList (x :: l) ->
  get_channel_info user_id (t, w)
  = (Ok x,
     (t, after_request (api_get t APIURL.Channels [("broadcaster_id", user_id)]) w)).
Proof.
  intros Hn Hs Hh Hc B D.
  apply (proj2 (get_channel_info_of user_id t w _ resp
                  (attempt_request_get_401 _ _ t w resp challenge Hn Hs Hh Hc) d B)
           x l D).
Qed.

Lemma get_channel_info_401_accepted_witness :
  let t := mkTwitch (PStr "cid") PNone (PStr "tok") PNone true None in
  let v := PDict [("data", PList [PDict [("title", PStr "x")]])] in
  fst (get_channel_info (PStr "1234") (t, unauthorized_world "Bearer" v))
  = Ok (PDict [("title", PStr "x")]).
Proof.
  intros t v.
  rewrite (get_channel_info_401_accepted (PStr "1234") t
             (unauthorized_world "Bearer" v)
             (mkResponse 401 [("WWW-Authenticate", "Bearer")] "" (Some v))
             "Bearer" [("data", PList [PDict [("title", PStr "x")]])]
             (PDict [("title", PStr "x")]) []);
    try reflexivity.
  discriminate.
Defined.

(** X18. [get_user_info] yields a record only when the lookup answers
    exactly one: for a 200 answer whose [data] is a list, the result is
    its element when the list has one element and [None] when it is empty
    or has several. *)
Theorem get_user_info_exactly_one (user : string) (t : Twitch) (w : World)
  (resp : Response) (d : list (string * pyval)) (l : list pyval) :
  net w (List.length (sent w))
    (api_get t APIURL.Users (lookup_params "id" "login" [user])) = Reply resp ->
  status_code resp = 200 ->
  body resp = Some (PDict d) -> kwarg d "data" (PList []) = PList l ->
  fst (get_user_info (PStr user) (t, w))
  = Ok (match l with [x] => x | _ => PNone end)
  /\ fst (snd (get_user_info (PStr user) (t, w))) = t.
Proof.
  intros Hn Hs B D.
  assert (G : exists w1,
             get_user_info (PStr user) (t, w)
             = (Ok (match l with [x] => x | _ => PNone end), (t, w1))).
  { eexists. unfold get_user_info. unfold bind at 1.
    change [PStr user] with (map PStr [user]).
    rewrite (get_users_info_200 [user] t w resp ltac:(cbn; lia) Hn Hs).
    unfold response_json. rewrite B. cbn [rbind]. rewrite method_get_dict, D.
    destruct l as [|x [|y l]]; try reflexivity.
    unfold bind, lift. cbn [truthy py_len].
    assert (N : (Z.of_nat (List.length (x :: y :: l)) =? 1) = false)
      by (apply Z.eqb_neq; cbn [List.length]; lia).
    rewrite N. reflexivity. }
  destruct G as [w1 G]. rewrite G. split; reflexivity.
Qed.

Lemma get_user_info_exactly_one_witness :
  let t := mkTwitch (PStr "cid") PNone (PStr "tok") PNone true None in
  let two := PList [PDict [("id", PStr "1")]; PDict [("id", PStr "2")]] in
  fst (get_user_info (PStr "alice") (t, echo_world (PDict [("data", two)])))
  = Ok PNone.
Proof.
  intros t two.
  destruct (get_user_info_exactly_one "alice" t (echo_world (PDict [("data", two)]))
              (json_reply (PDict [("data", two)])) [("data", two)]
              [PDict [("id", PStr "1")]; PDict [("id", PStr "2")]]
              eq_refl eq_refl eq_refl eq_refl) as [H _].
  exact H.
Defined.

(** X19. [get_videos_info] cannot be called with a list of video ids:
    building the set of its three arguments raises [TypeError] for every
    such list, before anything is sent.  Called with a user id alone, it
    sends one GET with the id under [user_id]; for a 200 answer it returns
    [None] when [data] is empty and otherwise the pair of the [data] list
    and the pagination cursor ([None] when there is none). *)
Theorem get_videos_info_by_user (user : string) (t : Twitch) (w : World)
  (resp : Response) (d p : list (string * pyval)) (l : list pyval) :
  (forall ids user_id game_id s,
     get_videos_info (PList ids) user_id game_id s = (Raise TypeError, s))
  /\ (user <> "" ->
      net w (List.length (sent w))
        (api_get t APIURL.Videos [("user_id", PStr user)]) = Reply resp ->
      status_code resp = 200 -> body resp = Some (PDict d) ->
      kwarg d "data" (PList []) = PList l ->
      kwarg d "pagination" (PDict []) = PDict p ->
      get_videos_info PNone (PStr user) PNone (t, w)
      = (Ok (match l with
             | [] => PNone
             | _ => PList [PList l; kwarg p "cursor" PNone]
             end),
         (t, after_request (api_get t APIURL.Videos [("user_id", PStr user)]) w))).
Proof.
  split; [reflexivity|].
  intros Hu Hn Hs B D P.
  assert (T : truthy (PStr user) = true) by (destruct user; [congruence | reflexivity]).
  unfold get_videos_info. cbn [forallb hashable is_none andb negb].
  rewrite T. cbn [truthy]. unfold bind at 1. unfold ret at 1.
  cbn [app]. unfold bind at 1.
  rewrite (attempt_request_get_200 _ _ t w resp Hn Hs).
  unfold bind, lift, response_json. rewrite B, !method_get_dict, D, P.
  rewrite method_get_dict. destruct l; reflexivity.
Qed.

Lemma get_videos_info_by_user_witness :
  let t := mkTwitch (PStr "cid") PNone (PStr "tok") PNone true None in
  let v := PDict [("data", PList [PDict [("url", PStr "https://v/1")]])] in
  fst (get_videos_info PNone (PStr "1234") PNone (t, echo_world v))
  = Ok (PList [PList [PDict [("url", PStr "https://v/1")]]; PNone]).
Proof.
  intros t v.
  rewrite (proj2 (get_videos_info_by_user "1234" t (echo_world v) (json_reply v)
                    [("data", PList [PDict [("url", PStr "https://v/1")]])] []
                    [PDict [("url", PStr "https://v/1")]])
             ltac:(discriminate) eq_refl eq_refl eq_refl eq_refl eq_refl).
  reflexivity.
Defined.

(** The outcome of a request answered 401 with the invalid-token
    challenge: one re-authentication, whose outcome decides. *)
Lemma attempt_request_get_expired (url : string) (params : list (string * pyval))
  (t : Twitch) (w : World) (resp : Response) :
  net w (List.length (sent w)) (api_get t url params) = Reply resp ->
  status_code resp = 401 ->
  header (headers resp) "WWW-Authenticate" = Ok invalid_token_challenge ->
  __attempt_request_get url params (t, w)
  = match __oauth (t, after_request (api_get t url params) w) with
    | (Ok _, s) => (Ok (Some resp), s)
    | (Raise e, (t', w')) =>
        if is_ValueError e
        then (Ok None, (t', after_print [Lit "Cannot validate user access"] w'))
        else (Raise e, (t', w'))
    end.
Proof.
  intros Hn Hs Hh. unfold __attempt_request_get, bind, self, io, zoom, http.
  cbn [fst snd]. fold (api_get t url params). rewrite Hn.
  unfold __validate_response, bind, lift. rewrite Hs, Hh. cbn [Z.eqb Pos.eqb].
  rewrite String.eqb_refl. unfold try_except, bind, ret.
  fold (after_request (api_get t url params) w).
  destruct (__oauth (t, after_request (api_get t url params) w)) as [[u|e] [t' w']];
    [reflexivity|].
  destruct (is_ValueError e); reflexivity.
Qed.

(** X28. A 401 answer carrying the invalid-token challenge triggers one
    re-authentication and no retry.  For a session without a refresh
    token, [get_channel_info] sends the lookup and one client-credentials
    exchange and nothing more.  When the exchange is refused the result is
    [None] and the session is unchanged; when it succeeds the new tokens
    are stored, yet the result is still read from the 401 answer ([None]
    when that answer has no [data]). *)
Theorem get_channel_info_no_retry (user_id : pyval) (t : Twitch) (w : World)
  (resp auth_resp : Response) (d : list (string * pyval)) :
  let req := api_get t APIURL.Channels [("broadcaster_id", user_id)] in
  let cred := credentials_request (_client_id t) (_client_secret t) (_scopes t) in
  _refresh_token t = PNone ->
  net w (List.length (sent w)) req = Reply resp ->
  status_code resp = 401 ->
  header (headers resp) "WWW-Authenticate" = Ok invalid_token_challenge ->
  body resp = Some (PDict d) -> kwarg d "data" PNone = PNone ->
  net w (S (List.length (sent w))) cred = Reply auth_resp ->
  (status_code auth_resp <> 200 ->
   fst (get_channel_info user_id (t, w)) = Ok PNone
   /\ fst (snd (get_channel_info user_id (t, w))) = t
   /\ sent (snd (snd (get_channel_info user_id (t, w)))) = (sent w ++ [req; cred])%list)
  /\ (forall a, status_code auth_resp = 200 -> body auth_resp = Some (PDict a) ->
      fst (get_channel_info user_id (t, w)) = Ok PNone
      /\ fst (snd (get_channel_info user_id (t, w)))
         = with_refresh_token (kwarg a "refresh_token" PNone)
             (with_access_token (kwarg a "access_token" PNone) t)
      /\ sent (snd (snd (get_channel_info user_id (t, w))))
         = (sent w ++ [req; cred])%list).
Proof.
  intros req cred Hr Hn Hs Hh B D Ha.
  assert (Ha1 : net (after_request req w) (List.length (sent (after_request req w))) cred
                = Reply auth_resp).
  { unfold after_request. cbn [net sent]. rewrite length_app. cbn [List.length].
    rewrite Nat.add_1_r. exact Ha. }
  pose proof (oauth_credentials t (after_request req w) auth_resp Hr Ha1) as O.
  cbv zeta in O. fold cred in O.
  pose proof (attempt_request_get_expired _ _ t w resp Hn Hs Hh) as G.
  fold req in G. rewrite O in G. clear O.
  assert (S2 : sent (after_request cred (after_request req w))
               = (sent w ++ [req; cred])%list).
  { unfold after_request. cbn [sent]. rewrite <- app_assoc. reflexivity. }
  split.
  - intros H2. apply Z.eqb_neq in H2. rewrite H2 in G. cbn [negb is_ValueError] in G.
    assert (E : get_channel_info user_id (t, w)
                = (Ok PNone,
                   (t, after_print [Lit "Cannot validate user access"]
                         (after_request cred (after_request req w))))).
    { unfold get_channel_info. unfold bind at 1. rewrite G. reflexivity. }
    rewrite E. repeat split. exact S2.
  - intros a H2 Ba. apply Z.eqb_eq in H2. rewrite H2, Ba in G. cbn [negb] in G.
    assert (E : exists w2,
               get_channel_info user_id (t, w)
               = (Ok PNone,
                  (with_refresh_token (kwarg a "refresh_token" PNone)
                     (with_access_token (kwarg a "access_token" PNone) t), w2))
               /\ sent w2 = (sent w ++ [req; cred])%list).
    { eexists. split.
      - unfold get_channel_info. unfold bind at 1. rewrite G.
        unfold bind, lift, response_json. rewrite B, method_get_dict, D. reflexivity.
      - destruct (is_none (kwarg a "access_token" PNone)); exact S2. }
    destruct E as (w2 & E & S3). rewrite E. repeat split. exact S3.
Qed.

Lemma get_channel_info_no_retry_witness :
  let t := mkTwitch (PStr "cid") (PStr "s") (PStr "old") PNone true None in
  let w := expired_token_world (PDict [("status", PInt 401)])
             (PDict [("access_token", PStr "new")]) in
  fst (get_channel_info (PStr "1234") (t, w)) = Ok PNone
  /\ fst (snd (get_channel_info (PStr "1234") (t, w)))
     = mkTwitch (PStr "cid") (PStr "s") (PStr "new") PNone true None
  /\ List.length (sent (snd (snd (get_channel_info (PStr "1234") (t, w))))) = 2%nat.
Proof.
  intros t w.
  destruct (proj2 (get_channel_info_no_retry (PStr "1234") t w
              (mkResponse 401 [("WWW-Authenticate", invalid_token_challenge)] ""
                 (Some (PDict [("status", PInt 401)])))
              (json_reply (PDict [("access_token", PStr "new")]))
              [("status", PInt 401)]
              eq_refl eq_refl eq_refl eq_refl eq_refl eq_refl eq_refl)
             [("access_token", PStr "new")] eq_refl eq_refl) as (H1 & H2 & H3).
  split; [exact H1|]. split; [rewrite H2; reflexivity | rewrite H3; reflexivity].
Defined.

(* ================================================================== *)
(** * Further properties of the script *)
(* ================================================================== *)

(** X20. Whatever the state of the script and of the world, and whether
    the start handler returns or raises, the streaming flag is set once
    the start event has been delivered. *)
Theorem start_event_sets_streaming (h : Host) :
  frontend_event_callbacks h = loaded_registry ->
  _is_streaming
    (discord_script (snd (handle_events OBS_FRONTEND_EVENT_STREAMING_STARTED h)))
  = true.
Proof.
  intros Hr. destruct h as [r s w]. cbn in Hr. subst r.
  unfold handle_events, bind, get.
  cbn [frontend_event_callbacks loaded_registry registry_get event_eqb for_each
       run_callback].
  unfold bind, in_script, ret. cbn [discord_script world frontend_event_callbacks].
  unfold __on_start, try_finally, on_this, modify.
  match goal with
  | |- context [try_except_else ?m ?c ?h ?k (s, w)] =>
      destruct (try_except_else m c h k (s, w)) as [[u|e] [s1 w1]]
  end; reflexivity.
Qed.

Lemma start_event_sets_streaming_witness :
  _is_streaming
    (discord_script
       (snd (handle_events OBS_FRONTEND_EVENT_STREAMING_STARTED
               (mkHost loaded_registry DiscordNotificationScript_new offline_world))))
  = true.
Proof.
  apply (start_event_sets_streaming
           (mkHost loaded_registry DiscordNotificationScript_new offline_world)).
  reflexivity.
Defined.

(** X21. Without a client object the start handler does not fail
    softly: the attribute lookup on [None] raises [AttributeError], which
    the handler does not catch; nothing is printed or sent, and the
    streaming flag is set all the same. *)
Theorem __on_start_without_client (s : DiscordNotificationScript) (w : World) :
  _twitch s = None ->
  __on_start (s, w) = (Raise AttributeError, (with_is_streaming true s, w)).
Proof.
  intros H.
  unfold __on_start, try_finally, try_except_else, __get_relavent_channel_info,
    twitch_authenticated, twitch_call, bind.
  cbn [fst snd]. rewrite H. reflexivity.
Qed.

Lemma __on_start_without_client_witness :
  __on_start (DiscordNotificationScript_new, quiet_world 200)
  = (Raise AttributeError,
     (with_is_streaming true DiscordNotificationScript_new, quiet_world 200)).
Proof.
  apply (__on_start_without_client DiscordNotificationScript_new (quiet_world 200)).
  reflexivity.
Defined.

(** ** The stop handler and the streaming flag *)

Section Streaming.

Context {A B : Type}.

Lemma keeps_ret (a : A) : keeps_streaming (ret a).
Proof. intros s w. reflexivity. Qed.

Lemma keeps_raise (e : exn) : keeps_streaming (@raise Env A e).
Proof. intros s w. reflexivity. Qed.

Lemma keeps_lift (r : res A) : keeps_streaming (lift r).
Proof. intros s w. reflexivity. Qed.

Lemma keeps_out (m : M World A) : keeps_streaming (out m).
Proof. intros s w. unfold out, zoom. cbn [fst snd]. destruct (m w). reflexivity. Qed.

Lemma keeps_twitch_call (m : M Session A) : keeps_streaming (twitch_call m).
Proof.
  intros s w. unfold twitch_call. cbn [fst snd].
  destruct (_twitch s) as [t|]; [|reflexivity].
  destruct (m (t, w)) as [r [t' w']]. reflexivity.
Qed.

Lemma keeps_bind (m : M Env A) (k : A -> M Env B) :
  keeps_streaming m -> (forall a, keeps_streaming (k a)) ->
  keeps_streaming (bind m k).
Proof.
  intros Hm Hk s w. unfold bind. specialize (Hm s w).
  destruct (m (s, w)) as [[a|e] [s1 w1]]; cbn [fst snd] in *.
  - rewrite <- Hm. apply Hk.
  - exact Hm.
Qed.

Lemma clears_raise (e : exn) : clears_streaming_on_return (@raise Env A e).
Proof. intros s w. reflexivity. Qed.

Lemma clears_bind (m : M Env A) (k : A -> M Env B) :
  keeps_streaming m -> (forall a, clears_streaming_on_return (k a)) ->
  clears_streaming_on_return (bind m k).
Proof.
  intros Hm Hk s w. unfold bind. specialize (Hm s w).
  destruct (m (s, w)) as [[a|e] [s1 w1]]; cbn [fst snd] in *.
  - specialize (Hk a s1 w1). destruct (k a (s1, w1)) as [[b|e] [s2 w2]]; congruence.
  - exact Hm.
Qed.

Lemma clears_final (m : M Env A) :
  keeps_streaming m ->
  clears_streaming_on_return (bind m (fun _ => on_this (with_is_streaming false))).
Proof.
  intros Hm s w. unfold bind. specialize (Hm s w).
  destruct (m (s, w)) as [[a|e] [s1 w1]]; cbn [fst snd] in *; [reflexivity | exact Hm].
Qed.

End Streaming.

Lemma keeps_this : keeps_streaming this.
Proof. intros s w. reflexivity. Qed.

Lemma keeps_get : keeps_streaming (@get Env).
Proof. intros s w. reflexivity. Qed.

Create HintDb streaming.
#[local] Hint Resolve keeps_this keeps_get : streaming.

Ltac keeps :=
  repeat first
    [ apply keeps_ret
    | apply keeps_raise
    | apply keeps_lift
    | apply keeps_out
    | apply keeps_twitch_call
    | solve [auto with streaming]
    | apply keeps_bind; [ | intros ]
    | match goal with
      | |- keeps_streaming (if ?c then _ else _) => destruct c
      | |- keeps_streaming (match ?x with _ => _ end) => destruct x
      | |- keeps_streaming (let _ := _ in _) => cbv zeta
      end ].

Ltac clears :=
  repeat first
    [ apply clears_raise
    | apply clears_final; keeps
    | apply clears_bind; [ keeps | intros ]
    | match goal with
      | |- clears_streaming_on_return (if ?c then _ else _) => destruct c
      | |- clears_streaming_on_return (match ?x with _ => _ end) => destruct x
      | |- clears_streaming_on_return (let _ := _ in _) => cbv zeta
      end ].

Lemma __on_stop_clears : clears_streaming_on_return __on_stop.
Proof. unfold __on_stop. clears. Qed.

(** X22. The stop handler clears the streaming flag exactly when it runs
    to its end: if it returns, the flag is false afterwards; if it raises,
    at whatever step, the flag is what it was before. *)
Theorem __on_stop_streaming_flag (s : DiscordNotificationScript) (w : World) :
  match fst (__on_stop (s, w)) with
  | Ok _ => _is_streaming (fst (snd (__on_stop (s, w)))) = false
  | Raise _ => _is_streaming (fst (snd (__on_stop (s, w)))) = _is_streaming s
  end.
Proof.
  pose proof (__on_stop_clears s w) as H.
  destruct (__on_stop (s, w)) as [[u|e] [s1 w1]]; exact H.
Qed.

(** ** Unloading *)

(** X23. [__unauthenticate_twitch] revokes only an authenticated
    session.  With no client, or a client that is not authenticated,
    nothing is sent and nothing changes.  With an authenticated client
    whose client id or token is missing or empty, [ValueError] escapes,
    nothing is sent and nothing changes.  With an authenticated client
    holding a non-empty client id and token, exactly one POST to the
    revoke endpoint is sent, carrying them: if it is answered, the client
    is kept, marked unauthenticated; if it fails in transport,
    [RequestException] escapes and the client stays authenticated. *)
Theorem __unauthenticate_twitch_spec (s : DiscordNotificationScript) (w : World) :
  (unauthenticated s -> __unauthenticate_twitch (s, w) = (Ok tt, (s, w)))
  /\ (forall t,
        _twitch s = Some t -> authenticated t = true ->
        let request :=
          mkRequest POST "https://id.twitch.tv/oauth2/revoke" []
            [("client_id", _client_id t); ("token", _access_token t)] None in
        let w' := mkWorld (net w) (sent w ++ [request]) (stdout w) (clock w)
                    (files w) in
        (truthy (_client_id t) = false \/ truthy (_access_token t) = false ->
         exists msg, __unauthenticate_twitch (s, w) = (Raise (ValueError msg), (s, w)))
        /\ (truthy (_client_id t) = true -> truthy (_access_token t) = true ->
            __unauthenticate_twitch (s, w)
            = match net w (List.length (sent w)) request with
              | Reply _ =>
                  (Ok tt, (with_twitch (Some (with_is_authenticated false t)) s, w'))
              | Unreachable => (Raise RequestException, (s, w'))
              end)).
Proof.
  split.
  - unfold unauthenticated, __unauthenticate_twitch, bind, this. cbn [fst].
    destruct (_twitch s) as [t|]; [|reflexivity]. intros ->. reflexivity.
  - intros t Ht Ha request w'.
    assert (Es : with_twitch (Some t) s = s).
    { destruct s. cbn in Ht. subst. reflexivity. }
    split.
    + intros H.
      unfold __unauthenticate_twitch, bind, this. cbn [fst]. rewrite Ht, Ha.
      unfold twitch_call. cbn [fst snd]. rewrite Ht.
      unfold revoke_my_access, revoke_access, bind, self, io, zoom, raise.
      cbn [fst snd].
      destruct (truthy (_client_id t)); cbn [negb].
      * destruct H as [H|H]; [discriminate|]. rewrite H. cbn [negb].
        rewrite Es. eauto.
      * rewrite Es. eauto.
    + intros Hc Hk.
      unfold __unauthenticate_twitch, bind, this. cbn [fst]. rewrite Ht, Ha.
      unfold twitch_call. cbn [fst snd]. rewrite Ht.
      unfold revoke_my_access, revoke_access, bind, self, io, zoom, http, on_self,
        modify, ret.
      cbn [fst snd]. rewrite Hc, Hk. cbn [negb].
      change (revoke_request (_client_id t) (_access_token t)) with request.
      destruct (net w (List.length (sent w)) request); cbn [fst snd];
        [reflexivity | rewrite Es; reflexivity].
Qed.

(** Instances: nothing happens without a client; an answered revoke
    keeps the client, marked unauthenticated; a revoke that cannot reach
    the network raises and leaves the client authenticated. *)
Lemma __unauthenticate_twitch_spec_witness :
  let t := mkTwitch (PStr "cid") PNone (PStr "tok") PNone true None in
  let s := mkScript None None (PStr "alice") 72 "twitch.json" [] (Some t)
             true true true false in
  __unauthenticate_twitch (DiscordNotificationScript_new, offline_world)
  = (Ok tt, (DiscordNotificationScript_new, offline_world))
  /\ _twitch (fst (snd (__unauthenticate_twitch (s, quiet_world 200))))
     = Some (mkTwitch (PStr "cid") PNone (PStr "tok") PNone false None)
  /\ fst (__unauthenticate_twitch (s, offline_world)) = Raise RequestException
  /\ _twitch (fst (snd (__unauthenticate_twitch (s, offline_world)))) = Some t.
Proof.
  intros t s. split; [|split; [|split]].
  - apply (proj1 (__unauthenticate_twitch_spec DiscordNotificationScript_new
                    offline_world)).
    exact I.
  - rewrite (proj2 (proj2 (__unauthenticate_twitch_spec s (quiet_world 200))
                      t eq_refl eq_refl) eq_refl eq_refl).
    reflexivity.
  - rewrite (proj2 (proj2 (__unauthenticate_twitch_spec s offline_world)
                      t eq_refl eq_refl) eq_refl eq_refl).
    reflexivity.
  - rewrite (proj2 (proj2 (__unauthenticate_twitch_spec s offline_world)
                      t eq_refl eq_refl) eq_refl eq_refl).
    reflexivity.
Defined.

(** ** Authentication when the frontend has loaded *)

Lemma load_json_file_none (path : string) (w : World) :
  no_credentials_at w path ->
  exists w', load_json_file path w = (Ok PNone, w')
             /\ sent w' = sent w /\ files w' = files w.
Proof.
  unfold no_credentials_at, load_json_file, bind, get, print, modify, ret.
  destruct (files w path) as [|v|m| |m]; intros H; try subst v;
    eexists; repeat split.
Qed.

Lemma __authenticate_twitch_none (s : DiscordNotificationScript) (w : World) :
  no_credentials_at w (_twitch_auth_path s) ->
  exists w', __authenticate_twitch (s, w) = (Ok tt, (s, w'))
             /\ sent w' = sent w.
Proof.
  intros H.
  destruct (load_json_file_none (_twitch_auth_path s)
              (after_print [Lit "Authenticating with twitch..."] w) H)
    as (w1 & L & S & _).
  unfold __authenticate_twitch, bind, this, try_except_else.
  unfold out at 1, zoom, print, modify. cbn [fst snd].
  fold (after_print [Lit "Authenticating with twitch..."] w).
  unfold out at 1, zoom. cbn [fst snd]. rewrite L. cbn [is_none].
  unfold out, zoom, print, modify. cbn [fst snd].
  eexists. split; [reflexivity|]. cbn [sent]. exact S.
Qed.

Lemma __attempt_authentication_none (b : bool) (s : DiscordNotificationScript)
  (w : World) :
  no_credentials_at w (_twitch_auth_path s) ->
  exists w', __attempt_authentication b (s, w) = (Ok tt, (s, w'))
             /\ sent w' = sent w.
Proof.
  intros H. unfold __attempt_authentication, bind, get. cbn [fst snd].
  match goal with
  | |- context [if ?c then _ else _] => destruct c
  end.
  - apply __authenticate_twitch_none, H.
  - exists w. split; reflexivity.
Qed.

(** X24. A credentials path that names no file, or a file that cannot be
    read, is not JSON or holds [null], is not fatal: the frontend-loaded
    handler returns normally, sends nothing, leaves the client as it was
    and marks the script loaded. *)
Theorem frontend_loaded_without_credentials (s : DiscordNotificationScript)
  (w : World) :
  no_credentials_at w (_twitch_auth_path s) ->
  fst (__on_frontend_loaded (s, w)) = Ok tt
  /\ fst (snd (__on_frontend_loaded (s, w))) = with_loaded true s
  /\ sent (snd (snd (__on_frontend_loaded (s, w)))) = sent w.
Proof.
  intros H.
  destruct (__attempt_authentication_none true s
              (after_print [Lit "Frontend has loaded, attempting authentication"] w) H)
    as (w1 & E & S).
  assert (G : __on_frontend_loaded (s, w) = (Ok tt, (with_loaded true s, w1))).
  { unfold __on_frontend_loaded, bind.
    unfold out at 1, zoom, print, modify. cbn [fst snd].
    fold (after_print [Lit "Frontend has loaded, attempting authentication"] w).
    rewrite E. reflexivity. }
  rewrite G. repeat split. exact S.
Qed.

Lemma frontend_loaded_without_credentials_witness :
  fst (__on_frontend_loaded (DiscordNotificationScript_new, quiet_world 200)) = Ok tt
  /\ fst (snd (__on_frontend_loaded (DiscordNotificationScript_new, quiet_world 200)))
     = with_loaded true DiscordNotificationScript_new
  /\ sent (snd (snd (__on_frontend_loaded
                       (DiscordNotificationScript_new, quiet_world 200))))
     = [].
Proof.
  apply (frontend_loaded_without_credentials DiscordNotificationScript_new
           (quiet_world 200)).
  exact I.
Defined.

(** Construction from an access token, when the validation request is
    answered. *)
Lemma Twitch_new_token_outcome (auth : list (string * pyval)) (tok : pyval)
  (scopes : option (list string)) (w : World) (resp : Response) :
  kwarg auth "access_token" PNone = tok -> truthy tok = true ->
  net w (List.length (sent w)) (validate_request tok) = Reply resp ->
  Twitch_new (PDict auth) scopes w
  = (Ok (mkTwitch PNone PNone tok PNone false scopes),
     after_print [Lit "Could not authenticate with twitch, invalid credentials."]
       (after_request (validate_request tok) w)).
Proof.
  intros Ha Ht Hn.
  assert (En : is_none tok = false) by (destruct tok; try reflexivity; discriminate).
  unfold Twitch_new, __init__, validate_token, bind, lift, io, zoom, print, on_self,
    modify, self, http, response_eq_int, ret.
  rewrite !method_get_dict. cbv beta. cbn [fst snd].
  rewrite Ha, En. cbn [negb]. cbv beta iota zeta.
  cbn [fst snd _access_token with_access_token blank]. rewrite Ht. cbn [negb].
  cbv beta iota zeta. cbn [fst snd net sent].
  fold (validate_request tok). rewrite Hn. reflexivity.
Qed.

Lemma Twitch_new_no_credentials (auth : list (string * pyval))
  (scopes : option (list string)) (w : World) :
  kwarg auth "access_token" PNone = PNone ->
  kwarg auth "client_id" PNone = PNone \/ kwarg auth "client_secret" PNone = PNone ->
  Twitch_new (PDict auth) scopes w
  = (Raise (ValueError
       "Could not authtenticate with twitch, invalid credentials provided"), w).
Proof.
  intros Ha Hc. unfold Twitch_new, __init__, bind, lift.
  rewrite !method_get_dict, Ha. cbn [is_none negb].
  destruct Hc as [-> | ->]; cbn [is_none negb andb]; [reflexivity|].
  rewrite andb_false_r. reflexivity.
Qed.

(** The authentication attempt on a readable credentials file, in terms
    of the constructor. *)
Lemma __on_frontend_loaded_with_file (s : DiscordNotificationScript) (w : World)
  (auth : list (string * pyval)) :
  files w (_twitch_auth_path s) = FileJson (PDict auth) ->
  unauthenticated s ->
  let w1 := after_print [Lit "Authenticating with twitch..."]
              (after_print [Lit "Frontend has loaded, attempting authentication"] w) in
  __on_frontend_loaded (s, w)
  = match Twitch_new (PDict auth) None w1 with
    | (Ok t, w2) =>
        if authenticated t
        then (Ok tt,
              (with_loaded true (with_twitch (Some t) s),
               after_print
                 [Lit "Twitch Authentication successful, access token acquired."] w2))
        else (Ok tt,
              (with_loaded true (with_twitch None s),
               after_print
                 [Lit "Could not authenticate with twitch, please check your client_id, client_secret, or access_token are valid"]
                 w2))
    | (Raise e, w2) => (Raise e, (s, w2))
    end.
Proof.
  intros F U w1. subst w1.
  unfold __on_frontend_loaded, __attempt_authentication, __authenticate_twitch,
    load_json_file, try_except_else, bind, this, get, out, zoom, print,
    on_this, modify, ret, is_file.
  cbv beta iota zeta. cbn [fst snd files]. rewrite F. cbn [andb].
  assert (C : match _twitch s with
              | Some t => negb (authenticated t)
              | None => true
              end = true).
  { unfold unauthenticated in U. destruct (_twitch s); [rewrite U|]; reflexivity. }
  rewrite C. cbv beta iota zeta. cbn [fst snd files]. rewrite F.
  cbv beta iota zeta. cbn [fst snd is_none]. unfold after_print.
  cbn [net sent stdout clock files].
  match goal with
  | |- context [Twitch_new ?a ?b ?c] => destruct (Twitch_new a b c) as [[t|e] w2]
  end; [destruct (authenticated t)|]; destruct s; reflexivity.
Qed.

(** X25. Credentials that hold a non-empty access token never give the
    script a client: whatever the validation endpoint answers, the
    frontend-loaded handler sends the one validation request, returns
    normally, and leaves the script without a client and marked loaded. *)
Theorem frontend_loaded_with_token (s : DiscordNotificationScript) (w : World)
  (auth : list (string * pyval)) (resp : Response) :
  files w (_twitch_auth_path s) = FileJson (PDict auth) ->
  unauthenticated s ->
  truthy (kwarg auth "access_token" PNone) = true ->
  net w (List.length (sent w))
    (validate_request (kwarg auth "access_token" PNone)) = Reply resp ->
  fst (__on_frontend_loaded (s, w)) = Ok tt
  /\ fst (snd (__on_frontend_loaded (s, w))) = with_loaded true (with_twitch None s)
  /\ sent (snd (snd (__on_frontend_loaded (s, w))))
     = (sent w ++ [validate_request (kwarg auth "access_token" PNone)])%list.
Proof.
  intros F U T Hn.
  rewrite (__on_frontend_loaded_with_file s w auth F U). cbv zeta.
  match goal with
  | |- context [Twitch_new _ None ?w1] =>
      rewrite (Twitch_new_token_outcome auth _ None w1 resp eq_refl T Hn)
  end.
  repeat split.
Qed.

(** X26. A credentials file that holds neither an access token nor both
    a client id and a client secret is fatal to the frontend-loaded
    handler: the [ValueError] of the constructor escapes it, nothing is
    sent, and the script is left as it was, not marked loaded. *)
Theorem frontend_loaded_bad_credentials (s : DiscordNotificationScript)
  (w : World) (auth : list (string * pyval)) :
  files w (_twitch_auth_path s) = FileJson (PDict auth) ->
  unauthenticated s ->
  kwarg auth "access_token" PNone = PNone ->
  kwarg auth "client_id" PNone = PNone \/ kwarg auth "client_secret" PNone = PNone ->
  fst (__on_frontend_loaded (s, w))
  = Raise (ValueError
      "Could not authtenticate with twitch, invalid credentials provided")
  /\ fst (snd (__on_frontend_loaded (s, w))) = s
  /\ sent (snd (snd (__on_frontend_loaded (s, w)))) = sent w.
Proof.
  intros F U Ha Hc.
  rewrite (__on_frontend_loaded_with_file s w auth F U). cbv zeta.
  match goal with
  | |- context [Twitch_new _ None ?w1] =>
      rewrite (Twitch_new_no_credentials auth None w1 Ha Hc)
  end.
  repeat split.
Qed.

Lemma frontend_loaded_with_token_witness :
  fst (__on_frontend_loaded
         (DiscordNotificationScript_new,
          world_with_file (PDict [("access_token", PStr "abc123")])))
  = Ok tt
  /\ _twitch (fst (snd (__on_frontend_loaded
         (DiscordNotificationScript_new,
          world_with_file (PDict [("access_token", PStr "abc123")])))))
     = None.
Proof.
  destruct (frontend_loaded_with_token DiscordNotificationScript_new
              (world_with_file (PDict [("access_token", PStr "abc123")]))
              [("access_token", PStr "abc123")] (mkResponse 200 [] "" None)
              eq_refl I eq_refl eq_refl) as (H1 & H2 & _).
  split; [exact H1 | rewrite H2; reflexivity].
Defined.

Lemma frontend_loaded_bad_credentials_witness :
  fst (__on_frontend_loaded
         (DiscordNotificationScript_new,
          world_with_file (PDict [("client_id", PStr "cid")])))
  = Raise (ValueError
      "Could not authtenticate with twitch, invalid credentials provided")
  /\ _loaded (fst (snd (__on_frontend_loaded
         (DiscordNotificationScript_new,
          world_with_file (PDict [("client_id", PStr "cid")])))))
     = false.
Proof.
  destruct (frontend_loaded_bad_credentials DiscordNotificationScript_new
              (world_with_file (PDict [("client_id", PStr "cid")]))
              [("client_id", PStr "cid")] eq_refl I eq_refl
              (or_intror eq_refl)) as (H1 & H2 & _).
  split; [exact H1 | rewrite H2; reflexivity].
Defined.

(** ** The box-art width *)




